(** * VAAPI hardware-decode glue (ffmpeg_vaapi.c): surface pool, decode
      configuration, format negotiation and image retrieval.

    The C file is embedded shallowly.  Every call that leaves the file
    (libva driver entry points, libavutil allocation and reference
    counting, logging) is recorded as an [event] in a trace, and the
    answer the outside world gives to such a call is read from an
    environment record passed to the function.  Objects owned by the file
    (VAAPIConfig, VAAPIFrame, VAAPIImage, the frame being filled) are
    records that are passed in and handed back. *)

From Stdlib Require Import ZArith Lia String.
From stdpp Require Import base list.

Local Open Scope Z_scope.

(** ** Constants of the headers the file includes *)

(** va.h *)
Definition VA_INVALID_ID : Z := 0xffffffff.
Definition VA_STATUS_SUCCESS : Z := 0.
Definition VA_FOURCC_NV12 : Z := 0x3231564E.
Definition VA_FOURCC_YV12 : Z := 0x32315659.

(** errno.h, libavutil/error.h *)
Definition ENOMEM : Z := 12.
Definition EINVAL : Z := 22.
Definition AVERROR (e : Z) : Z := - e.
Definition AVERROR_UNKNOWN : Z := - 0x4E4B4E55.

(** libavcodec/avcodec.h *)
Definition FF_THREAD_FRAME : Z := 1.
Definition FF_THREAD_SLICE : Z := 2.

(** libavutil/pixfmt.h: the pixel formats the file names. *)
Inductive AVPixelFormat :=
| AV_PIX_FMT_NONE
| AV_PIX_FMT_YUV420P
| AV_PIX_FMT_NV12
| AV_PIX_FMT_VAAPI_VLD.

Definition pix_fmt_eqb (a b : AVPixelFormat) : bool :=
  match a, b with
  | AV_PIX_FMT_NONE, AV_PIX_FMT_NONE
  | AV_PIX_FMT_YUV420P, AV_PIX_FMT_YUV420P
  | AV_PIX_FMT_NV12, AV_PIX_FMT_NV12
  | AV_PIX_FMT_VAAPI_VLD, AV_PIX_FMT_VAAPI_VLD => true
  | _, _ => false
  end.

(** 32-bit views of a value, for the places where the C code stores an
    unsigned driver value into an [int]. *)
Definition to_int32 (x : Z) : Z := (x + 2 ^ 31) mod 2 ^ 32 - 2 ^ 31.

(** ** Outcomes

    [Fault] is undefined behaviour reached by the C code (a NULL or
    out-of-bounds access); [Abort] is a failed [av_assert0]. *)
Inductive outcome (A : Type) : Type :=
| Ok (a : A)
| Fault
| Abort.
Arguments Ok {A} a.
Arguments Fault {A}.
Arguments Abort {A}.

#[global] Instance outcome_bind : MBind outcome := fun A B k m =>
  match m with
  | Ok a => k a
  | Fault => Fault
  | Abort => Abort
  end.

#[global] Instance outcome_fmap : FMap outcome := fun A B f m =>
  match m with
  | Ok a => Ok (f a)
  | Fault => Fault
  | Abort => Abort
  end.

(** ** Calls that leave the file *)

(** Host-side objects obtained from av_malloc and friends. *)
Inductive host_obj :=
| HConfig | HSurfaces | HSurfaceUsed | HFrame | HImage | HFormats
| HContext | HTmpFrame | HVaapiCtx.

(** Reference-counted buffers that live outside the object at hand:
    ctx->self, of which configs and images hold references. *)
Inductive ref_buf := RCtxSelf.

Inductive event :=
| EvDestroySurfaces (display : Z) (surfaces : option (list Z)) (num : Z)
| EvDestroyContext (display : Z) (context_id : Z)
| EvDestroyConfig (display : Z) (config_id : Z)
| EvCreateSurfaces (display : Z) (width height : Z) (num : Z) (status : Z)
| EvCreateConfig (display : Z) (profile : Z) (status : Z)
| EvCreateContext (display : Z) (config_id : Z) (width height : Z)
                  (surfaces : list Z) (num : Z) (status : Z)
| EvCreateImage (display : Z) (fourcc : Z) (width height : Z) (status : Z)
                (image_id buf : Z)
| EvGetImage (display : Z) (surface : Z) (width height : Z) (image_id : Z)
             (status : Z)
| EvMapBuffer (display : Z) (buf : Z) (status : Z)
| EvUnmapBuffer (display : Z) (buf : Z)
| EvDestroyImage (display : Z) (image_id : Z)
| EvQueryImageFormats (display : Z) (status : Z)
| EvInitialize (display : Z) (status : Z)
| EvTerminate (display : Z)
| EvClose (fd : Z)
| EvDrmClose (fd : Z)
| EvXCloseDisplay (dpy : Z)
| EvAlloc (o : host_obj)
| EvFree (o : host_obj)
| EvRef (r : ref_buf)
| EvUnref (r : ref_buf)
| EvFrameUnref
| EvLog (msg : string).

Definition trace := list event.

(** av_freep on a field: frees when the pointer is set, no-op on NULL. *)
Definition av_freep (o : host_obj) (present : bool) : trace :=
  if present then [EvFree o] else [].

Definition is_some {A} (o : option A) : bool :=
  match o with Some _ => true | None => false end.

(** ** The structs of the file *)

(** struct VAAPIConfig.  [ctx] is the pointer to the owning device
    context, of which the code here only reads [display]; [ctx_buf] tells
    whether the config holds its counted reference to that context.
    [surfaces] and [surface_used] are the two heap arrays, [None] for
    NULL. *)
Record VAAPIConfig := {
  ctx_buf : bool;
  ctx : option Z;
  config_id : Z;
  context_id : Z;
  surfaces : option (list Z);
  surface_used : option (list Z);
  nb_surfaces : Z
}.

(** The AVBufferRef created around a VAAPIConfig: the object, and the
    number of references outstanding (one held by the device context while
    the config is current, one by each checked-out frame). *)
Record config_buf := {
  config : VAAPIConfig;
  refcount : Z
}.

(** struct VAAPIFrame.  [used] is the slot i such that the C pointer is
    [&config->surface_used[i]].  The C field [config] is a counted
    reference to the config buffer the frame was checked out of; the model
    passes that buffer explicitly to [vaapi_release_buffer]. *)
Record VAAPIFrame := {
  fr_display : Z;
  used : nat
}.

(** VAImage (va.h), the fields the file reads. *)
Record VAImage := {
  image_id : Z;
  buf : Z;
  data_size : Z;
  num_planes : Z;
  pitches : list Z;
  offsets : list Z
}.

(** struct VAAPIImage.  [img_ctx] is the pointer to the device context,
    of which the free callback reads [display]; [img_ctx_buf] tells
    whether the image holds its counted reference to that context. *)
Record VAAPIImage := {
  img_ctx : option Z;
  img_ctx_buf : bool;
  image : VAImage
}.

(** An AVBuffer made by av_buffer_create in this file: the data pointer
    and the opaque argument of its free callback. *)
Inductive AVBuffer :=
| SurfaceBuf (slot : nat) (priv : VAAPIFrame)
| ImageBuf (data : Z) (size : Z) (img : VAAPIImage).

(** AVFrame (libavutil/frame.h), the fields the file touches; [props]
    stands for the metadata av_frame_copy_props carries over. *)
Record AVFrame := {
  format : AVPixelFormat;
  width : Z;
  height : Z;
  data : list Z;
  linesize : list Z;
  buf0 : option AVBuffer;
  opaque : option VAAPIFrame;
  props : Z
}.

Definition AV_NUM_DATA_POINTERS : nat := 8.

(** A frame as av_frame_alloc / av_frame_unref leave it. *)
Definition blank_frame : AVFrame :=
  {| format := AV_PIX_FMT_NONE; width := 0; height := 0;
     data := replicate AV_NUM_DATA_POINTERS 0;
     linesize := replicate AV_NUM_DATA_POINTERS 0;
     buf0 := None; opaque := None; props := 0 |}.

(** ** vaapi_free_config *)

Definition vaapi_free_config (c : VAAPIConfig) : outcome trace :=
  match ctx c with
  | None => Fault
  | Some display =>
      Ok ([EvDestroySurfaces display (surfaces c) (nb_surfaces c)]
          ++ av_freep HSurfaces (is_some (surfaces c))
          ++ av_freep HSurfaceUsed (is_some (surface_used c))
          ++ (if negb (context_id c =? VA_INVALID_ID)
              then [EvDestroyContext display (context_id c)] else [])
          ++ (if negb (config_id c =? VA_INVALID_ID)
              then [EvDestroyConfig display (config_id c)] else [])
          ++ (if ctx_buf c then [EvUnref RCtxSelf] else [])
          ++ [EvFree HConfig])
  end.

(** Modelled from the spec: av_buffer_unref (libavutil/buffer.c is not
    among the sources) on a reference to the config buffer.  The buffer is
    a reference count "wrapping an owned resource, with destruction logic
    invoked exactly once when the count reaches zero": the count drops by
    one and the free callback, vaapi_free_config, runs when it was the
    last reference. *)
Definition config_buf_unref (b : config_buf) : outcome (option config_buf * trace) :=
  if refcount b =? 1 then
    t ← vaapi_free_config (config b); Ok (None, t)
  else
    Ok (Some {| config := config b; refcount := refcount b - 1 |}, []).

(** ** vaapi_release_buffer *)

Definition set_surface_used (c : VAAPIConfig) (a : option (list Z)) : VAAPIConfig :=
  {| ctx_buf := ctx_buf c; ctx := ctx c; config_id := config_id c;
     context_id := context_id c; surfaces := surfaces c;
     surface_used := a; nb_surfaces := nb_surfaces c |}.

(** A store through a pointer into the flag array. *)
Definition write_used (c : VAAPIConfig) (i : nat) (v : Z) : outcome VAAPIConfig :=
  match surface_used c with
  | None => Fault
  | Some flags =>
      if decide (i < length flags)%nat
      then Ok (set_surface_used c (Some (<[i := v]> flags)))
      else Fault
  end.

Definition vaapi_release_buffer (priv : VAAPIFrame) (b : config_buf)
  : outcome (option config_buf * trace) :=
  c ← write_used (config b) (used priv) 0;
  '(b', t) ← config_buf_unref {| config := c; refcount := refcount b |};
  Ok (b', t ++ [EvFree HFrame]).

(** ** vaapi_get_buffer *)

(** What the allocator answers during one call. *)
Record get_buffer_env := {
  gb_mallocz_ok : bool;
  gb_buffer_ref_ok : bool;
  gb_buffer_create_ok : bool
}.

(** for (i = 0; i < nb_surfaces; i++) if (!surface_used[i]) break; *)
Fixpoint scan_free (flags : list Z) (i : nat) (todo : nat) : outcome nat :=
  match todo with
  | O => Ok i
  | S k =>
      match flags !! i with
      | None => Fault
      | Some u => if u =? 0 then Ok i else scan_free flags (S i) k
      end
  end.

Record get_buffer_result := {
  gb_ret : Z;
  gb_buf : config_buf;
  gb_frame : AVFrame;
  gb_trace : trace
}.

Definition set_frame_buf0 (f : AVFrame) (b : option AVBuffer) : AVFrame :=
  {| format := format f; width := width f; height := height f;
     data := data f; linesize := linesize f; buf0 := b;
     opaque := opaque f; props := props f |}.

Definition vaapi_get_buffer (e : get_buffer_env) (display : Z)
    (b : config_buf) (frame : AVFrame) : outcome get_buffer_result :=
  let c := config b in
  (* av_assert0(frame->format == AV_PIX_FMT_VAAPI_VLD) *)
  if negb (pix_fmt_eqb (format frame) AV_PIX_FMT_VAAPI_VLD) then Abort else
  i ← match surface_used c with
      | None => if 0 <? nb_surfaces c then Fault else Ok 0%nat
      | Some flags => scan_free flags 0 (Z.to_nat (nb_surfaces c))
      end;
  if Z.of_nat i =? nb_surfaces c then
    Ok {| gb_ret := AVERROR ENOMEM; gb_buf := b; gb_frame := frame;
          gb_trace := [EvLog "No free surfaces left."%string] |}
  else if negb (gb_mallocz_ok e) then
    Ok {| gb_ret := AVERROR ENOMEM; gb_buf := b; gb_frame := frame;
          gb_trace := [] |}
  else if negb (gb_buffer_ref_ok e) then
    (* goto fail: priv->config is NULL, priv is freed *)
    Ok {| gb_ret := AVERROR ENOMEM; gb_buf := b; gb_frame := frame;
          gb_trace := [EvAlloc HFrame; EvFree HFrame] |}
  else
    let b1 := {| config := c; refcount := refcount b + 1 |} in
    let priv := {| fr_display := display; used := i |} in
    if negb (gb_buffer_create_ok e) then
      (* return AVERROR(ENOMEM): priv and its config reference stay *)
      Ok {| gb_ret := AVERROR ENOMEM; gb_buf := b1;
            gb_frame := set_frame_buf0 frame None;
            gb_trace := [EvAlloc HFrame] |}
    else
      match surfaces c with
      | None => Fault
      | Some ids =>
          match ids !! i with
          | None => Fault
          | Some sid =>
              c' ← write_used c i 1;
              Ok {| gb_ret := 0;
                    gb_buf := {| config := c'; refcount := refcount b + 1 |};
                    gb_frame :=
                      {| format := format frame; width := width frame;
                         height := height frame;
                         data := <[3%nat := sid]> (data frame);
                         linesize := linesize frame;
                         buf0 := Some (SurfaceBuf i priv);
                         opaque := Some priv; props := props frame |};
                    gb_trace := [EvAlloc HFrame] |}
          end
      end.

(** ** Checkout and release as the pipeline drives them

    One config buffer, and the frame handles checked out of it that are
    still alive.  [pool] is [None] once the buffer's free callback has
    run. *)
Record pool_state := {
  pool : option config_buf;
  live : list VAAPIFrame
}.

Inductive pool_op :=
| Acquire (e : get_buffer_env)
| Release (h : VAAPIFrame).

Inductive pool_obs :=
| Acquired (ret : Z) (slot : option nat)
| Released
| NotLive.

#[global] Instance VAAPIFrame_eq_dec : EqDecision VAAPIFrame.
Proof. solve_decision. Defined.

(** The frame the decoder hands to get_buffer. *)
Definition hw_frame : AVFrame :=
  {| format := AV_PIX_FMT_VAAPI_VLD; width := 0; height := 0;
     data := replicate AV_NUM_DATA_POINTERS 0;
     linesize := replicate AV_NUM_DATA_POINTERS 0;
     buf0 := None; opaque := None; props := 0 |}.

(** The handle a call hands out: the VAAPIFrame behind frame->buf[0]. *)
Definition handle_of (r : get_buffer_result) : option VAAPIFrame :=
  if gb_ret r =? 0 then
    match buf0 (gb_frame r) with
    | Some (SurfaceBuf _ priv) => Some priv
    | _ => None
    end
  else None.

(** One operation of the pipeline.  A handle is released once, by the
    free callback of its buffer, so a release of a handle that is not
    alive does not occur: the step then leaves the state alone and
    reports [NotLive]. *)
Definition pool_step (display : Z) (st : pool_state) (op : pool_op)
  : outcome (pool_state * pool_obs) :=
  match op with
  | Acquire e =>
      match pool st with
      | None => Fault
      | Some b =>
          r ← vaapi_get_buffer e display b hw_frame;
          Ok ({| pool := Some (gb_buf r);
                 live := match handle_of r with
                         | Some h => h :: live st
                         | None => live st
                         end |},
              Acquired (gb_ret r) (used <$> handle_of r))
      end
  | Release h =>
      if decide (h ∈ live st) then
        match pool st with
        | None => Fault
        | Some b =>
            '(b', _) ← vaapi_release_buffer h b;
            Ok ({| pool := b';
                   live := filter (λ h', h' ≠ h) (live st) |}, Released)
        end
      else Ok (st, NotLive)
  end.

Fixpoint pool_run (display : Z) (st : pool_state) (ops : list pool_op)
  : outcome (pool_state * list pool_obs) :=
  match ops with
  | [] => Ok (st, [])
  | op :: ops' =>
      '(st1, o) ← pool_step display st op;
      '(st2, os) ← pool_run display st1 ops';
      Ok (st2, o :: os)
  end.

Definition ok_env : get_buffer_env :=
  {| gb_mallocz_ok := true; gb_buffer_ref_ok := true;
     gb_buffer_create_ok := true |}.

(** A config as a successful vaapi_create_config leaves it: both arrays
    present with nb_surfaces entries. *)
Definition pool_wf (c : VAAPIConfig) (ids flags : list Z) : Prop :=
  surfaces c = Some ids ∧ surface_used c = Some flags ∧
  length ids = length flags ∧ nb_surfaces c = Z.of_nat (length flags).

(** ** vaapi_create_config *)

Definition INT_MAX : Z := 2 ^ 31 - 1.

(** AVCodecContext, the fields the file reads. *)
Record AVCodecContext := {
  active_thread_type : Z;
  thread_count : Z;
  coded_width : Z;
  coded_height : Z
}.

(** What the outside answers during one vaapi_create_config call.
    [cc_profile] is the profile av_vaapi_get_profile stores, [None] when
    it returns a negative value.  [cc_garbage] is the content of the block
    av_malloc_array hands back (it is not cleared); [cc_new_surfaces] are
    the ids vaCreateSurfaces stores on success.  A driver call that fails
    is taken to leave its output argument as it was. *)
Record create_config_env := {
  cc_profile : option Z;
  cc_mallocz_ok : bool;
  cc_buffer_create_ok : bool;
  cc_ctx_ref_ok : bool;
  cc_surfaces_ok : bool;
  cc_garbage : nat → Z;
  cc_used_ok : bool;
  cc_create_surfaces : Z;
  cc_new_surfaces : nat → Z;
  cc_create_config : Z;
  cc_new_config_id : Z;
  cc_create_context : Z;
  cc_new_context_id : Z
}.

(** The return value, ctx->cur_config_buf after the call (ctx->cur_config
    is its object when the call returns 0), and the calls made. *)
Record create_config_result := {
  cc_ret : Z;
  cc_cur_config_buf : option config_buf;
  cc_trace : trace
}.

(** The object av_mallocz returns. *)
Definition zeroed_config : VAAPIConfig :=
  {| ctx_buf := false; ctx := None; config_id := 0; context_id := 0;
     surfaces := None; surface_used := None; nb_surfaces := 0 |}.

(** The fail label: the only reference to the new buffer is dropped, so
    its free callback runs. *)
Definition create_config_fail (c : VAAPIConfig) (t : trace)
  : outcome create_config_result :=
  '(_, t') ← config_buf_unref {| config := c; refcount := 1 |};
  Ok {| cc_ret := AVERROR_UNKNOWN; cc_cur_config_buf := None;
        cc_trace := t ++ t' |}.

(** av_malloc_array / av_mallocz_array (libavutil/mem.c is not among the
    sources): [granted] is the allocator's answer; a negative count is
    never granted, since it reaches the size_t parameter as a huge
    value. *)
Definition array_alloc {A} (granted : bool) (n : Z) (content : list A)
  : option (list A) :=
  if granted && (0 <=? n) then Some content else None.

Definition vaapi_create_config (e : create_config_env) (display : Z)
    (cur : option config_buf) (s : AVCodecContext)
  : outcome create_config_result :=
  match cc_profile e with
  | None =>
      Ok {| cc_ret := AVERROR EINVAL; cc_cur_config_buf := cur;
            cc_trace := [EvLog "No known VAAPI decoder profile for input stream #%d:%d."%string] |}
  | Some profile =>
      if negb (cc_mallocz_ok e) then
        Ok {| cc_ret := AVERROR ENOMEM; cc_cur_config_buf := cur; cc_trace := [] |}
      else if negb (cc_buffer_create_ok e) then
        Ok {| cc_ret := AVERROR ENOMEM; cc_cur_config_buf := None;
              cc_trace := [EvAlloc HConfig; EvFree HConfig] |}
      else if negb (cc_ctx_ref_ok e) then
        create_config_fail zeroed_config [EvAlloc HConfig]
      else
        let t1 := [EvAlloc HConfig; EvRef RCtxSelf] in
        (* config->nb_surfaces += s->thread_count: signed overflow is
           undefined *)
        nb ← (if active_thread_type s =? FF_THREAD_FRAME then
                if 16 + thread_count s >? INT_MAX then Fault
                else Ok (16 + thread_count s)
              else Ok 16);
        let mk ids flags cfg cxt :=
          {| ctx_buf := true; ctx := Some display; config_id := cfg;
             context_id := cxt; surfaces := ids; surface_used := flags;
             nb_surfaces := nb |} in
        let n := Z.to_nat nb in
        match array_alloc (cc_surfaces_ok e) nb (cc_garbage e <$> seq 0 n),
              array_alloc (cc_used_ok e) nb (replicate n 0) with
        | Some ids0, Some flags0 =>
            let t2 := t1 ++ [EvAlloc HSurfaces; EvAlloc HSurfaceUsed;
                             EvCreateSurfaces display (coded_width s)
                               (coded_height s) nb (cc_create_surfaces e)] in
            if negb (cc_create_surfaces e =? VA_STATUS_SUCCESS) then
              match ids0 with
              | [] => Fault
              | _ :: rest =>
                  create_config_fail
                    (mk (Some (VA_INVALID_ID :: rest)) (Some flags0)
                        VA_INVALID_ID VA_INVALID_ID)
                    (t2 ++ [EvLog "Error creating surfaces: %s"%string])
              end
            else
              let ids := cc_new_surfaces e <$> seq 0 n in
              let t3 := t2 ++ [EvCreateConfig display profile (cc_create_config e)] in
              if negb (cc_create_config e =? VA_STATUS_SUCCESS) then
                create_config_fail
                  (mk (Some ids) (Some flags0) VA_INVALID_ID VA_INVALID_ID)
                  (t3 ++ [EvLog "Error creating configuration: %s"%string])
              else
                let cfg := cc_new_config_id e in
                let t4 := t3 ++ [EvCreateContext display cfg (coded_width s)
                                   (coded_height s) ids nb (cc_create_context e)] in
                if negb (cc_create_context e =? VA_STATUS_SUCCESS) then
                  create_config_fail
                    (mk (Some ids) (Some flags0) cfg VA_INVALID_ID)
                    (t4 ++ [EvLog "Error creating the decoding context: %s"%string])
                else
                  Ok {| cc_ret := 0;
                        cc_cur_config_buf :=
                          Some {| config := mk (Some ids) (Some flags0) cfg
                                              (cc_new_context_id e);
                                  refcount := 1 |};
                        cc_trace := t4 |}
        | sa, ua =>
            create_config_fail (mk None None VA_INVALID_ID VA_INVALID_ID)
              (t1 ++ (if is_some sa then [EvAlloc HSurfaces] else [])
                  ++ (if is_some ua then [EvAlloc HSurfaceUsed] else [])
                  ++ av_freep HSurfaces (is_some sa)
                  ++ av_freep HSurfaceUsed (is_some ua))
        end
  end.

(** ** Reading a teardown trace *)

Definition is_destroy_surfaces (ev : event) : bool :=
  match ev with EvDestroySurfaces _ _ _ => true | _ => false end.
Definition is_destroy_context (ev : event) : bool :=
  match ev with EvDestroyContext _ _ => true | _ => false end.
Definition is_destroy_config (ev : event) : bool :=
  match ev with EvDestroyConfig _ _ => true | _ => false end.
Definition is_ctx_unref (ev : event) : bool :=
  match ev with EvUnref RCtxSelf => true | _ => false end.

(** Position of the first event of a kind. *)
Fixpoint first_index (P : event → bool) (t : trace) : option nat :=
  match t with
  | [] => None
  | ev :: t' => if P ev then Some O else S <$> first_index P t'
  end.

(** Both kinds of event occur, the first kind before the second. *)
Definition precedes (P Q : event → bool) (t : trace) : Prop :=
  ∃ i j, first_index P t = Some i ∧ first_index Q t = Some j ∧ (i < j)%nat.

(** ** The device context and format negotiation *)

(** VAImageFormat (va.h). *)
Record VAImageFormat := {
  fourcc : Z;
  byte_order : Z;
  bits_per_pixel : Z
}.

(** struct VAAPIContext.  [self_refs] is the reference count of the
    buffer behind [self]; pointers are 0 for NULL.  [cur_config] of the C
    struct is the object inside [cur_config_buf]. *)
Record VAAPIContext := {
  self_refs : Z;
  drm_fd : Z;
  dpy : Z;
  display : Z;
  cur_config_buf : option config_buf;
  img_fmt : VAImageFormat;
  pix_fmt : AVPixelFormat;
  tmp_frame : option AVFrame
}.

Definition set_format (c : VAAPIContext) (f : VAImageFormat) (p : AVPixelFormat)
  : VAAPIContext :=
  {| self_refs := self_refs c; drm_fd := drm_fd c; dpy := dpy c;
     display := display c; cur_config_buf := cur_config_buf c;
     img_fmt := f; pix_fmt := p; tmp_frame := tmp_frame c |}.

(** static const int vaapi_formats[][2] *)
Definition vaapi_formats : list (Z * AVPixelFormat) :=
  [ (VA_FOURCC_YV12, AV_PIX_FMT_YUV420P);
    (VA_FOURCC_NV12, AV_PIX_FMT_NV12) ].

(** [pf_max_formats] is vaMaxNumImageFormats; [pf_formats] are the
    entries vaQueryImageFormats stores at the front of the array,
    nb_formats being set to their number.  The array is only read after
    a successful query, so the model lets it hold those entries from the
    start. *)
Record pick_format_env := {
  pf_max_formats : Z;
  pf_alloc_ok : bool;
  pf_query_status : Z;
  pf_formats : list VAImageFormat
}.

Record pick_format_result := {
  pf_ret : Z;
  pf_ctx : VAAPIContext;
  pf_trace : trace
}.

(** for (j = 0; j < nb_formats; j++) if (fcc == formats[j].fourcc) ... *)
Fixpoint scan_formats (fcc : Z) (formats : list VAImageFormat)
  : option VAImageFormat :=
  match formats with
  | [] => None
  | f :: rest => if fcc =? fourcc f then Some f else scan_formats fcc rest
  end.

(** for (i = 0; i < FF_ARRAY_ELEMS(vaapi_formats); i++) ... *)
Fixpoint scan_table (table : list (Z * AVPixelFormat))
    (formats : list VAImageFormat) : option (VAImageFormat * AVPixelFormat) :=
  match table with
  | [] => None
  | (fcc, pix) :: rest =>
      match scan_formats fcc formats with
      | Some f => Some (f, pix)
      | None => scan_table rest formats
      end
  end.

Definition pick_format (e : pick_format_env) (c : VAAPIContext)
  : pick_format_result :=
  if pf_max_formats e =? 0 then
    {| pf_ret := AVERROR EINVAL; pf_ctx := c;
       pf_trace := [EvLog "No image formats supported."%string] |}
  else
    match array_alloc (pf_alloc_ok e) (pf_max_formats e) (pf_formats e) with
    | None => {| pf_ret := AVERROR ENOMEM; pf_ctx := c; pf_trace := [] |}
    | Some formats =>
        let t := [EvAlloc HFormats;
                  EvQueryImageFormats (display c) (pf_query_status e)] in
        if negb (pf_query_status e =? VA_STATUS_SUCCESS) then
          {| pf_ret := AVERROR EINVAL; pf_ctx := c;
             pf_trace := t ++ [EvLog "Error querying image formats: %s"%string;
                               EvFree HFormats] |}
        else
          match scan_table vaapi_formats formats with
          | Some (f, pix) =>
              {| pf_ret := 0; pf_ctx := set_format c f pix;
                 pf_trace := t ++ [EvFree HFormats] |}
          | None =>
              {| pf_ret := AVERROR EINVAL; pf_ctx := c;
                 pf_trace := t ++ [EvFree HFormats] |}
          end
    end.

(** The negotiation as the specification words it: the static list is
    intersected with the formats the driver enumerates, and the first
    match in the static list's order is taken. *)
Definition negotiate (driver : list VAImageFormat)
  : option (VAImageFormat * AVPixelFormat) :=
  head (vaapi_formats ≫= λ '(fcc, pix),
          (λ f, (f, pix)) <$> filter (λ f, fourcc f = fcc) driver).

(** ** vaapi_free_context, vaapi_uninit, vaapi_create_context *)

Record build_config := {
  HAVE_VAAPI_DRM : bool;
  HAVE_VAAPI_X11 : bool
}.

Definition vaapi_free_context (bc : build_config) (c : VAAPIContext) : trace :=
  (if HAVE_VAAPI_DRM bc then [EvClose (drm_fd c)] else [])
  ++ (if HAVE_VAAPI_X11 bc && negb (dpy c =? 0)
      then [EvXCloseDisplay (dpy c)] else [])
  ++ (if negb (display c =? 0) then [EvTerminate (display c)] else [])
  ++ av_freep HTmpFrame (is_some (tmp_frame c))
  ++ [EvFree HContext].

(** References on ctx->self given back inside a trace (by free callbacks
    of configs). *)
Definition ctx_unrefs (t : trace) : Z :=
  Z.of_nat (length (filter (λ ev, is_ctx_unref ev = true) t)).

Record uninit_result := {
  un_ctx : option VAAPIContext;
  un_config : option config_buf;
  un_trace : trace
}.

(** [hwaccel_ctx] is ist->hwaccel_ctx and [have_hwaccel_context] tells
    whether s->hwaccel_context is set.  [un_ctx] and [un_config] are the
    context and the config buffer as far as other holders keep them
    alive; ist->hwaccel_ctx itself is NULL afterwards. *)
Definition vaapi_uninit (bc : build_config) (hwaccel_ctx : option VAAPIContext)
    (have_hwaccel_context : bool) : outcome uninit_result :=
  match hwaccel_ctx with
  | None => Fault
  | Some c =>
      '(b', t1) ← match cur_config_buf c with
                  | Some b => config_buf_unref b
                  | None => Ok (None, [])
                  end;
      let t2 := t1 ++ av_freep HVaapiCtx have_hwaccel_context in
      let refs := self_refs c - ctx_unrefs t1 in
      let c1 := {| self_refs := refs - 1; drm_fd := drm_fd c; dpy := dpy c;
                   display := display c; cur_config_buf := None;
                   img_fmt := img_fmt c; pix_fmt := pix_fmt c;
                   tmp_frame := tmp_frame c |} in
      if refs =? 1 then
        Ok {| un_ctx := None; un_config := b';
              un_trace := t2 ++ vaapi_free_context bc c1 |}
      else
        Ok {| un_ctx := Some c1; un_config := b'; un_trace := t2 |}
  end.

Record create_context_env := {
  ci_mallocz_ok : bool;
  ci_buffer_create_ok : bool;
  ci_frame_alloc_ok : bool;
  ci_hwaccel_device : bool;
  ci_drmOpen : Z;
  ci_open : Z;
  ci_vaGetDisplayDRM : Z;
  ci_XOpenDisplay : Z;
  ci_vaGetDisplay : Z;
  ci_vaInitialize : Z;
  ci_pick : pick_format_env;
  ci_alloc_context_ok : bool
}.

Definition set_display (c : VAAPIContext) (fd xdpy d : Z) : VAAPIContext :=
  {| self_refs := self_refs c; drm_fd := fd; dpy := xdpy; display := d;
     cur_config_buf := cur_config_buf c; img_fmt := img_fmt c;
     pix_fmt := pix_fmt c; tmp_frame := tmp_frame c |}.

Definition vaapi_open_drm (e : create_context_env) (c : VAAPIContext)
  : VAAPIContext * trace :=
  if negb (ci_hwaccel_device e) then (c, [])
  else
    let fd := if ci_drmOpen e =? -1 then ci_open e else ci_drmOpen e in
    if fd =? -1 then
      (set_display c fd (dpy c) (display c),
       [EvLog "Cannot open DRM device %s: %s."%string])
    else if ci_vaGetDisplayDRM e =? 0 then
      (set_display c fd (dpy c) 0,
       [EvLog "Error getting a DRM VAAPI display."%string; EvDrmClose fd])
    else
      (set_display c fd (dpy c) (ci_vaGetDisplayDRM e),
       [EvLog "Successfully opened a VAAPI display on DRM device %s."%string]).

Definition vaapi_open_x11 (e : create_context_env) (c : VAAPIContext)
  : VAAPIContext * trace :=
  if ci_XOpenDisplay e =? 0 then
    (set_display c (drm_fd c) 0 (display c),
     [EvLog "Cannot open the X11 display %s."%string])
  else if ci_vaGetDisplay e =? 0 then
    (set_display c (drm_fd c) (ci_XOpenDisplay e) 0,
     [EvLog "Error getting an X11 VAAPI display."%string;
      EvXCloseDisplay (ci_XOpenDisplay e)])
  else
    (set_display c (drm_fd c) (ci_XOpenDisplay e) (ci_vaGetDisplay e),
     [EvLog "Successfully opened a VAAPI display on X11 display %s."%string]).

(** The object av_mallocz returns, with [self] in place. *)
Definition zeroed_context : VAAPIContext :=
  {| self_refs := 1; drm_fd := 0; dpy := 0; display := 0;
     cur_config_buf := None;
     img_fmt := {| fourcc := 0; byte_order := 0; bits_per_pixel := 0 |};
     pix_fmt := AV_PIX_FMT_YUV420P; tmp_frame := None |}.

Record create_context_result := {
  ci_ret : Z;
  ci_hwaccel_ctx : option VAAPIContext;
  ci_have_hwaccel_context : bool;
  ci_trace : trace
}.

(** The fail label.  vaapi_uninit reads ist->hwaccel_ctx, which this
    function assigns only on its successful exit. *)
Definition create_context_fail (bc : build_config)
    (hwaccel_ctx : option VAAPIContext) (have_hwaccel_context : bool)
    (t : trace) : outcome create_context_result :=
  u ← vaapi_uninit bc hwaccel_ctx have_hwaccel_context;
  Ok {| ci_ret := AVERROR EINVAL; ci_hwaccel_ctx := None;
        ci_have_hwaccel_context := false;
        ci_trace := t ++ [EvLog "VAAPI init failed for stream #%d:%d."%string]
                      ++ un_trace u |}.

Definition set_tmp_frame (c : VAAPIContext) (f : option AVFrame) : VAAPIContext :=
  {| self_refs := self_refs c; drm_fd := drm_fd c; dpy := dpy c;
     display := display c; cur_config_buf := cur_config_buf c;
     img_fmt := img_fmt c; pix_fmt := pix_fmt c; tmp_frame := f |}.

Definition vaapi_create_context (bc : build_config) (e : create_context_env)
    (hwaccel_ctx : option VAAPIContext) (have_hwaccel_context : bool)
  : outcome create_context_result :=
  let unchanged ret t :=
    Ok {| ci_ret := ret; ci_hwaccel_ctx := hwaccel_ctx;
          ci_have_hwaccel_context := have_hwaccel_context; ci_trace := t |} in
  let fail := create_context_fail bc hwaccel_ctx have_hwaccel_context in
  if negb (ci_mallocz_ok e) then unchanged (AVERROR ENOMEM) []
  else if negb (ci_buffer_create_ok e) then
    unchanged (AVERROR ENOMEM) [EvAlloc HContext; EvFree HContext]
  else if negb (ci_frame_alloc_ok e) then fail [EvAlloc HContext]
  else
    let c0 := set_tmp_frame zeroed_context (Some blank_frame) in
    let t0 := [EvAlloc HContext; EvAlloc HTmpFrame] in
    let '(c1, t1) := if HAVE_VAAPI_DRM bc then vaapi_open_drm e c0 else (c0, []) in
    let '(c2, t2) := if HAVE_VAAPI_X11 bc && (display c1 =? 0)
                     then vaapi_open_x11 e c1 else (c1, []) in
    let t := t0 ++ t1 ++ t2 in
    if display c2 =? 0 then
      fail (t ++ [EvLog "Could not open a VAAPI display."%string])
    else
      let t := t ++ [EvInitialize (display c2) (ci_vaInitialize e)] in
      if negb (ci_vaInitialize e =? VA_STATUS_SUCCESS) then
        fail (t ++ [EvLog "Error initializing VAAPI: %s"%string])
      else
        let p := pick_format (ci_pick e) c2 in
        let t := t ++ pf_trace p in
        if pf_ret p <? 0 then
          fail (t ++ [EvLog "No supported image format found."%string])
        else if negb (ci_alloc_context_ok e) then fail t
        else
          Ok {| ci_ret := 0; ci_hwaccel_ctx := Some (pf_ctx p);
                ci_have_hwaccel_context := true;
                ci_trace := t ++ [EvAlloc HVaapiCtx;
                                  EvLog "Using VAAPI version %d.%d -- %s -- to decode input stream #%d:%d."%string] |}.

(** ** vaapi_free_image and vaapi_retrieve_data *)

Definition vaapi_free_image (img : VAAPIImage) : outcome trace :=
  t1 ← (if negb (buf (image img) =? VA_INVALID_ID) then
          match img_ctx img with
          | None => Fault
          | Some d => Ok [EvUnmapBuffer d (buf (image img))]
          end
        else Ok []);
  t2 ← (if negb (image_id (image img) =? VA_INVALID_ID) then
          match img_ctx img with
          | None => Fault
          | Some d => Ok [EvDestroyImage d (image_id (image img))]
          end
        else Ok []);
  Ok (t1 ++ t2 ++ (if img_ctx_buf img then [EvUnref RCtxSelf] else [])
         ++ [EvFree HImage]).

(** What the outside answers during one vaapi_retrieve_data call.
    [rd_image] is the VAImage vaCreateImage stores on success, [rd_mapped]
    the address vaMapBuffer stores on success, [rd_copy_props] the value
    av_frame_copy_props returns.  A driver call that fails is taken to
    leave its output argument as it was. *)
Record retrieve_env := {
  rd_mallocz_ok : bool;
  rd_ctx_ref_ok : bool;
  rd_vaCreateImage : Z;
  rd_image : VAImage;
  rd_vaGetImage : Z;
  rd_vaMapBuffer : Z;
  rd_mapped : Z;
  rd_buffer_create_ok : bool;
  rd_copy_props : Z
}.

Record retrieve_result := {
  rd_ret : Z;
  rd_ctx : VAAPIContext;
  rd_frame : AVFrame;
  rd_trace : trace
}.

(** The VAImage inside a fresh VAAPIImage: zeroed, then both ids set to
    VA_INVALID_ID. *)
Definition blank_image : VAImage :=
  {| image_id := VA_INVALID_ID; buf := VA_INVALID_ID; data_size := 0;
     num_planes := 0; pitches := [0; 0; 0]; offsets := [0; 0; 0] |}.

(** for (i = 0; i < img->image.num_planes; i++) {
        tmp_frame->data[i]     = data + img->image.offsets[i];
        tmp_frame->linesize[i] = img->image.pitches[i];  } *)
Fixpoint fill_planes (base : Z) (im : VAImage) (i todo : nat)
    (d ls : list Z) : outcome (list Z * list Z) :=
  match todo with
  | O => Ok (d, ls)
  | S k =>
      match offsets im !! i, pitches im !! i with
      | Some off, Some p =>
          if decide (i < length d)%nat then
            fill_planes base im (S i) k (<[i := base + off]> d)
                        (<[i := to_int32 p]> ls)
          else Fault
      | _, _ => Fault
      end
  end.

(** Modelled from the spec: av_frame_copy_props (libavutil/frame.c is not
    among the sources) is the step that "copies over frame metadata
    (timestamps, etc.) from the original"; planes, strides, format,
    dimensions and buffers of the destination are not metadata and stay as
    they are.  [ret] is the value it returns, negative on failure. *)
Definition av_frame_copy_props (ret : Z) (dst src : AVFrame) : Z * AVFrame :=
  (ret,
   {| format := format dst; width := width dst; height := height dst;
      data := data dst; linesize := linesize dst; buf0 := buf0 dst;
      opaque := opaque src; props := props src |}).

(** Modelled from the spec: av_frame_unref (libavutil/frame.c is not
    among the sources) is the step "releasing the old
    hardware-surface-backed frame": the frame gives up its buffer and is
    reset.  An image buffer made here has the one reference just created,
    so its free callback runs; a surface buffer may be shared with the
    decoder, so only the drop is recorded. *)
Definition av_frame_unref (f : AVFrame) : outcome (AVFrame * trace) :=
  match buf0 f with
  | None => Ok (blank_frame, [])
  | Some (SurfaceBuf _ _) => Ok (blank_frame, [EvFrameUnref])
  | Some (ImageBuf _ _ img) =>
      t ← vaapi_free_image img; Ok (blank_frame, t)
  end.

(** FFSWAP(uint8_t*, frame->data[1], frame->data[2]) *)
Definition swap_chroma (d : list Z) : outcome (list Z) :=
  match d !! 1%nat, d !! 2%nat with
  | Some u, Some v => Ok (<[1%nat := v]> (<[2%nat := u]> d))
  | _, _ => Fault
  end.

Definition set_data (f : AVFrame) (d : list Z) : AVFrame :=
  {| format := format f; width := width f; height := height f;
     data := d; linesize := linesize f; buf0 := buf0 f;
     opaque := opaque f; props := props f |}.

Definition set_refs_tmp (c : VAAPIContext) (refs : Z) (f : option AVFrame)
  : VAAPIContext :=
  {| self_refs := refs; drm_fd := drm_fd c; dpy := dpy c;
     display := display c; cur_config_buf := cur_config_buf c;
     img_fmt := img_fmt c; pix_fmt := pix_fmt c; tmp_frame := f |}.

Definition vaapi_retrieve_data (e : retrieve_env) (c : VAAPIContext)
    (frame : AVFrame) : outcome retrieve_result :=
  let give ret c' f t :=
    Ok {| rd_ret := ret; rd_ctx := c'; rd_frame := f; rd_trace := t |} in
  ptr ← (match data frame !! 3%nat with Some p => Ok p | None => Fault end);
  let surface := ptr mod 2 ^ 32 in
  if negb (rd_mallocz_ok e) then give (AVERROR ENOMEM) c frame []
  else if negb (rd_ctx_ref_ok e) then
    give (AVERROR ENOMEM) c frame [EvAlloc HImage; EvFree HImage]
  else
    let refs := self_refs c + 1 in
    let img0 := {| img_ctx := Some (display c); img_ctx_buf := true;
                   image := blank_image |} in
    (* vaapi_free_image(img, NULL) followed by the return *)
    let bail img ret t c' :=
      tf ← vaapi_free_image img;
      give ret (set_refs_tmp c' (refs - ctx_unrefs tf) (tmp_frame c')) frame
           (t tf) in
    let created := rd_vaCreateImage e =? VA_STATUS_SUCCESS in
    let im := if created then rd_image e else blank_image in
    let t1 := [EvAlloc HImage; EvRef RCtxSelf;
               EvCreateImage (display c) (fourcc (img_fmt c)) (width frame)
                 (height frame) (rd_vaCreateImage e) (image_id im) (buf im)] in
    if negb created then
      bail img0 AVERROR_UNKNOWN
           (λ tf, t1 ++ tf ++ [EvLog "Error creating an image: %s"%string]) c
    else
      let img := {| img_ctx := Some (display c); img_ctx_buf := true;
                    image := im |} in
      let t2 := t1 ++ [EvGetImage (display c) surface (width frame)
                         (height frame) (image_id im) (rd_vaGetImage e)] in
      if negb (rd_vaGetImage e =? VA_STATUS_SUCCESS) then
        bail img AVERROR_UNKNOWN
             (λ tf, t2 ++ tf ++ [EvLog "Error getting an image: %s"%string]) c
      else
        let t3 := t2 ++ [EvMapBuffer (display c) (buf im) (rd_vaMapBuffer e)] in
        if negb (rd_vaMapBuffer e =? VA_STATUS_SUCCESS) then
          bail img AVERROR_UNKNOWN
               (λ tf, t3 ++ tf ++ [EvLog "Error mapping the image buffer: %s"%string]) c
        else
          match tmp_frame c with
          | None => Fault
          | Some tmp =>
              if negb (rd_buffer_create_ok e) then
                bail img (AVERROR ENOMEM) (λ tf, t3 ++ tf)
                     (set_refs_tmp c refs (Some (set_frame_buf0 tmp None)))
              else
                let base := rd_mapped e in
                '(d, ls) ← fill_planes base im 0 (Z.to_nat (num_planes im))
                                       (data tmp) (linesize tmp);
                let tmp1 :=
                  {| format := pix_fmt c; width := width frame;
                     height := height frame; data := d; linesize := ls;
                     buf0 := Some (ImageBuf base (data_size im) img);
                     opaque := opaque tmp; props := props tmp |} in
                let '(ret, tmp2) := av_frame_copy_props (rd_copy_props e) tmp1 frame in
                if ret <? 0 then
                  '(blank, tf) ← av_frame_unref tmp2;
                  give ret (set_refs_tmp c (refs - ctx_unrefs tf) (Some blank))
                       frame (t3 ++ tf)
                else
                  '(_, tu) ← av_frame_unref frame;
                  (* av_frame_move_ref(frame, ctx->tmp_frame) *)
                  let moved := tmp2 in
                  d' ← (if pix_fmt_eqb (format moved) AV_PIX_FMT_YUV420P
                        then swap_chroma (data moved) else Ok (data moved));
                  give ret (set_refs_tmp c refs (Some blank_frame))
                       (set_data moved d') (t3 ++ tu)
          end.

(** ** What a trace leaves allocated

    The driver images and buffer mappings, the references on the device
    context and the host VAAPIImage objects that the calls of a trace
    acquired and did not give back. *)
Record held := {
  held_images : list Z;
  held_mappings : list Z;
  held_ctx_refs : Z;
  held_host_images : Z
}.

Definition nothing_held : held :=
  {| held_images := []; held_mappings := []; held_ctx_refs := 0;
     held_host_images := 0 |}.

Definition drop (x : Z) (l : list Z) : list Z := filter (λ y, y ≠ x) l.

Definition account (h : held) (ev : event) : held :=
  match ev with
  | EvCreateImage _ _ _ _ st id _ =>
      if st =? VA_STATUS_SUCCESS then
        {| held_images := id :: held_images h;
           held_mappings := held_mappings h;
           held_ctx_refs := held_ctx_refs h;
           held_host_images := held_host_images h |}
      else h
  | EvDestroyImage _ id =>
      {| held_images := drop id (held_images h);
         held_mappings := held_mappings h;
         held_ctx_refs := held_ctx_refs h;
         held_host_images := held_host_images h |}
  | EvMapBuffer _ b st =>
      if st =? VA_STATUS_SUCCESS then
        {| held_images := held_images h;
           held_mappings := b :: held_mappings h;
           held_ctx_refs := held_ctx_refs h;
           held_host_images := held_host_images h |}
      else h
  | EvUnmapBuffer _ b =>
      {| held_images := held_images h;
         held_mappings := drop b (held_mappings h);
         held_ctx_refs := held_ctx_refs h;
         held_host_images := held_host_images h |}
  | EvRef RCtxSelf =>
      {| held_images := held_images h; held_mappings := held_mappings h;
         held_ctx_refs := held_ctx_refs h + 1;
         held_host_images := held_host_images h |}
  | EvUnref RCtxSelf =>
      {| held_images := held_images h; held_mappings := held_mappings h;
         held_ctx_refs := held_ctx_refs h - 1;
         held_host_images := held_host_images h |}
  | EvAlloc HImage =>
      {| held_images := held_images h; held_mappings := held_mappings h;
         held_ctx_refs := held_ctx_refs h;
         held_host_images := held_host_images h + 1 |}
  | EvFree HImage =>
      {| held_images := held_images h; held_mappings := held_mappings h;
         held_ctx_refs := held_ctx_refs h;
         held_host_images := held_host_images h - 1 |}
  | _ => h
  end.

Definition settle (t : trace) : held := foldl account nothing_held t.

(** The stage at which a retrieval stops, in the order the steps are
    taken, and the error each stage is reported with: the return value
    and, for the driver calls, the message logged last. *)
Inductive stage :=
| HostAllocation | ImageCreation | SurfaceCopy | Mapping | PropsCopy.

Definition first_failure (e : retrieve_env) : option stage :=
  if negb (rd_mallocz_ok e) then Some HostAllocation
  else if negb (rd_ctx_ref_ok e) then Some HostAllocation
  else if negb (rd_vaCreateImage e =? VA_STATUS_SUCCESS) then Some ImageCreation
  else if negb (rd_vaGetImage e =? VA_STATUS_SUCCESS) then Some SurfaceCopy
  else if negb (rd_vaMapBuffer e =? VA_STATUS_SUCCESS) then Some Mapping
  else if negb (rd_buffer_create_ok e) then Some HostAllocation
  else if rd_copy_props e <? 0 then Some PropsCopy
  else None.

Definition error_of (e : retrieve_env) (s : stage) : Z * option string :=
  match s with
  | HostAllocation => (AVERROR ENOMEM, None)
  | ImageCreation => (AVERROR_UNKNOWN, Some "Error creating an image: %s"%string)
  | SurfaceCopy => (AVERROR_UNKNOWN, Some "Error getting an image: %s"%string)
  | Mapping => (AVERROR_UNKNOWN, Some "Error mapping the image buffer: %s"%string)
  | PropsCopy => (rd_copy_props e, None)
  end.

(** What the driver promises about the VAImage it fills in: the two
    arrays have their three entries, at most three planes are declared,
    the pitches fit an int, and both ids are valid. *)
Definition image_wf (im : VAImage) : Prop :=
  length (pitches im) = 3%nat ∧ length (offsets im) = 3%nat ∧
  0 ≤ num_planes im ≤ 3 ∧
  Forall (λ p, 0 ≤ p < 2 ^ 31) (pitches im) ∧
  image_id im ≠ VA_INVALID_ID ∧ buf im ≠ VA_INVALID_ID.

(** ** Notions the statements are phrased with, and concrete inputs *)

(** What holds of a pool and its live handles between two operations:
    the arrays are in place, no two live handles share a slot, the slot
    of every live handle has its flag set, every set flag belongs to a
    live handle, and the buffer has more references than live handles
    (the device context holds one). *)
Definition pool_inv (display : Z) (ids : list Z) (st : pool_state) : Prop :=
  ∃ b flags,
    pool st = Some b ∧ pool_wf (config b) ids flags ∧
    NoDup (used <$> live st) ∧
    (∀ h, h ∈ live st → fr_display h = display ∧ flags !! used h = Some 1) ∧
    (∀ i u, flags !! i = Some u →
       u = 0 ∨ (u = 1 ∧ ∃ h, h ∈ live st ∧ used h = i)) ∧
    Z.of_nat (length (live st)) < refcount b.

(** A pool right after creation: every flag clear. *)
Definition fresh_pool (b : config_buf) (ids : list Z) : Prop :=
  pool_wf (config b) ids (replicate (length ids) 0) ∧ 1 ≤ refcount b.

(** The pool with no handle checked out yet. *)
Definition start (b : config_buf) : pool_state :=
  {| pool := Some b; live := [] |}.

(** The handles of slots k-1, ..., 0, most recent first. *)
Fixpoint first_handles (display : Z) (k : nat) : list VAAPIFrame :=
  match k with
  | O => []
  | S k' => {| fr_display := display; used := k' |} :: first_handles display k'
  end.

(** Concrete objects used to instantiate the statements below. *)
Definition demo_config : VAAPIConfig :=
  {| ctx_buf := true; ctx := Some 9; config_id := 5; context_id := 6;
     surfaces := Some [100; 101]; surface_used := Some [0; 0];
     nb_surfaces := 2 |}.

Definition demo_buf : config_buf := {| config := demo_config; refcount := 1 |}.

(** Both slots taken, the context and two frames holding references. *)
Definition busy_buf : config_buf :=
  {| config := set_surface_used demo_config (Some [1; 1]); refcount := 3 |}.

(** av_buffer_ref on the config buffer is refused. *)
Definition ref_fails_env : get_buffer_env :=
  {| gb_mallocz_ok := true; gb_buffer_ref_ok := false;
     gb_buffer_create_ok := true |}.

(** The order the destructions are claimed to happen in, and the order
    the code performs them in. *)
Definition context_config_surfaces_device (t : trace) : Prop :=
  precedes is_destroy_context is_destroy_config t ∧
  precedes is_destroy_config is_destroy_surfaces t ∧
  precedes is_destroy_surfaces is_ctx_unref t.

Definition surfaces_context_config_device (t : trace) : Prop :=
  precedes is_destroy_surfaces is_destroy_context t ∧
  precedes is_destroy_context is_destroy_config t ∧
  precedes is_destroy_config is_ctx_unref t.

(** Frame threading with four workers, 1920x1080 coded as 1920x1088. *)
Definition demo_avctx : AVCodecContext :=
  {| active_thread_type := FF_THREAD_FRAME; thread_count := 4;
     coded_width := 1920; coded_height := 1088 |}.

(** Every request granted. *)
Definition granting_env : create_config_env :=
  {| cc_profile := Some 7; cc_mallocz_ok := true; cc_buffer_create_ok := true;
     cc_ctx_ref_ok := true; cc_surfaces_ok := true; cc_garbage := λ _, 0xdead;
     cc_used_ok := true;
     cc_create_surfaces := VA_STATUS_SUCCESS;
     cc_new_surfaces := λ i, 0x4000000 + Z.of_nat i;
     cc_create_config := VA_STATUS_SUCCESS; cc_new_config_id := 0x1000000;
     cc_create_context := VA_STATUS_SUCCESS; cc_new_context_id := 0x2000000 |}.

(** The driver refuses vaCreateSurfaces (status 1,
    VA_STATUS_ERROR_OPERATION_FAILED); everything before it is granted. *)
Definition surfaces_refused_env : create_config_env :=
  {| cc_profile := Some 7; cc_mallocz_ok := true; cc_buffer_create_ok := true;
     cc_ctx_ref_ok := true; cc_surfaces_ok := true; cc_garbage := λ _, 0xdead;
     cc_used_ok := true;
     cc_create_surfaces := 1;
     cc_new_surfaces := λ i, 0x4000000 + Z.of_nat i;
     cc_create_config := VA_STATUS_SUCCESS; cc_new_config_id := 0x1000000;
     cc_create_context := VA_STATUS_SUCCESS; cc_new_context_id := 0x2000000 |}.

(** The reference on the device context is refused. *)
Definition ctx_ref_refused_env : create_config_env :=
  {| cc_profile := Some 7; cc_mallocz_ok := true; cc_buffer_create_ok := true;
     cc_ctx_ref_ok := false; cc_surfaces_ok := true; cc_garbage := λ _, 0xdead;
     cc_used_ok := true;
     cc_create_surfaces := VA_STATUS_SUCCESS;
     cc_new_surfaces := λ i, 0x4000000 + Z.of_nat i;
     cc_create_config := VA_STATUS_SUCCESS; cc_new_config_id := 0x1000000;
     cc_create_context := VA_STATUS_SUCCESS; cc_new_context_id := 0x2000000 |}.

(** The same stream with slice threading. *)
Definition slice_avctx : AVCodecContext :=
  {| active_thread_type := FF_THREAD_SLICE; thread_count := 4;
     coded_width := 1920; coded_height := 1088 |}.

(** A driver that lists NV12 before YV12. *)
Definition both_formats_env : pick_format_env :=
  {| pf_max_formats := 4; pf_alloc_ok := true;
     pf_query_status := VA_STATUS_SUCCESS;
     pf_formats := [ {| fourcc := VA_FOURCC_NV12; byte_order := 1; bits_per_pixel := 12 |};
                     {| fourcc := VA_FOURCC_YV12; byte_order := 1; bits_per_pixel := 12 |} ] |}.

(** A driver that enumerates a single format, RGBA, which the static
    list does not have. *)
Definition rgba_only_env : pick_format_env :=
  {| pf_max_formats := 4; pf_alloc_ok := true;
     pf_query_status := VA_STATUS_SUCCESS;
     pf_formats := [ {| fourcc := 0x41424752; byte_order := 1; bits_per_pixel := 32 |} ] |}.

(** A build with the DRM method only. *)
Definition drm_build : build_config :=
  {| HAVE_VAAPI_DRM := true; HAVE_VAAPI_X11 := false |}.

(** The device opens over DRM and initialises; the driver enumerates
    RGBA only. *)
Definition rgba_device_env : create_context_env :=
  {| ci_mallocz_ok := true; ci_buffer_create_ok := true;
     ci_frame_alloc_ok := true; ci_hwaccel_device := true;
     ci_drmOpen := 3; ci_open := -1; ci_vaGetDisplayDRM := 9;
     ci_XOpenDisplay := 0; ci_vaGetDisplay := 0;
     ci_vaInitialize := VA_STATUS_SUCCESS;
     ci_pick := rgba_only_env; ci_alloc_context_ok := true |}.

(** A device context that negotiated YV12 / YUV420P. *)
Definition demo_ctx : VAAPIContext :=
  {| self_refs := 2; drm_fd := 3; dpy := 0; display := 9;
     cur_config_buf := None;
     img_fmt := {| fourcc := VA_FOURCC_YV12; byte_order := 1; bits_per_pixel := 12 |};
     pix_fmt := AV_PIX_FMT_YUV420P; tmp_frame := Some blank_frame |}.

(** A decoded 1920x1080 frame sitting in slot 0, surface 100. *)
Definition demo_hw_frame : AVFrame :=
  {| format := AV_PIX_FMT_VAAPI_VLD; width := 1920; height := 1080;
     data := [0; 0; 0; 100; 0; 0; 0; 0];
     linesize := replicate AV_NUM_DATA_POINTERS 0;
     buf0 := Some (SurfaceBuf 0 {| fr_display := 9; used := 0 |});
     opaque := Some {| fr_display := 9; used := 0 |}; props := 42 |}.

(** A 1920x1088 YV12 image. *)
Definition demo_image : VAImage :=
  {| image_id := 77; buf := 78; data_size := 3133440; num_planes := 3;
     pitches := [1920; 960; 960];
     offsets := [0; 2088960; 2611200] |}.

Definition granting_retrieve_env : retrieve_env :=
  {| rd_mallocz_ok := true; rd_ctx_ref_ok := true;
     rd_vaCreateImage := VA_STATUS_SUCCESS; rd_image := demo_image;
     rd_vaGetImage := VA_STATUS_SUCCESS;
     rd_vaMapBuffer := VA_STATUS_SUCCESS; rd_mapped := 0x7f0000000000;
     rd_buffer_create_ok := true; rd_copy_props := 0 |}.

(** vaMapBuffer is refused (status 1). *)
Definition map_refused_env : retrieve_env :=
  {| rd_mallocz_ok := true; rd_ctx_ref_ok := true;
     rd_vaCreateImage := VA_STATUS_SUCCESS; rd_image := demo_image;
     rd_vaGetImage := VA_STATUS_SUCCESS;
     rd_vaMapBuffer := 1; rd_mapped := 0;
     rd_buffer_create_ok := true; rd_copy_props := 0 |}.

(** ** vaapi_init *)

(** AVVAAPIContext (libavcodec/vaapi.h), the fields the file writes.  The
    header asks for the structure to be zero-allocated, which is how
    av_vaapi_alloc_context hands it out. *)
Record AVVAAPIContext := {
  va_display : Z;
  va_config_id : Z;
  va_context_id : Z
}.

(** What the hooks keep in the InputStream and the AVCodecContext between
    calls: ist->hwaccel_ctx, s->hwaccel_context, and which of the three
    function pointers of the InputStream point into this file. *)
Record stream := {
  hwaccel_ctx : option VAAPIContext;
  hwaccel_context : option AVVAAPIContext;
  hwaccel_uninit : bool;
  hwaccel_get_buffer : bool;
  hwaccel_retrieve_data : bool
}.

(** References on ctx->self taken inside a trace (by new configs). *)
Definition is_ctx_ref (ev : event) : bool :=
  match ev with EvRef RCtxSelf => true | _ => false end.

Definition ctx_refs_taken (t : trace) : Z :=
  Z.of_nat (length (filter (λ ev, is_ctx_ref ev = true) t)).

Definition set_refs_config (c : VAAPIContext) (refs : Z)
    (b : option config_buf) : VAAPIContext :=
  {| self_refs := refs; drm_fd := drm_fd c; dpy := dpy c;
     display := display c; cur_config_buf := b; img_fmt := img_fmt c;
     pix_fmt := pix_fmt c; tmp_frame := tmp_frame c |}.

(** [in_superseded] is the config that was current on entry, as far as
    frames still keep it alive. *)
Record init_result := {
  in_ret : Z;
  in_stream : stream;
  in_superseded : option config_buf;
  in_trace : trace
}.

Definition vaapi_init (bc : build_config) (ce : create_context_env)
    (cfe : create_config_env) (s : AVCodecContext) (st : stream)
  : outcome init_result :=
  (* if (!ist->hwaccel_ctx) { ret = vaapi_create_context(s); ... } *)
  '(early, st1, t1) ←
    match hwaccel_ctx st with
    | Some _ => Ok (None, st, [])
    | None =>
        rc ← vaapi_create_context bc ce None (is_some (hwaccel_context st));
        if ci_ret rc <? 0 then
          Ok (Some (ci_ret rc),
              {| hwaccel_ctx := ci_hwaccel_ctx rc;
                 hwaccel_context :=
                   if ci_have_hwaccel_context rc then hwaccel_context st
                   else None;
                 hwaccel_uninit := hwaccel_uninit st;
                 hwaccel_get_buffer := hwaccel_get_buffer st;
                 hwaccel_retrieve_data := hwaccel_retrieve_data st |},
              ci_trace rc)
        else
          Ok (None,
              {| hwaccel_ctx := ci_hwaccel_ctx rc;
                 hwaccel_context :=
                   match ci_hwaccel_ctx rc with
                   | Some c => Some {| va_display := display c;
                                       va_config_id := 0; va_context_id := 0 |}
                   | None => None
                   end;
                 hwaccel_uninit := true;
                 hwaccel_get_buffer := hwaccel_get_buffer st;
                 hwaccel_retrieve_data := hwaccel_retrieve_data st |},
              ci_trace rc)
    end;
  match early with
  | Some ret =>
      Ok {| in_ret := ret; in_stream := st1; in_superseded := None;
            in_trace := t1 |}
  | None =>
      match hwaccel_ctx st1 with
      | None => Fault
      | Some c =>
          (* av_buffer_unref(&ctx->cur_config_buf); ctx->cur_config = NULL *)
          '(old, t2) ← match cur_config_buf c with
                       | Some b => config_buf_unref b
                       | None => Ok (None, [])
                       end;
          r ← vaapi_create_config cfe (display c) None s;
          let refs := self_refs c - ctx_unrefs t2
                      + ctx_refs_taken (cc_trace r) - ctx_unrefs (cc_trace r) in
          let c' := set_refs_config c refs (cc_cur_config_buf r) in
          let with_ctx v hooks :=
            {| hwaccel_ctx := Some c'; hwaccel_context := v;
               hwaccel_uninit := hwaccel_uninit st1;
               hwaccel_get_buffer := hooks || hwaccel_get_buffer st1;
               hwaccel_retrieve_data := hooks || hwaccel_retrieve_data st1 |} in
          if cc_ret r <? 0 then
            Ok {| in_ret := AVERROR_UNKNOWN;
                  in_stream := with_ctx (hwaccel_context st1) false;
                  in_superseded := old;
                  in_trace := t1 ++ t2 ++ cc_trace r
                    ++ [EvLog "Error initializing a VAAPI configuration."%string] |}
          else
            match cc_cur_config_buf r, hwaccel_context st1 with
            | Some b, Some v =>
                Ok {| in_ret := 0;
                      in_stream :=
                        with_ctx (Some {| va_display := va_display v;
                                          va_config_id := config_id (config b);
                                          va_context_id := context_id (config b) |})
                                 true;
                      in_superseded := old;
                      in_trace := t1 ++ t2 ++ cc_trace r |}
            | _, _ => Fault
            end
      end
  end.

(** ** Draining a config: the frames release their handles one by one *)

Fixpoint release_all (hs : list VAAPIFrame) (b : option config_buf)
  : outcome (option config_buf * trace) :=
  match hs with
  | [] => Ok (b, [])
  | h :: hs' =>
      match b with
      | None => Fault
      | Some b0 =>
          '(b1, t1) ← vaapi_release_buffer h b0;
          '(b2, t2) ← release_all hs' b1;
          Ok (b2, t1 ++ t2)
      end
  end.

(** The flag array after the handles [hs] have stored 0 through their
    pointers. *)
Definition clear_all (hs : list VAAPIFrame) (flags : list Z) : list Z :=
  foldl (λ f h, <[used h := 0]> f) flags hs.

(** ** What a trace leaves allocated on the config side

    Counts of what the calls of a trace created and did not destroy: the
    surface set, the driver config and context, references on the device
    context, and the three host blocks of a config. *)
Record config_held := {
  ch_surface_sets : Z;
  ch_configs : Z;
  ch_contexts : Z;
  ch_ctx_refs : Z;
  ch_host : Z
}.

Definition ok_count (status : Z) : Z :=
  if status =? VA_STATUS_SUCCESS then 1 else 0.

Definition config_delta (ev : event) : config_held :=
  let z := {| ch_surface_sets := 0; ch_configs := 0; ch_contexts := 0;
              ch_ctx_refs := 0; ch_host := 0 |} in
  match ev with
  | EvCreateSurfaces _ _ _ _ st =>
      {| ch_surface_sets := ok_count st; ch_configs := 0; ch_contexts := 0;
         ch_ctx_refs := 0; ch_host := 0 |}
  | EvDestroySurfaces _ _ _ =>
      {| ch_surface_sets := -1; ch_configs := 0; ch_contexts := 0;
         ch_ctx_refs := 0; ch_host := 0 |}
  | EvCreateConfig _ _ st =>
      {| ch_surface_sets := 0; ch_configs := ok_count st; ch_contexts := 0;
         ch_ctx_refs := 0; ch_host := 0 |}
  | EvDestroyConfig _ _ =>
      {| ch_surface_sets := 0; ch_configs := -1; ch_contexts := 0;
         ch_ctx_refs := 0; ch_host := 0 |}
  | EvCreateContext _ _ _ _ _ _ st =>
      {| ch_surface_sets := 0; ch_configs := 0; ch_contexts := ok_count st;
         ch_ctx_refs := 0; ch_host := 0 |}
  | EvDestroyContext _ _ =>
      {| ch_surface_sets := 0; ch_configs := 0; ch_contexts := -1;
         ch_ctx_refs := 0; ch_host := 0 |}
  | EvRef RCtxSelf =>
      {| ch_surface_sets := 0; ch_configs := 0; ch_contexts := 0;
         ch_ctx_refs := 1; ch_host := 0 |}
  | EvUnref RCtxSelf =>
      {| ch_surface_sets := 0; ch_configs := 0; ch_contexts := 0;
         ch_ctx_refs := -1; ch_host := 0 |}
  | EvAlloc HConfig | EvAlloc HSurfaces | EvAlloc HSurfaceUsed =>
      {| ch_surface_sets := 0; ch_configs := 0; ch_contexts := 0;
         ch_ctx_refs := 0; ch_host := 1 |}
  | EvFree HConfig | EvFree HSurfaces | EvFree HSurfaceUsed =>
      {| ch_surface_sets := 0; ch_configs := 0; ch_contexts := 0;
         ch_ctx_refs := 0; ch_host := -1 |}
  | _ => z
  end.

Definition config_add (a b : config_held) : config_held :=
  {| ch_surface_sets := ch_surface_sets a + ch_surface_sets b;
     ch_configs := ch_configs a + ch_configs b;
     ch_contexts := ch_contexts a + ch_contexts b;
     ch_ctx_refs := ch_ctx_refs a + ch_ctx_refs b;
     ch_host := ch_host a + ch_host b |}.

Definition config_nothing : config_held :=
  {| ch_surface_sets := 0; ch_configs := 0; ch_contexts := 0;
     ch_ctx_refs := 0; ch_host := 0 |}.

Definition settle_config (t : trace) : config_held :=
  foldr (λ ev acc, config_add (config_delta ev) acc) config_nothing t.

(** Allocations minus frees of the format array in a trace. *)
Definition formats_balance (t : trace) : Z :=
  foldr (λ ev acc,
           match ev with
           | EvAlloc HFormats => acc + 1
           | EvFree HFormats => acc - 1
           | _ => acc
           end) 0 t.

Definition is_terminate (ev : event) : bool :=
  match ev with EvTerminate _ => true | _ => false end.
Definition is_map_granted (ev : event) : bool :=
  match ev with EvMapBuffer _ _ st => st =? VA_STATUS_SUCCESS | _ => false end.
Definition is_unmap (ev : event) : bool :=
  match ev with EvUnmapBuffer _ _ => true | _ => false end.
Definition is_destroy_image (ev : event) : bool :=
  match ev with EvDestroyImage _ _ => true | _ => false end.

(** An operation during which av_buffer_create is not refused. *)
Definition buffer_always_granted (op : pool_op) : Prop :=
  match op with
  | Acquire e => gb_buffer_create_ok e = true
  | Release _ => True
  end.

(** av_buffer_create is refused. *)
Definition buffer_refused_env : get_buffer_env :=
  {| gb_mallocz_ok := true; gb_buffer_ref_ok := true;
     gb_buffer_create_ok := false |}.

(** vaCreateContext is refused (status 1); everything before it is
    granted. *)
Definition context_refused_env : create_config_env :=
  {| cc_profile := Some 7; cc_mallocz_ok := true; cc_buffer_create_ok := true;
     cc_ctx_ref_ok := true; cc_surfaces_ok := true; cc_garbage := λ _, 0xdead;
     cc_used_ok := true;
     cc_create_surfaces := VA_STATUS_SUCCESS;
     cc_new_surfaces := λ i, 0x4000000 + Z.of_nat i;
     cc_create_config := VA_STATUS_SUCCESS; cc_new_config_id := 0x1000000;
     cc_create_context := 1; cc_new_context_id := 0x2000000 |}.

(** Every host allocation and every driver call of vaapi_create_config
    is granted. *)
Definition config_all_granted (e : create_config_env) : Prop :=
  cc_profile e ≠ None ∧ cc_mallocz_ok e = true ∧
  cc_buffer_create_ok e = true ∧ cc_ctx_ref_ok e = true ∧
  cc_surfaces_ok e = true ∧ cc_used_ok e = true ∧
  cc_create_surfaces e = VA_STATUS_SUCCESS ∧
  cc_create_config e = VA_STATUS_SUCCESS ∧
  cc_create_context e = VA_STATUS_SUCCESS.

(** The same driver listing YV12 first. *)
Definition both_formats_swapped_env : pick_format_env :=
  {| pf_max_formats := 4; pf_alloc_ok := true;
     pf_query_status := VA_STATUS_SUCCESS;
     pf_formats := [ {| fourcc := VA_FOURCC_YV12; byte_order := 1; bits_per_pixel := 12 |};
                     {| fourcc := VA_FOURCC_NV12; byte_order := 1; bits_per_pixel := 12 |} ] |}.

(** The device opens over DRM and initialises; the driver lists NV12 and
    YV12. *)
Definition yv12_device_env : create_context_env :=
  {| ci_mallocz_ok := true; ci_buffer_create_ok := true;
     ci_frame_alloc_ok := true; ci_hwaccel_device := true;
     ci_drmOpen := 3; ci_open := -1; ci_vaGetDisplayDRM := 9;
     ci_XOpenDisplay := 0; ci_vaGetDisplay := 0;
     ci_vaInitialize := VA_STATUS_SUCCESS;
     ci_pick := both_formats_env; ci_alloc_context_ok := true |}.

(** No DRM device can be opened; the X11 display opens. *)
Definition x11_device_env : create_context_env :=
  {| ci_mallocz_ok := true; ci_buffer_create_ok := true;
     ci_frame_alloc_ok := true; ci_hwaccel_device := true;
     ci_drmOpen := -1; ci_open := -1; ci_vaGetDisplayDRM := 0;
     ci_XOpenDisplay := 0x5000; ci_vaGetDisplay := 11;
     ci_vaInitialize := VA_STATUS_SUCCESS;
     ci_pick := both_formats_env; ci_alloc_context_ok := true |}.

(** A build with both connection methods. *)
Definition full_build : build_config :=
  {| HAVE_VAAPI_DRM := true; HAVE_VAAPI_X11 := true |}.

(** The descriptor drmOpen or, failing that, open returns. *)
Definition drm_descriptor (e : create_context_env) : Z :=
  if ci_drmOpen e =? -1 then ci_open e else ci_drmOpen e.

(** The DRM method is compiled in and yields a display. *)
Definition drm_connects (bc : build_config) (e : create_context_env) : bool :=
  HAVE_VAAPI_DRM bc && ci_hwaccel_device e &&
  negb (drm_descriptor e =? -1) && negb (ci_vaGetDisplayDRM e =? 0).

(** The events only vaapi_open_x11 produces. *)
Definition is_x11_event (ev : event) : bool :=
  match ev with
  | EvXCloseDisplay _ => true
  | EvLog msg =>
      String.eqb msg "Cannot open the X11 display %s."
      || String.eqb msg "Error getting an X11 VAAPI display."
      || String.eqb msg "Successfully opened a VAAPI display on X11 display %s."
  | _ => false
  end.

(** The two connection attempts of vaapi_create_context on the context
    [c0], DRM first and X11 only if no display came of it, with the
    events of both. *)
Definition open_display (bc : build_config) (e : create_context_env)
    (c0 : VAAPIContext) : VAAPIContext * trace :=
  let '(c1, t1) := if HAVE_VAAPI_DRM bc then vaapi_open_drm e c0 else (c0, []) in
  let '(c2, t2) := if HAVE_VAAPI_X11 bc && (display c1 =? 0)
                   then vaapi_open_x11 e c1 else (c1, []) in
  (c2, t1 ++ t2).

(** No decoder profile is known for the stream. *)
Definition no_profile_env : create_config_env :=
  {| cc_profile := None; cc_mallocz_ok := true; cc_buffer_create_ok := true;
     cc_ctx_ref_ok := true; cc_surfaces_ok := true; cc_garbage := λ _, 0xdead;
     cc_used_ok := true;
     cc_create_surfaces := VA_STATUS_SUCCESS;
     cc_new_surfaces := λ i, 0x4000000 + Z.of_nat i;
     cc_create_config := VA_STATUS_SUCCESS; cc_new_config_id := 0x1000000;
     cc_create_context := VA_STATUS_SUCCESS; cc_new_context_id := 0x2000000 |}.

(** A stream no hook of this file has touched yet. *)
Definition fresh_stream : stream :=
  {| hwaccel_ctx := None; hwaccel_context := None; hwaccel_uninit := false;
     hwaccel_get_buffer := false; hwaccel_retrieve_data := false |}.

(** ** What a trace leaves allocated on the device side

    Displays initialised and not terminated, and host blocks of the
    device context (the context, its scratch frame, the AVVAAPIContext,
    the format array) allocated and not freed. *)
Record device_held := {
  dh_displays : Z;
  dh_host : Z
}.

Definition device_delta (ev : event) : device_held :=
  match ev with
  | EvInitialize _ st => {| dh_displays := ok_count st; dh_host := 0 |}
  | EvTerminate _ => {| dh_displays := -1; dh_host := 0 |}
  | EvAlloc HContext | EvAlloc HTmpFrame | EvAlloc HVaapiCtx | EvAlloc HFormats =>
      {| dh_displays := 0; dh_host := 1 |}
  | EvFree HContext | EvFree HTmpFrame | EvFree HVaapiCtx | EvFree HFormats =>
      {| dh_displays := 0; dh_host := -1 |}
  | _ => {| dh_displays := 0; dh_host := 0 |}
  end.

Definition device_add (a b : device_held) : device_held :=
  {| dh_displays := dh_displays a + dh_displays b;
     dh_host := dh_host a + dh_host b |}.

Definition device_nothing : device_held := {| dh_displays := 0; dh_host := 0 |}.

Definition settle_device (t : trace) : device_held :=
  foldr (λ ev acc, device_add (device_delta ev) acc) device_nothing t.

(** * Properties *)

Section scan.

Lemma scan_free_Ok flags k : ∀ i j,
  scan_free flags i k = Ok j →
  (i ≤ j ≤ i + k)%nat ∧
  (∀ m, (i ≤ m < j)%nat → ∃ u, flags !! m = Some u ∧ u ≠ 0) ∧
  ((j < i + k)%nat → flags !! j = Some 0).
Proof.
  induction k as [|k IH]; intros i j H; simpl in H.
  - injection H as <-. repeat split; try lia; intros; lia.
  - destruct (flags !! i) as [u|] eqn:Hi; [|discriminate].
    destruct (u =? 0) eqn:Hu.
    + injection H as <-. apply Z.eqb_eq in Hu. subst u.
      repeat split; try lia; auto; intros; lia.
    + apply Z.eqb_neq in Hu. apply IH in H as (Hr & Hb & Hz).
      repeat split; try lia.
      * intros m Hm. destruct (decide (m = i)) as [->|]; [eauto|].
        apply Hb. lia.
      * intros. apply Hz. lia.
Qed.

Lemma scan_free_total flags k : ∀ i,
  (i + k ≤ length flags)%nat → ∃ j, scan_free flags i k = Ok j.
Proof.
  induction k as [|k IH]; intros i H; simpl; [eauto|].
  destruct (lookup_lt_is_Some_2 flags i) as [u Hu]; [lia|].
  rewrite Hu. destruct (u =? 0); [eauto|]. apply IH. lia.
Qed.

End scan.

Section get_buffer_facts.

Variables (e : get_buffer_env) (display : Z) (b : config_buf) (frame : AVFrame).

(** The two return values, and what a failing return leaves behind. *)
Lemma get_buffer_failure_inv r :
  vaapi_get_buffer e display b frame = Ok r →
  (gb_ret r = 0 ∨ gb_ret r = AVERROR ENOMEM) ∧
  refcount b ≤ refcount (gb_buf r) ∧
  (gb_ret r ≠ 0 → config (gb_buf r) = config b) ∧
  (gb_ret r = 0 →
     gb_mallocz_ok e = true ∧ gb_buffer_ref_ok e = true ∧
     gb_buffer_create_ok e = true).
Proof.
  unfold vaapi_get_buffer.
  destruct (negb (pix_fmt_eqb (format frame) AV_PIX_FMT_VAAPI_VLD)); [discriminate|].
  match goal with |- context [mbind _ ?m] => destruct m as [i| |] end;
    simpl; try discriminate.
  destruct (Z.of_nat i =? nb_surfaces (config b)).
  { intros [= <-]; simpl. unfold AVERROR, ENOMEM. repeat split; auto; lia. }
  destruct (gb_mallocz_ok e); simpl.
  2:{ intros [= <-]; simpl. unfold AVERROR, ENOMEM. repeat split; auto; lia. }
  destruct (gb_buffer_ref_ok e); simpl.
  2:{ intros [= <-]; simpl. unfold AVERROR, ENOMEM. repeat split; auto; lia. }
  destruct (gb_buffer_create_ok e); simpl.
  2:{ intros [= <-]; simpl. unfold AVERROR, ENOMEM. repeat split; auto; lia. }
  destruct (surfaces (config b)) as [ids|]; [|discriminate].
  destruct (ids !! i) as [sid|]; [|discriminate].
  destruct (write_used (config b) i 1) as [c'| |]; simpl; try discriminate.
  intros [= <-]; simpl. repeat split; auto; intros; lia.
Qed.

Variables (ids flags : list Z).
Hypothesis Hwf : pool_wf (config b) ids flags.
Hypothesis Hfmt : format frame = AV_PIX_FMT_VAAPI_VLD.

(** On a well-formed pool the scan is the search for the first clear
    flag. *)
Lemma scan_pool :
  ∃ j, scan_free flags 0 (Z.to_nat (nb_surfaces (config b))) = Ok j ∧
       (j ≤ length flags)%nat ∧
       (∀ m, (m < j)%nat → ∃ u, flags !! m = Some u ∧ u ≠ 0) ∧
       ((j < length flags)%nat → flags !! j = Some 0).
Proof.
  destruct Hwf as (_ & _ & _ & Hnb). rewrite Hnb, Nat2Z.id.
  destruct (scan_free_total flags (length flags) 0%nat) as [j Hj]; [lia|].
  exists j. split; [done|].
  apply scan_free_Ok in Hj as (Hr & Hb & Hz).
  repeat split; [lia| |]; intros; [apply Hb|apply Hz]; lia.
Qed.

Lemma get_buffer_exhausted :
  (∀ i u, flags !! i = Some u → u ≠ 0) →
  vaapi_get_buffer e display b frame =
    Ok {| gb_ret := AVERROR ENOMEM; gb_buf := b; gb_frame := frame;
          gb_trace := [EvLog "No free surfaces left."%string] |}.
Proof.
  intros Hfull. unfold vaapi_get_buffer. rewrite Hfmt. simpl.
  destruct scan_pool as (j & Hj & Hle & _ & Hz).
  destruct Hwf as (_ & Hu & _ & Hnb). rewrite Hu, Hj. simpl.
  assert (j = length flags) as ->.
  { destruct (decide (j < length flags)%nat) as [Hlt|]; [|lia].
    specialize (Hz Hlt). by apply Hfull in Hz. }
  rewrite Hnb, Z.eqb_refl. done.
Qed.

Lemma get_buffer_checkout i sid :
  gb_mallocz_ok e = true → gb_buffer_ref_ok e = true →
  gb_buffer_create_ok e = true →
  flags !! i = Some 0 →
  (∀ m, (m < i)%nat → ∃ u, flags !! m = Some u ∧ u ≠ 0) →
  ids !! i = Some sid →
  vaapi_get_buffer e display b frame =
    Ok {| gb_ret := 0;
          gb_buf := {| config := set_surface_used (config b) (Some (<[i := 1]> flags));
                       refcount := refcount b + 1 |};
          gb_frame :=
            {| format := format frame; width := width frame;
               height := height frame;
               data := <[3%nat := sid]> (data frame);
               linesize := linesize frame;
               buf0 := Some (SurfaceBuf i {| fr_display := display; used := i |});
               opaque := Some {| fr_display := display; used := i |};
               props := props frame |};
          gb_trace := [EvAlloc HFrame] |}.
Proof.
  intros Hm Hr Hc Hi Hlow Hsid.
  unfold vaapi_get_buffer. rewrite Hfmt. simpl.
  destruct scan_pool as (j & Hj & Hle & Hb & Hz).
  destruct Hwf as (Hs & Hu & Hlen & Hnb). rewrite Hu, Hj. simpl.
  pose proof (lookup_lt_Some _ _ _ Hi) as Hilt.
  assert (j = i) as ->.
  { destruct (decide (j < i)%nat) as [Hlt|].
    - destruct (Hlow _ Hlt) as (u & Hu1 & Hu2).
      rewrite (Hz ltac:(lia)) in Hu1. congruence.
    - destruct (decide (i < j)%nat) as [Hlt|]; [|lia].
      destruct (Hb _ Hlt) as (u & Hu1 & Hu2). congruence. }
  rewrite Hnb. destruct (Z.eqb_spec (Z.of_nat i) (Z.of_nat (length flags))); [lia|].
  rewrite Hm, Hr, Hc, Hs, Hsid. simpl.
  unfold write_used. rewrite Hu.
  destruct (decide (i < length flags)%nat); [done|lia].
Qed.

(** Every call on a well-formed pool returns, and a successful one hands
    out the lowest slot whose flag is clear. *)
Lemma get_buffer_wf :
  ∃ r, vaapi_get_buffer e display b frame = Ok r ∧
    (gb_ret r = 0 →
       ∃ i sid, flags !! i = Some 0 ∧
         (∀ m, (m < i)%nat → ∃ u, flags !! m = Some u ∧ u ≠ 0) ∧
         ids !! i = Some sid ∧
         handle_of r = Some {| fr_display := display; used := i |} ∧
         gb_buf r = {| config := set_surface_used (config b) (Some (<[i := 1]> flags));
                       refcount := refcount b + 1 |}).
Proof.
  destruct scan_pool as (j & Hj & Hle & Hb & Hz).
  destruct (decide (j < length flags)%nat) as [Hlt|Hge].
  - specialize (Hz Hlt).
    destruct (lookup_lt_is_Some_2 ids j) as [sid Hsid].
    { destruct Hwf as (_ & _ & -> & _). done. }
    destruct (gb_mallocz_ok e) eqn:Hm, (gb_buffer_ref_ok e) eqn:Hr,
             (gb_buffer_create_ok e) eqn:Hc;
      first [ rewrite (get_buffer_checkout j sid) by done;
              eexists; split; [done|]; intros _; exists j, sid; done
            | idtac ].
    all: unfold vaapi_get_buffer; rewrite Hfmt; simpl;
      destruct Hwf as (Hs & Hu & Hlen & Hnb); rewrite Hu, Hj; simpl;
      rewrite Hnb;
      destruct (Z.eqb_spec (Z.of_nat j) (Z.of_nat (length flags))); [lia|];
      rewrite ?Hm, ?Hr, ?Hc; simpl;
      eexists; (split; [done|]); simpl; unfold AVERROR, ENOMEM; lia.
  - rewrite get_buffer_exhausted.
    + eexists; split; [done|]. simpl. unfold AVERROR, ENOMEM. lia.
    + intros i u Hi ->. pose proof (lookup_lt_Some _ _ _ Hi).
      destruct (Hb i ltac:(lia)) as (u & Hu1 & Hu2). congruence.
Qed.

End get_buffer_facts.

Section release_facts.

Variables (h : VAAPIFrame) (b : config_buf) (ids flags : list Z).
Hypothesis Hwf : pool_wf (config b) ids flags.
Hypothesis Hslot : (used h < length flags)%nat.

Lemma release_buffer_shared :
  refcount b ≠ 1 →
  vaapi_release_buffer h b =
    Ok (Some {| config := set_surface_used (config b) (Some (<[used h := 0]> flags));
                refcount := refcount b - 1 |}, [EvFree HFrame]).
Proof.
  intros Hrc. unfold vaapi_release_buffer, write_used.
  destruct Hwf as (_ & -> & _).
  destruct (decide (used h < length flags)%nat); [|lia]. simpl.
  unfold config_buf_unref. simpl.
  by destruct (Z.eqb_spec (refcount b) 1).
Qed.

Lemma release_buffer_last :
  refcount b = 1 →
  vaapi_release_buffer h b =
    (t ← vaapi_free_config
           (set_surface_used (config b) (Some (<[used h := 0]> flags)));
     Ok (None, t ++ [EvFree HFrame])).
Proof.
  intros Hrc. unfold vaapi_release_buffer, write_used.
  destruct Hwf as (_ & -> & _).
  destruct (decide (used h < length flags)%nat); [|lia]. simpl.
  unfold config_buf_unref. simpl. rewrite Hrc. simpl.
  by destruct (vaapi_free_config _).
Qed.

End release_facts.

Lemma pool_wf_set_used c ids flags flags' :
  pool_wf c ids flags → length flags' = length flags →
  pool_wf (set_surface_used c (Some flags')) ids flags'.
Proof.
  intros (Hs & Hu & Hl & Hn) Hlen. unfold pool_wf. simpl.
  rewrite Hlen. done.
Qed.

(** ** The pool invariant along a run of checkouts and releases *)

Lemma pool_step_inv display ids st op :
  pool_inv display ids st →
  ∃ st' o, pool_step display st op = Ok (st', o) ∧ pool_inv display ids st'.
Proof.
  intros (b & flags & Hp & Hwf & Hnd & Hlive & Hflags & Hrc).
  destruct op as [e|h]; simpl; rewrite ?Hp.
  - destruct (get_buffer_wf e display b hw_frame ids flags Hwf eq_refl)
      as (r & Hr & Hsucc).
    rewrite Hr. simpl. eexists _, _. split; [done|].
    destruct (get_buffer_failure_inv _ _ _ _ _ Hr) as (Hret & Hmono & Hfail & _).
    destruct (decide (gb_ret r = 0)) as [H0|Hne].
    + destruct (Hsucc H0) as (i & sid & Hi & Hlow & Hsid & Hh & Hb).
      rewrite Hh. pose proof (lookup_lt_Some _ _ _ Hi) as Hilt.
      exists (gb_buf r), (<[i := 1]> flags). simpl.
      split; [done|]. rewrite Hb. simpl.
      split; [eapply pool_wf_set_used; [exact Hwf|apply length_insert]|].
      split.
      { apply NoDup_cons. split; [|done].
        intros (h' & Hu' & Hin)%list_elem_of_fmap.
        destruct (Hlive _ Hin) as (_ & Hf). rewrite <- Hu' in Hf. congruence. }
      split.
      { intros h' [->|Hin]%elem_of_cons; simpl.
        - split; [done|]. by apply list_lookup_insert_eq.
        - destruct (Hlive _ Hin) as (Hd & Hf). split; [done|].
          rewrite list_lookup_insert_ne; [done|]. intros Heq. congruence. }
      split; [|lia].
      intros j u Hj. destruct (decide (i = j)) as [<-|Hij].
      * rewrite list_lookup_insert_eq in Hj by done. injection Hj as <-.
        right. split; [done|]. eexists. split; [apply list_elem_of_here|done].
      * rewrite list_lookup_insert_ne in Hj by done.
        destruct (Hflags _ _ Hj) as [->|(-> & h' & Hin & Hu')]; [by left|].
        right. split; [done|]. exists h'. split; [|done].
        by apply list_elem_of_further.
    + assert (handle_of r = None) as ->.
      { unfold handle_of. by destruct (Z.eqb_spec (gb_ret r) 0). }
      exists (gb_buf r), flags. simpl. rewrite (Hfail Hne).
      split; [done|]. split; [done|]. split; [done|].
      split; [done|]. split; [done|]. lia.
  - destruct (decide (h ∈ live st)) as [Hin|Hout].
    2:{ eexists _, _. split; [done|]. by exists b, flags. }
    destruct (Hlive _ Hin) as (Hd & Hf).
    pose proof (lookup_lt_Some _ _ _ Hf) as Hlt.
    assert (0 < length (live st))%nat.
    { destruct (live st); [by apply elem_of_nil in Hin|simpl; lia]. }
    rewrite (release_buffer_shared h b ids flags Hwf Hlt) by lia. simpl.
    eexists _, _. split; [done|].
    eexists _, (<[used h := 0]> flags). simpl. split; [done|].
    split; [eapply pool_wf_set_used; [exact Hwf|apply length_insert]|].
    assert (Hinj : ∀ h', h' ∈ live st → used h' = used h → h' = h).
    { intros [d' u'] Hin' Hu. destruct (Hlive _ Hin') as (Hd' & _).
      destruct h as [d u]. simpl in *. congruence. }
    split.
    { eapply sublist_NoDup; [exact Hnd|]. apply fmap_sublist, sublist_filter. }
    split.
    { intros h' (Hne & Hin')%list_elem_of_filter.
      destruct (Hlive _ Hin') as (Hd' & Hf'). split; [done|].
      rewrite list_lookup_insert_ne; [done|]. intros Heq. apply Hne.
      by apply Hinj. }
    split.
    { intros j u Hj. destruct (decide (used h = j)) as [<-|Hij].
      - rewrite list_lookup_insert_eq in Hj by done. injection Hj as <-.
        by left.
      - rewrite list_lookup_insert_ne in Hj by done.
        destruct (Hflags _ _ Hj) as [->|(-> & h' & Hin' & Hu')]; [by left|].
        right. split; [done|]. exists h'. split; [|done].
        apply list_elem_of_filter. split; [|done]. intros ->. done. }
    pose proof (length_filter_lt (λ h', h' ≠ h) (live st) h Hin) as Hl.
    assert (¬ h ≠ h) as Hnn by (intros Hc; by apply Hc).
    specialize (Hl Hnn). simpl. lia.
Qed.

Lemma pool_run_inv display ids ops : ∀ st,
  pool_inv display ids st →
  ∃ st' os, pool_run display st ops = Ok (st', os) ∧ pool_inv display ids st'.
Proof.
  induction ops as [|op ops IH]; intros st Hinv; simpl.
  - by eexists _, _.
  - destruct (pool_step_inv display ids st op Hinv) as (st1 & o & -> & Hinv1).
    simpl. destruct (IH st1 Hinv1) as (st2 & os & -> & Hinv2). simpl.
    by eexists _, _.
Qed.

(** ** A pool that has just been created *)

Lemma fresh_pool_inv display b ids :
  fresh_pool b ids → pool_inv display ids (start b).
Proof.
  intros (Hwf & Hrc). exists b, (replicate (length ids) 0). simpl.
  split; [done|]. split; [done|]. split; [constructor|].
  split; [by intros h ?%elem_of_nil|].
  split; [|lia]. intros i u (-> & _)%lookup_replicate. by left.
Qed.

Lemma first_handles_elem display n k :
  (k < n)%nat → {| fr_display := display; used := k |} ∈ first_handles display n.
Proof.
  induction n as [|n IH]; [lia|]. intros Hk. simpl.
  destruct (decide (k = n)) as [->|]; [apply list_elem_of_here|].
  apply list_elem_of_further, IH. lia.
Qed.

Lemma insert_fill_next (k m : nat) :
  <[k := 1]> (replicate k 1 ++ replicate (S m) 0)
  = replicate (S k) 1 ++ replicate m 0.
Proof.
  induction k as [|k IH]; [done|].
  change (1 :: <[k := 1]> (replicate k 1 ++ replicate (S m) 0)
          = 1 :: (replicate (S k) 1 ++ replicate m 0)).
  by rewrite IH.
Qed.

Lemma lookup_fill_next (k m : nat) :
  (replicate k 1 ++ replicate (S m) 0) !! k = Some 0.
Proof. induction k as [|k IH]; simpl; done. Qed.

Lemma lookup_fill_before (k m j : nat) :
  (j < k)%nat → (replicate k 1 ++ replicate m 0) !! j = Some 1.
Proof.
  intros Hj. rewrite lookup_app_l by (rewrite length_replicate; lia).
  by apply lookup_replicate.
Qed.

(** m further checkouts on a pool whose first k slots are taken. *)
Lemma acquire_run display ids : ∀ m k b,
  pool_wf (config b) ids (replicate k 1 ++ replicate m 0) →
  ∃ b',
    pool_run display {| pool := Some b; live := first_handles display k |}
             (replicate m (Acquire ok_env))
    = Ok ({| pool := Some b'; live := first_handles display (k + m) |},
          (λ j, Acquired 0 (Some j)) <$> seq k m) ∧
    pool_wf (config b') ids (replicate (k + m) 1) ∧
    refcount b' = refcount b + Z.of_nat m.
Proof.
  induction m as [|m IH]; intros k b Hwf; simpl.
  - exists b. rewrite Nat.add_0_r. rewrite app_nil_r in Hwf.
    split; [done|]. split; [done|lia].
  - destruct (lookup_lt_is_Some_2 ids k) as [sid Hsid].
    { destruct Hwf as (_ & _ & -> & _).
      rewrite length_app, !length_replicate. lia. }
    assert (Hlow : ∀ j, (j < k)%nat →
              ∃ u, (replicate k 1 ++ replicate (S m) 0) !! j = Some u ∧ u ≠ 0).
    { intros j Hj. exists 1. split; [by apply lookup_fill_before|lia]. }
    rewrite (get_buffer_checkout ok_env display b hw_frame ids _ Hwf eq_refl k sid
               eq_refl eq_refl eq_refl (lookup_fill_next k m) Hlow Hsid).
    cbn [mbind outcome_bind gb_buf gb_ret gb_frame handle_of buf0 Z.eqb fmap option_fmap option_map used].
    rewrite insert_fill_next.
    destruct (IH (S k) {| config := set_surface_used (config b)
                                      (Some (replicate (S k) 1 ++ replicate m 0));
                          refcount := refcount b + 1 |})
      as (b' & Hrun & Hwf' & Hrc').
    { eapply pool_wf_set_used; [exact Hwf|].
      rewrite !length_app, !length_replicate. lia. }
    exists b'.
    change ({| fr_display := display; used := k |} :: first_handles display k)
      with (first_handles display (S k)).
    rewrite Hrun.
    replace (k + S m)%nat with (S k + m)%nat by lia.
    split; [done|]. split; [done|]. simpl in Hrc'. lia.
Qed.

Lemma demo_fresh : fresh_pool demo_buf [100; 101].
Proof. repeat split; simpl; lia. Defined.

(** C3. On a freshly created pool of N surfaces, with the host allocator
    answering every request, the first N checkouts succeed and hand out
    slots 0 .. N-1; any further checkout returns AVERROR(ENOMEM) at once,
    after logging "No free surfaces left.", without allocating and
    without touching pool or frame; once one handle has been released
    the next checkout succeeds and hands out exactly the freed slot. *)
Theorem pool_exhaustion_then_reuse (display : Z) (b : config_buf) (ids : list Z) :
  fresh_pool b ids →
  ∃ bn,
    pool_run display (start b) (replicate (length ids) (Acquire ok_env))
    = Ok ({| pool := Some bn; live := first_handles display (length ids) |},
          (λ j, Acquired 0 (Some j)) <$> seq 0 (length ids)) ∧
    (∀ e frame, format frame = AV_PIX_FMT_VAAPI_VLD →
       vaapi_get_buffer e display bn frame
       = Ok {| gb_ret := AVERROR ENOMEM; gb_buf := bn; gb_frame := frame;
               gb_trace := [EvLog "No free surfaces left."%string] |}) ∧
    (∀ k, (k < length ids)%nat →
       ∃ st',
         pool_run display
           {| pool := Some bn; live := first_handles display (length ids) |}
           [Release {| fr_display := display; used := k |}; Acquire ok_env]
         = Ok (st', [Released; Acquired 0 (Some k)])).
Proof.
  intros (Hwf & Hrc).
  destruct (acquire_run display ids (length ids) 0 b Hwf) as (bn & Hrun & Hwfn & Hrcn).
  simpl in Hrun, Hwfn. exists bn. split; [exact Hrun|]. split.
  - intros e frame Hfmt.
    apply (get_buffer_exhausted e display bn frame ids _ Hwfn Hfmt).
    intros i u (-> & _)%lookup_replicate. lia.
  - intros k Hk. simpl.
    destruct (decide (_ ∈ _)) as [_|Hout].
    2:{ exfalso. apply Hout. by apply first_handles_elem. }
    rewrite (release_buffer_shared _ bn ids _ Hwfn)
      by (rewrite ?length_replicate; simpl; lia).
    simpl.
    destruct (lookup_lt_is_Some_2 ids k Hk) as [sid Hsid].
    set (fl := <[k := 0]> (replicate (length ids) 1)).
    assert (Hwf' : pool_wf (set_surface_used (config bn) (Some fl)) ids fl).
    { eapply pool_wf_set_used; [exact Hwfn|]. apply length_insert. }
    rewrite (get_buffer_checkout ok_env display
               {| config := set_surface_used (config bn) (Some fl);
                  refcount := refcount bn - 1 |}
               hw_frame ids fl Hwf' eq_refl k sid eq_refl eq_refl eq_refl).
    + simpl. by eexists.
    + apply list_lookup_insert_eq. by rewrite length_replicate.
    + intros m Hm. exists 1. split; [|lia]. unfold fl.
      rewrite list_lookup_insert_ne by lia. apply lookup_replicate. lia.
    + done.
Qed.

Lemma pool_exhaustion_then_reuse_witness :
  ∃ bn,
    pool_run 9 (start demo_buf) [Acquire ok_env; Acquire ok_env]
    = Ok ({| pool := Some bn; live := first_handles 9 2 |},
          [Acquired 0 (Some 0%nat); Acquired 0 (Some 1%nat)]) ∧
    vaapi_get_buffer ok_env 9 bn hw_frame
    = Ok {| gb_ret := -12; gb_buf := bn; gb_frame := hw_frame;
            gb_trace := [EvLog "No free surfaces left."%string] |}.
Proof.
  destruct (pool_exhaustion_then_reuse 9 demo_buf [100; 101] demo_fresh)
    as (bn & Hrun & Hfull & _).
  exists bn. split; [exact Hrun|]. exact (Hfull ok_env hw_frame eq_refl).
Defined.

(** C4. Along every sequence of checkouts and releases on a freshly
    created pool, no two live handles hold the same slot, a flag is set
    exactly when a live handle holds its slot, and a checkout that
    succeeds in the reached state hands out a slot no live handle holds:
    the lowest index whose in-use flag is clear. *)
Theorem exclusive_slot_checkout (display : Z) (b : config_buf) (ids : list Z)
    (ops : list pool_op) :
  fresh_pool b ids →
  ∃ st os b' flags,
    pool_run display (start b) ops = Ok (st, os) ∧
    NoDup (used <$> live st) ∧
    pool st = Some b' ∧ surface_used (config b') = Some flags ∧
    (∀ i, (∃ h, h ∈ live st ∧ used h = i) ↔ flags !! i = Some 1) ∧
    (∀ i, (i < length flags)%nat →
          (∀ h, h ∈ live st → used h ≠ i) ↔ flags !! i = Some 0) ∧
    ∀ e, ∃ r,
      vaapi_get_buffer e display b' hw_frame = Ok r ∧
      (gb_ret r = 0 →
         ∃ h, handle_of r = Some h ∧
              ¬ (used h ∈ used <$> live st) ∧
              flags !! used h = Some 0 ∧
              ∀ m, (m < used h)%nat → flags !! m ≠ Some 0).
Proof.
  intros Hfresh.
  destruct (pool_run_inv display ids ops (start b) (fresh_pool_inv display b ids Hfresh))
    as (st & os & Hrun & b' & flags & Hp & Hwf & Hnd & Hlive & Hflags & Hrc).
  exists st, os, b', flags.
  split; [done|]. split; [done|]. split; [done|].
  split; [by destruct Hwf as (_ & ? & _)|].
  split.
  { intros i. split.
    - intros (h & Hin & <-). by destruct (Hlive _ Hin).
    - intros Hi. destruct (Hflags _ _ Hi) as [?|(_ & Hh)]; [lia|done]. }
  split.
  { intros i Hi. destruct (lookup_lt_is_Some_2 flags i Hi) as [u Hu].
    split.
    - intros Hnone. destruct (Hflags _ _ Hu) as [->|(_ & h & Hin & Heq)]; [done|].
      by destruct (Hnone _ Hin).
    - intros H0 h Hin Heq. destruct (Hlive _ Hin) as (_ & H1). congruence. }
  intros e.
  destruct (get_buffer_wf e display b' hw_frame ids flags Hwf eq_refl)
    as (r & Hr & Hsucc).
  exists r. split; [done|]. intros H0.
  destruct (Hsucc H0) as (i & sid & Hi & Hlow & _ & Hh & _).
  eexists. split; [exact Hh|]. simpl. split; [|split; [done|]].
  - intros (h' & Hu' & Hin)%list_elem_of_fmap.
    destruct (Hlive _ Hin) as (_ & Hf). congruence.
  - intros m Hm Hc. destruct (Hlow _ Hm) as (u & Hu1 & Hu2). congruence.
Qed.

Lemma exclusive_slot_checkout_witness :
  ∃ st os,
    pool_run 9 (start demo_buf)
      [Acquire ok_env; Release {| fr_display := 9; used := 0 |}; Acquire ok_env]
    = Ok (st, os) ∧ NoDup (used <$> live st).
Proof.
  destruct (exclusive_slot_checkout 9 demo_buf [100; 101]
              [Acquire ok_env; Release {| fr_display := 9; used := 0 |};
               Acquire ok_env] demo_fresh)
    as (st & os & _ & _ & Hrun & Hnd & _).
  exists st, os. split; [exact Hrun|exact Hnd].
Defined.

(** C9. Releasing a frame handle stores 0 through its flag pointer and
    then drops its reference on the config buffer.  The store changes the
    flag of the handle's own slot only: every other flag, the surface
    array, the pool size and the driver handles are as before.  When
    other references remain the buffer lives on with its count one lower;
    when the handle held the last one, the config's free callback runs on
    the config as the store left it. *)
Theorem release_clears_one_flag (h : VAAPIFrame) (b : config_buf)
    (ids flags : list Z) :
  pool_wf (config b) ids flags → (used h < length flags)%nat →
  ∃ c1 flags1,
    surface_used c1 = Some flags1 ∧
    flags1 !! used h = Some 0 ∧
    (∀ j, j ≠ used h → flags1 !! j = flags !! j) ∧
    length flags1 = length flags ∧
    surfaces c1 = Some ids ∧
    nb_surfaces c1 = nb_surfaces (config b) ∧
    config_id c1 = config_id (config b) ∧
    context_id c1 = context_id (config b) ∧
    (refcount b ≠ 1 →
       vaapi_release_buffer h b
       = Ok (Some {| config := c1; refcount := refcount b - 1 |},
             [EvFree HFrame])) ∧
    (refcount b = 1 →
       vaapi_release_buffer h b
       = (t ← vaapi_free_config c1; Ok (None, t ++ [EvFree HFrame]))).
Proof.
  intros Hwf Hslot.
  exists (set_surface_used (config b) (Some (<[used h := 0]> flags))),
         (<[used h := 0]> flags).
  simpl. split; [done|].
  split; [by apply list_lookup_insert_eq|].
  split; [intros j Hj; by apply list_lookup_insert_ne|].
  split; [apply length_insert|].
  split; [by destruct Hwf|].
  split; [done|]. split; [done|]. split; [done|].
  split; intros Hrc.
  - by eapply release_buffer_shared.
  - by eapply release_buffer_last.
Qed.

Lemma release_clears_one_flag_witness :
  ∃ c1 flags1,
    surface_used c1 = Some flags1 ∧
    flags1 !! 1%nat = Some 0 ∧ flags1 !! 0%nat = Some 1 ∧
    surfaces c1 = Some [100; 101] ∧
    vaapi_release_buffer {| fr_display := 9; used := 1 |} busy_buf
    = Ok (Some {| config := c1; refcount := 2 |}, [EvFree HFrame]).
Proof.
  assert (Hwf : pool_wf (config busy_buf) [100; 101] [1; 1])
    by (repeat split; simpl; lia).
  assert (Hlt : (used {| fr_display := 9; used := 1 |} < length [1; 1])%nat)
    by (simpl; lia).
  destruct (release_clears_one_flag _ busy_buf _ _ Hwf Hlt)
    as (c1 & fl & Hu & Hown & Hothers & _ & Hs & _ & _ & _ & Hshared & _).
  exists c1, fl. split; [exact Hu|]. split; [exact Hown|].
  split; [exact (Hothers 0%nat ltac:(simpl; lia))|]. split; [exact Hs|].
  apply Hshared. simpl. lia.
Defined.

(** C10. A checkout that fails leaves the pool as it was: whatever made
    it fail (no clear flag, or the host allocator refusing the handle, the
    config reference or the buffer), the config, and with it the in-use
    flag array, is the one the call started from.  A flag is written only
    by a call that returns 0, and such a call had all three allocations
    granted. *)
Theorem failed_checkout_keeps_flags (e : get_buffer_env) (display : Z)
    (b : config_buf) (frame : AVFrame) (ids flags : list Z) :
  pool_wf (config b) ids flags → format frame = AV_PIX_FMT_VAAPI_VLD →
  ∃ r,
    vaapi_get_buffer e display b frame = Ok r ∧
    (gb_ret r = 0 ∨ gb_ret r = AVERROR ENOMEM) ∧
    (gb_ret r < 0 →
       config (gb_buf r) = config b ∧
       surface_used (config (gb_buf r)) = Some flags) ∧
    (gb_mallocz_ok e = false ∨ gb_buffer_ref_ok e = false ∨
     gb_buffer_create_ok e = false ∨ (∀ i u, flags !! i = Some u → u ≠ 0) →
       gb_ret r < 0) ∧
    (gb_ret r = 0 →
       gb_mallocz_ok e = true ∧ gb_buffer_ref_ok e = true ∧
       gb_buffer_create_ok e = true ∧
       ∃ i, flags !! i = Some 0 ∧
            surface_used (config (gb_buf r)) = Some (<[i := 1]> flags)).
Proof.
  intros Hwf Hfmt.
  destruct (get_buffer_wf e display b frame ids flags Hwf Hfmt) as (r & Hr & Hsucc).
  destruct (get_buffer_failure_inv _ _ _ _ _ Hr) as (Hret & _ & Hfail & Hok).
  exists r. split; [done|]. split; [done|].
  assert (Hneg : gb_ret r ≠ 0 → gb_ret r < 0).
  { destruct Hret as [->| ->]; unfold AVERROR, ENOMEM; lia. }
  split.
  { intros Hlt. rewrite Hfail by lia. split; [done|]. by destruct Hwf as (_ & ? & _). }
  split.
  { intros Hcause. apply Hneg. intros H0.
    destruct (Hok H0) as (Hm & Hrf & Hc).
    destruct (Hsucc H0) as (i & sid & Hi & _).
    destruct Hcause as [?|[?|[?|Hfull]]]; try congruence.
    by apply Hfull in Hi. }
  intros H0. destruct (Hok H0) as (Hm & Hrf & Hc).
  destruct (Hsucc H0) as (i & sid & Hi & _ & _ & _ & Hb).
  repeat (split; [done|]). exists i. split; [done|]. by rewrite Hb.
Qed.

Lemma failed_checkout_keeps_flags_witness :
  ∃ r,
    vaapi_get_buffer ref_fails_env 9 demo_buf hw_frame = Ok r ∧
    gb_ret r = -12 ∧ surface_used (config (gb_buf r)) = Some [0; 0].
Proof.
  assert (Hwf : pool_wf (config demo_buf) [100; 101] [0; 0])
    by (repeat split; simpl; lia).
  destruct (failed_checkout_keeps_flags ref_fails_env 9 demo_buf hw_frame
              [100; 101] [0; 0] Hwf eq_refl)
    as (r & Hr & _ & Hkeep & Hcause & _).
  exists r. split; [exact Hr|].
  assert (Hneg : gb_ret r < 0) by (apply Hcause; right; left; reflexivity).
  split; [|exact (proj2 (Hkeep Hneg))].
  vm_compute in Hr. injection Hr as <-. reflexivity.
Defined.

(** ** Teardown of a config *)

(** The guards of the free callback: a context or config handle that
    carries VA_INVALID_ID is passed over, while vaDestroySurfaces is
    called whatever the surface array holds. *)
Lemma free_config_guards (c : VAAPIConfig) (display : Z) :
  ctx c = Some display →
  ∃ t, vaapi_free_config c = Ok t ∧
    first_index is_destroy_surfaces t = Some 0%nat ∧
    (context_id c = VA_INVALID_ID → first_index is_destroy_context t = None) ∧
    (config_id c = VA_INVALID_ID → first_index is_destroy_config t = None).
Proof.
  intros Hctx. unfold vaapi_free_config. rewrite Hctx.
  eexists. split; [done|]. split; [done|].
  split; intros ->; simpl;
    destruct (surfaces c), (surface_used c), (context_id c =? VA_INVALID_ID),
             (config_id c =? VA_INVALID_ID), (ctx_buf c); done.
Qed.

(** C1 (as the code has it). When the last reference to a fully created
    config is dropped, its free callback destroys the surfaces first
    (and frees the two host arrays), then the decode context, then the
    driver config object, and only then releases the device reference
    and frees the config. *)
Theorem teardown_order (c : VAAPIConfig) (display : Z) :
  ctx c = Some display → ctx_buf c = true →
  context_id c ≠ VA_INVALID_ID → config_id c ≠ VA_INVALID_ID →
  ∃ t,
    config_buf_unref {| config := c; refcount := 1 |} = Ok (None, t) ∧
    t = [EvDestroySurfaces display (surfaces c) (nb_surfaces c)]
        ++ av_freep HSurfaces (is_some (surfaces c))
        ++ av_freep HSurfaceUsed (is_some (surface_used c))
        ++ [EvDestroyContext display (context_id c);
            EvDestroyConfig display (config_id c);
            EvUnref RCtxSelf; EvFree HConfig] ∧
    surfaces_context_config_device t.
Proof.
  intros Hctx Hbuf Hcx%Z.eqb_neq Hcf%Z.eqb_neq.
  unfold config_buf_unref, vaapi_free_config. simpl.
  rewrite Hctx, Hbuf, Hcx, Hcf. simpl.
  eexists. split; [done|]. split; [done|].
  destruct (surfaces c), (surface_used c); simpl;
    (split; [|split]); eexists _, _; (split; [done|]); (split; [done|]); lia.
Qed.

Lemma teardown_order_witness :
  ∃ t, config_buf_unref demo_buf = Ok (None, t) ∧
       surfaces_context_config_device t.
Proof.
  destruct (teardown_order demo_config 9 eq_refl eq_refl
              ltac:(vm_compute; discriminate) ltac:(vm_compute; discriminate))
    as (t & Hrun & _ & Hord).
  exists t. split; [exact Hrun|exact Hord].
Defined.

(** C1 as stated fails: on a fully created config the surfaces are
    destroyed before the decode context, not after the config object. *)
Lemma teardown_context_first_counterexample :
  ∃ t, config_buf_unref demo_buf = Ok (None, t) ∧
       ¬ context_config_surfaces_device t.
Proof.
  eexists. split; [vm_compute; reflexivity|].
  intros (_ & (i & j & Hi & Hj & Hlt) & _).
  vm_compute in Hi, Hj. injection Hi as <-. injection Hj as <-. lia.
Qed.

(** ** Creation of a config *)

(** C2 at the failing input. When vaCreateSurfaces is refused the code
    stores VA_INVALID_ID in surfaces[0] and drops the buffer; the free
    callback then calls vaDestroySurfaces on that very array (the sentinel
    followed by the fifteen entries av_malloc_array left uninitialised),
    although the context and config handles carrying the sentinel are
    passed over. *)
Theorem refused_surfaces_still_destroyed :
  vaapi_create_config surfaces_refused_env 9 None slice_avctx
  = Ok {| cc_ret := AVERROR_UNKNOWN; cc_cur_config_buf := None;
          cc_trace :=
            [EvAlloc HConfig; EvRef RCtxSelf;
             EvAlloc HSurfaces; EvAlloc HSurfaceUsed;
             EvCreateSurfaces 9 1920 1088 16 1;
             EvLog "Error creating surfaces: %s"%string;
             EvDestroySurfaces 9 (Some (VA_INVALID_ID :: replicate 15 0xdead)) 16;
             EvFree HSurfaces; EvFree HSurfaceUsed;
             EvUnref RCtxSelf; EvFree HConfig] |}.
Proof. vm_compute. reflexivity. Qed.

(** When the reference on the device context is refused, the config is
    still the zeroed block: its free callback reads config->ctx->display
    through a NULL ctx. *)
Lemma refused_ctx_ref_faults :
  vaapi_create_config ctx_ref_refused_env 9 None slice_avctx = Fault.
Proof. reflexivity. Qed.

Lemma create_config_fail_ret c t r :
  create_config_fail c t = Ok r → cc_ret r = AVERROR_UNKNOWN.
Proof.
  unfold create_config_fail.
  destruct (config_buf_unref _) as [[? ?]| |]; simpl; [|done..].
  by intros [= <-].
Qed.

(** What a successful vaapi_create_config leaves in ctx->cur_config_buf. *)
Lemma create_config_success (e : create_config_env) (display : Z)
    (cur : option config_buf) (s : AVCodecContext) (r : create_config_result) :
  vaapi_create_config e display cur s = Ok r → cc_ret r = 0 →
  let nb := 16 + (if active_thread_type s =? FF_THREAD_FRAME
                  then thread_count s else 0) in
  0 ≤ nb ∧
  cc_cur_config_buf r =
    Some {| config :=
              {| ctx_buf := true; ctx := Some display;
                 config_id := cc_new_config_id e;
                 context_id := cc_new_context_id e;
                 surfaces := Some (cc_new_surfaces e <$> seq 0 (Z.to_nat nb));
                 surface_used := Some (replicate (Z.to_nat nb) 0);
                 nb_surfaces := nb |};
            refcount := 1 |}.
Proof.
  assert (Hunk : AVERROR_UNKNOWN ≠ 0) by (vm_compute; discriminate).
  unfold vaapi_create_config. intros Hrun Hret.
  destruct (cc_profile e) as [profile|];
    [|injection Hrun as <-; vm_compute in Hret; discriminate].
  destruct (cc_mallocz_ok e); simpl in Hrun;
    [|injection Hrun as <-; vm_compute in Hret; discriminate].
  destruct (cc_buffer_create_ok e); simpl in Hrun;
    [|injection Hrun as <-; vm_compute in Hret; discriminate].
  destruct (cc_ctx_ref_ok e); simpl in Hrun;
    [|apply create_config_fail_ret in Hrun; congruence].
  assert (∃ nb, nb = 16 + (if active_thread_type s =? FF_THREAD_FRAME
                           then thread_count s else 0) ∧
     match array_alloc (cc_surfaces_ok e) nb (cc_garbage e <$> seq 0 (Z.to_nat nb)),
           array_alloc (cc_used_ok e) nb (replicate (Z.to_nat nb) 0) with
     | Some _, Some _ => 0 ≤ nb
     | _, _ => True
     end) as (nb & Hnb & Hpos).
  { eexists. split; [done|]. unfold array_alloc.
    destruct (cc_surfaces_ok e), (cc_used_ok e); simpl; try done;
      destruct (Z.leb_spec 0 (16 + (if active_thread_type s =? FF_THREAD_FRAME
                                   then thread_count s else 0))); done. }
  simpl. rewrite <- Hnb.
  assert (Hbind : (if active_thread_type s =? FF_THREAD_FRAME
                   then if 16 + thread_count s >? INT_MAX then Fault
                        else Ok (16 + thread_count s)
                   else Ok 16) = Ok nb
                  ∨ (if active_thread_type s =? FF_THREAD_FRAME
                     then if 16 + thread_count s >? INT_MAX then Fault
                          else Ok (16 + thread_count s)
                     else Ok 16) = @Fault Z).
  { rewrite Hnb. destruct (active_thread_type s =? FF_THREAD_FRAME);
      [destruct (16 + thread_count s >? INT_MAX)|]; auto. }
  destruct Hbind as [Hb|Hb]; rewrite Hb in Hrun; simpl in Hrun; [|done].
  destruct (array_alloc (cc_surfaces_ok e) nb _) as [ids0|] eqn:Hsa;
    [|apply create_config_fail_ret in Hrun; congruence].
  destruct (array_alloc (cc_used_ok e) nb _) as [flags0|] eqn:Hua;
    [|apply create_config_fail_ret in Hrun; congruence].
  assert (flags0 = replicate (Z.to_nat nb) 0) as ->.
  { unfold array_alloc in Hua. destruct (_ && _); congruence. }
  destruct (cc_create_surfaces e =? VA_STATUS_SUCCESS); simpl in Hrun.
  2:{ destruct ids0; [done|]. apply create_config_fail_ret in Hrun. congruence. }
  destruct (cc_create_config e =? VA_STATUS_SUCCESS); simpl in Hrun;
    [|apply create_config_fail_ret in Hrun; congruence].
  destruct (cc_create_context e =? VA_STATUS_SUCCESS); simpl in Hrun;
    [|apply create_config_fail_ret in Hrun; congruence].
  injection Hrun as <-. simpl. done.
Qed.

(** C5. After a successful vaapi_create_config the pool has sixteen
    surfaces, plus thread_count more exactly when frame threading is
    active; the surface array and the flag array both have that many
    entries, every flag is clear, and no sequence of checkouts and
    releases changes the count, the surface ids or the array lengths. *)
Theorem created_pool_size (e : create_config_env) (display : Z)
    (cur : option config_buf) (s : AVCodecContext) (r : create_config_result) :
  vaapi_create_config e display cur s = Ok r → cc_ret r = 0 →
  ∃ b ids,
    cc_cur_config_buf r = Some b ∧
    nb_surfaces (config b) =
      16 + (if active_thread_type s =? FF_THREAD_FRAME then thread_count s else 0) ∧
    surfaces (config b) = Some ids ∧
    Z.of_nat (length ids) = nb_surfaces (config b) ∧
    surface_used (config b) = Some (replicate (length ids) 0) ∧
    ∀ ops, ∃ st os b' flags',
      pool_run display (start b) ops = Ok (st, os) ∧
      pool st = Some b' ∧
      nb_surfaces (config b') = nb_surfaces (config b) ∧
      surfaces (config b') = Some ids ∧
      surface_used (config b') = Some flags' ∧
      length flags' = length ids.
Proof.
  intros Hrun Hret.
  destruct (create_config_success e display cur s r Hrun Hret) as (Hpos & Hbuf).
  set (nb := 16 + _) in *.
  eexists _, _. split; [exact Hbuf|]. simpl.
  assert (Hlen : length (cc_new_surfaces e <$> seq 0 (Z.to_nat nb)) = Z.to_nat nb)
    by (by rewrite length_fmap, length_seq).
  rewrite Hlen.
  split; [done|]. split; [done|]. split; [lia|]. split; [done|].
  intros ops.
  match goal with |- context [start ?b0] => set (b := b0) end.
  assert (Hfresh : fresh_pool b (cc_new_surfaces e <$> seq 0 (Z.to_nat nb))).
  { unfold fresh_pool, pool_wf, b. simpl.
    rewrite Hlen, length_replicate. repeat split; try done; lia. }
  destruct (pool_run_inv display _ ops (start b) (fresh_pool_inv display b _ Hfresh))
    as (st & os & Hr & b' & flags' & Hp & (Hs & Hu & Hl & Hn) & _).
  exists st, os, b', flags'.
  split; [done|]. split; [done|]. rewrite Hn, <- Hl, Hlen.
  split; [lia|]. split; [done|]. split; [done|lia].
Qed.

Lemma created_pool_size_witness :
  ∃ r b,
    vaapi_create_config granting_env 9 None demo_avctx = Ok r ∧
    cc_cur_config_buf r = Some b ∧ nb_surfaces (config b) = 20 ∧
    surface_used (config b) = Some (replicate 20 0).
Proof.
  eexists. destruct (created_pool_size granting_env 9 None demo_avctx _
                       ltac:(vm_compute; reflexivity) ltac:(vm_compute; reflexivity))
    as (b & ids & Hb & Hnb & Hs & Hlen & Hu & _).
  exists b. split; [reflexivity|]. split; [exact Hb|].
  split; [exact Hnb|].
  rewrite Hu. f_equal. f_equal.
  apply Nat2Z.inj. rewrite Hlen, Hnb. reflexivity.
Defined.

(** ** Format negotiation *)

Lemma scan_formats_head fcc fs :
  scan_formats fcc fs = head (filter (λ f, fourcc f = fcc) fs).
Proof.
  induction fs as [|f fs IH]; [done|]. simpl. rewrite filter_cons.
  destruct (Z.eqb_spec fcc (fourcc f)) as [->|Hne].
  - by destruct (decide (fourcc f = fourcc f)).
  - destruct (decide (fourcc f = fcc)); [congruence|done].
Qed.

Lemma scan_formats_Some fcc fs f :
  scan_formats fcc fs = Some f → f ∈ fs ∧ fourcc f = fcc.
Proof.
  induction fs as [|g fs IH]; [done|]. simpl.
  destruct (Z.eqb_spec fcc (fourcc g)) as [->|Hne].
  - intros [= ->]. split; [apply list_elem_of_here|done].
  - intros [Hin Hf]%IH. split; [by apply list_elem_of_further|done].
Qed.

Lemma scan_formats_None fcc fs :
  scan_formats fcc fs = None ↔ ∀ f, f ∈ fs → fourcc f ≠ fcc.
Proof.
  induction fs as [|g fs IH]; simpl.
  - split; [|done]. by intros _ f ?%elem_of_nil.
  - destruct (Z.eqb_spec fcc (fourcc g)) as [->|Hne].
    + split; [done|]. intros H. by destruct (H g (list_elem_of_here _ _)).
    + rewrite IH. split.
      * intros H f [->|Hin]%elem_of_cons; [congruence|by apply H].
      * intros H f Hin. by apply H, list_elem_of_further.
Qed.

(** The two nested loops compute the negotiation. *)
Lemma scan_table_negotiate fs : scan_table vaapi_formats fs = negotiate fs.
Proof.
  unfold negotiate, vaapi_formats. simpl. rewrite !scan_formats_head.
  rewrite app_nil_r, head_app.
  destruct (filter (λ f, fourcc f = VA_FOURCC_YV12) fs); [|done].
  simpl. by destruct (filter (λ f, fourcc f = VA_FOURCC_NV12) fs).
Qed.

#[local] Arguments scan_table : simpl never.

Lemma pick_format_fails (e : pick_format_env) (c : VAAPIContext) :
  negotiate (pf_formats e) = None ∨ pf_max_formats e = 0 →
  pf_ret (pick_format e c) < 0 ∧ pf_ctx (pick_format e c) = c.
Proof.
  intros Hcause. unfold pick_format.
  destruct (Z.eqb_spec (pf_max_formats e) 0) as [H0|Hn0]; [by vm_compute|].
  destruct Hcause as [Hnone|?]; [|done].
  unfold array_alloc. destruct (_ && _); [|by vm_compute].
  destruct (pf_query_status e =? VA_STATUS_SUCCESS); simpl; [|by vm_compute].
  rewrite scan_table_negotiate, Hnone. by vm_compute.
Qed.

Lemma create_context_fail_ret bc hw hc t res :
  create_context_fail bc hw hc t = Ok res → ci_ret res = AVERROR EINVAL.
Proof.
  unfold create_context_fail.
  destruct (vaapi_uninit bc hw hc); simpl; [|done..]. by intros [= <-].
Qed.

(** On a stream that has no device context yet the fail label of
    vaapi_create_context reaches vaapi_uninit with ist->hwaccel_ctx still
    NULL. *)
Lemma create_context_fail_fresh bc hc t :
  create_context_fail bc None hc t = Fault.
Proof. done. Qed.

Lemma create_context_needs_format bc (e : create_context_env) hw hc res :
  (∀ c, pf_ret (pick_format (ci_pick e) c) < 0) →
  vaapi_create_context bc e hw hc = Ok res → ci_ret res < 0.
Proof.
  intros Hpick. unfold vaapi_create_context.
  assert (Hneg : AVERROR EINVAL < 0 ∧ AVERROR ENOMEM < 0) by (by vm_compute).
  destruct (ci_mallocz_ok e); simpl; [|intros [= <-]; apply Hneg].
  destruct (ci_buffer_create_ok e); simpl; [|intros [= <-]; apply Hneg].
  destruct (ci_frame_alloc_ok e); simpl;
    [|intros ->%create_context_fail_ret; apply Hneg].
  destruct (if HAVE_VAAPI_DRM bc then _ else _) as [c1 t1].
  destruct (if HAVE_VAAPI_X11 bc && _ then _ else _) as [c2 t2].
  destruct (display c2 =? 0);
    [intros ->%create_context_fail_ret; apply Hneg|].
  destruct (ci_vaInitialize e =? VA_STATUS_SUCCESS); simpl;
    [|intros ->%create_context_fail_ret; apply Hneg].
  specialize (Hpick c2). apply Z.ltb_lt in Hpick. rewrite Hpick.
  intros ->%create_context_fail_ret; apply Hneg.
Qed.

(** Format negotiation as the code performs it.  The static list has the
    two entries YV12 -> YUV420P and NV12 -> NV12, in that order.  When
    the driver's query succeeds,
    pick_format returns exactly the first match of the intersection taken
    in the static list's order and stores it in the context: a driver
    that lists YV12 gets YUV420P whatever else it lists and wherever,
    NV12 is chosen only when YV12 is absent.  When the intersection is
    empty, in particular when the driver enumerates no format, or when it
    reports a maximum of zero formats, pick_format returns a negative
    value, leaves the context as it was, and no call of
    vaapi_create_context reports success. *)
Theorem format_negotiation (e : pick_format_env) (c : VAAPIContext) :
  let r := pick_format e c in
  let fs := pf_formats e in
  vaapi_formats = [ (VA_FOURCC_YV12, AV_PIX_FMT_YUV420P);
                    (VA_FOURCC_NV12, AV_PIX_FMT_NV12) ] ∧
  (pf_max_formats e ≠ 0 → pf_alloc_ok e = true → 0 ≤ pf_max_formats e →
   pf_query_status e = VA_STATUS_SUCCESS →
     match negotiate fs with
     | Some (f, pix) => pf_ret r = 0 ∧ pf_ctx r = set_format c f pix
     | None => pf_ret r = AVERROR EINVAL ∧ pf_ctx r = c
     end) ∧
  (∀ f, f ∈ fs → fourcc f = VA_FOURCC_YV12 →
     ∃ f', negotiate fs = Some (f', AV_PIX_FMT_YUV420P) ∧
           f' ∈ fs ∧ fourcc f' = VA_FOURCC_YV12) ∧
  (∀ f, (∀ g, g ∈ fs → fourcc g ≠ VA_FOURCC_YV12) →
        f ∈ fs → fourcc f = VA_FOURCC_NV12 →
     ∃ f', negotiate fs = Some (f', AV_PIX_FMT_NV12) ∧
           f' ∈ fs ∧ fourcc f' = VA_FOURCC_NV12) ∧
  ((∀ f, f ∈ fs → fourcc f ≠ VA_FOURCC_YV12 ∧ fourcc f ≠ VA_FOURCC_NV12)
   ↔ negotiate fs = None) ∧
  (fs = [] → negotiate fs = None) ∧
  (negotiate fs = None ∨ pf_max_formats e = 0 →
     pf_ret r < 0 ∧ pf_ctx r = c ∧
     ∀ bc ce hw hc res,
       ci_pick ce = e → vaapi_create_context bc ce hw hc = Ok res →
       ci_ret res < 0).
Proof.
  intros r fs. split; [done|].
  assert (Hneg : negotiate fs =
            match scan_formats VA_FOURCC_YV12 fs with
            | Some f => Some (f, AV_PIX_FMT_YUV420P)
            | None => match scan_formats VA_FOURCC_NV12 fs with
                      | Some f => Some (f, AV_PIX_FMT_NV12)
                      | None => None
                      end
            end) by (by rewrite <- scan_table_negotiate).
  split.
  { intros Hmax Halloc Hpos Hq. unfold r, pick_format, array_alloc.
    destruct (Z.eqb_spec (pf_max_formats e) 0); [done|].
    rewrite Halloc. destruct (Z.leb_spec 0 (pf_max_formats e)); [|lia].
    simpl. rewrite Hq. simpl. rewrite scan_table_negotiate.
    unfold fs. destruct (negotiate (pf_formats e)) as [[f pix]|];
      split; reflexivity. }
  split.
  { intros f Hin Hf. rewrite Hneg.
    destruct (scan_formats VA_FOURCC_YV12 fs) as [f'|] eqn:Hs.
    - apply scan_formats_Some in Hs as (? & ?). by exists f'.
    - by destruct (proj1 (scan_formats_None _ _) Hs f Hin). }
  split.
  { intros f Hno Hin Hf. rewrite Hneg.
    rewrite (proj2 (scan_formats_None _ _) Hno).
    destruct (scan_formats VA_FOURCC_NV12 fs) as [f'|] eqn:Hs.
    - apply scan_formats_Some in Hs as (? & ?). by exists f'.
    - by destruct (proj1 (scan_formats_None _ _) Hs f Hin). }
  split.
  { rewrite Hneg. split.
    - intros Hnone.
      rewrite (proj2 (scan_formats_None VA_FOURCC_YV12 fs))
        by (intros f Hin; by destruct (Hnone f Hin)).
      rewrite (proj2 (scan_formats_None VA_FOURCC_NV12 fs))
        by (intros f Hin; by destruct (Hnone f Hin)).
      done.
    - destruct (scan_formats VA_FOURCC_YV12 fs) eqn:Hy; [done|].
      destruct (scan_formats VA_FOURCC_NV12 fs) eqn:Hn; [done|].
      intros _ f Hin. split; [eapply scan_formats_None in Hy|
                              eapply scan_formats_None in Hn]; done. }
  split; [by intros ->|].
  intros Hcause.
  destruct (pick_format_fails e c Hcause) as (Hret & Hctx).
  split; [done|]. split; [done|].
  intros bc ce hw hc res <- Hrun.
  eapply create_context_needs_format; [|exact Hrun].
  intros c'. by apply pick_format_fails.
Qed.

Lemma format_negotiation_witness :
  pf_ret (pick_format both_formats_env zeroed_context) = 0 ∧
  pf_ctx (pick_format both_formats_env zeroed_context)
  = set_format zeroed_context
      {| fourcc := VA_FOURCC_YV12; byte_order := 1; bits_per_pixel := 12 |}
      AV_PIX_FMT_YUV420P.
Proof.
  destruct (format_negotiation both_formats_env zeroed_context)
    as (_ & Href & _).
  exact (Href ltac:(vm_compute; discriminate) eq_refl
              ltac:(vm_compute; discriminate) eq_refl).
Defined.

(** C6 at the failing input.  On a stream that has no device context yet,
    with a driver that enumerates RGBA only, the negotiation finds no
    match and pick_format returns AVERROR(EINVAL) as claimed; but device
    creation does not get to return its error: the fail label calls
    vaapi_uninit, which reads ist->hwaccel_ctx -- assigned only on the
    successful exit, so still NULL -- and dereferences it. *)
Theorem no_common_format_faults :
  negotiate (pf_formats rgba_only_env) = None ∧
  pf_ret (pick_format rgba_only_env zeroed_context) = AVERROR EINVAL ∧
  vaapi_create_context drm_build rgba_device_env None false = Fault.
Proof. split; [|split]; reflexivity. Qed.

(** Had the context pointer been stored before the jump, the same call
    would return AVERROR(EINVAL). *)
Example no_common_format_with_context :
  ci_ret <$> vaapi_create_context drm_build rgba_device_env
               (Some (set_tmp_frame zeroed_context (Some blank_frame))) false
  = Ok (AVERROR EINVAL).
Proof. reflexivity. Qed.

(** ** Image retrieval *)

Lemma drop_head x l : drop x (x :: l) = drop x l.
Proof. unfold drop. rewrite filter_cons. by destruct (decide (x ≠ x)). Qed.

#[local] Arguments drop : simpl never.

Lemma to_int32_small p : 0 ≤ p < 2 ^ 31 → to_int32 p = p.
Proof.
  intros Hp. unfold to_int32.
  rewrite Z.mod_small; lia.
Qed.

Lemma fill_planes_spec base im : ∀ todo i d ls,
  length (pitches im) = 3%nat → length (offsets im) = 3%nat →
  (i + todo ≤ 3)%nat → length d = 8%nat → length ls = 8%nat →
  ∃ d' ls',
    fill_planes base im i todo d ls = Ok (d', ls') ∧
    length d' = 8%nat ∧ length ls' = 8%nat ∧
    (∀ j, (i ≤ j < i + todo)%nat →
       ∃ off p, offsets im !! j = Some off ∧ pitches im !! j = Some p ∧
                d' !! j = Some (base + off) ∧ ls' !! j = Some (to_int32 p)) ∧
    (∀ j, ¬ (i ≤ j < i + todo)%nat → d' !! j = d !! j ∧ ls' !! j = ls !! j).
Proof.
  induction todo as [|todo IH]; intros i d ls Hp Ho Hi Hd Hl; simpl.
  - exists d, ls. repeat split; try done. intros; lia.
  - destruct (lookup_lt_is_Some_2 (offsets im) i) as [off Hoff]; [lia|].
    destruct (lookup_lt_is_Some_2 (pitches im) i) as [p Hpi]; [lia|].
    rewrite Hoff, Hpi. destruct (decide (i < length d)%nat); [|lia].
    destruct (IH (S i) (<[i := base + off]> d) (<[i := to_int32 p]> ls))
      as (d' & ls' & Hrun & Hd' & Hl' & Hin & Hout);
      rewrite ?length_insert; try done; try lia.
    exists d', ls'. split; [done|]. split; [done|]. split; [done|]. split.
    + intros j Hj. destruct (decide (j = i)) as [->|Hne].
      * exists off, p. split; [done|]. split; [done|].
        destruct (Hout i ltac:(lia)) as (-> & ->).
        rewrite !list_lookup_insert_eq by lia. done.
      * apply Hin. lia.
    + intros j Hj. destruct (Hout j ltac:(lia)) as (-> & ->).
      rewrite !list_lookup_insert_ne by lia. done.
Qed.

Lemma free_image_valid d im :
  image_id im ≠ VA_INVALID_ID → buf im ≠ VA_INVALID_ID →
  vaapi_free_image {| img_ctx := Some d; img_ctx_buf := true; image := im |}
  = Ok [EvUnmapBuffer d (buf im); EvDestroyImage d (image_id im);
        EvUnref RCtxSelf; EvFree HImage].
Proof.
  intros Hid%Z.eqb_neq Hbuf%Z.eqb_neq. unfold vaapi_free_image. simpl.
  by rewrite Hid, Hbuf.
Qed.

#[local] Arguments vaapi_free_image : simpl never.

(** C8. Whatever step of a retrieval fails -- a host allocation, image
    creation, the surface copy, the mapping, or the copy of the frame
    properties -- the call returns the negative value that goes with the
    stage (after logging the stage's message for the three driver calls),
    gives back the caller's frame as it received it, and leaves nothing
    of the image object behind: no driver image, no mapping, no reference
    on the device context, no host memory, and the device context itself
    as before. *)
Theorem retrieve_failure_rollback (e : retrieve_env) (c : VAAPIContext)
    (frame : AVFrame) (st : stage) :
  tmp_frame c = Some blank_frame → is_Some (data frame !! 3%nat) →
  image_wf (rd_image e) →
  first_failure e = Some st →
  ∃ r,
    vaapi_retrieve_data e c frame = Ok r ∧
    rd_ret r = (error_of e st).1 ∧ rd_ret r < 0 ∧
    (∀ msg, (error_of e st).2 = Some msg → last (rd_trace r) = Some (EvLog msg)) ∧
    rd_frame r = frame ∧
    settle (rd_trace r) = nothing_held ∧
    rd_ctx r = c.
Proof.
  intros Htmp [ptr Hptr] (Hp & Ho & Hnp & Hpit & Hid & Hbuf) Hfail.
  assert (Hneg : AVERROR ENOMEM < 0 ∧ AVERROR_UNKNOWN < 0) by (by vm_compute).
  pose proof (free_image_valid (display c) (rd_image e) Hid Hbuf) as Hfree.
  assert (Hctx : ∀ refs, refs = self_refs c →
                 set_refs_tmp c refs (Some blank_frame) = c).
  { intros refs ->. destruct c. simpl in *. by rewrite Htmp. }
  unfold first_failure in Hfail. unfold vaapi_retrieve_data.
  rewrite Hptr. simpl.
  destruct (rd_mallocz_ok e); simpl in *.
  2:{ injection Hfail as <-. eexists. split; [done|]. simpl.
      repeat split; try done; apply Hneg. }
  destruct (rd_ctx_ref_ok e); simpl in *.
  2:{ injection Hfail as <-. eexists. split; [done|]. simpl.
      repeat split; try done; apply Hneg. }
  destruct (rd_vaCreateImage e =? VA_STATUS_SUCCESS) eqn:Hci; simpl in *.
  2:{ injection Hfail as <-. eexists. split; [done|].
      cbn [rd_ret rd_frame rd_trace rd_ctx error_of fst snd].
      split; [done|]. split; [apply Hneg|].
      split; [by intros msg [= <-]|]. split; [done|].
      split; [unfold settle; simpl; by rewrite Hci|].
      rewrite Htmp. apply Hctx. unfold ctx_unrefs. simpl. lia. }
  rewrite ?Hfree.
  destruct (rd_vaGetImage e =? VA_STATUS_SUCCESS) eqn:Hgi; simpl in Hfail |- *.
  2:{ injection Hfail as <-. eexists. split; [done|].
      cbn [rd_ret rd_frame rd_trace rd_ctx error_of fst snd].
      split; [done|]. split; [apply Hneg|].
      split; [by intros msg [= <-]|]. split; [done|].
      split; [unfold settle; simpl; rewrite Hci; simpl; rewrite ?drop_head; reflexivity|].
      rewrite Htmp. apply Hctx. unfold ctx_unrefs. simpl. lia. }
  destruct (rd_vaMapBuffer e =? VA_STATUS_SUCCESS) eqn:Hmb; simpl in Hfail |- *.
  2:{ injection Hfail as <-. eexists. split; [done|].
      cbn [rd_ret rd_frame rd_trace rd_ctx error_of fst snd].
      split; [done|]. split; [apply Hneg|].
      split; [by intros msg [= <-]|]. split; [done|].
      split; [unfold settle; simpl; rewrite Hci; simpl; rewrite ?Hmb; simpl; rewrite ?drop_head; reflexivity|].
      rewrite Htmp. apply Hctx. unfold ctx_unrefs. simpl. lia. }
  rewrite Htmp.
  destruct (rd_buffer_create_ok e); simpl in Hfail |- *.
  2:{ injection Hfail as <-. eexists. split; [done|].
      cbn [rd_ret rd_frame rd_trace rd_ctx error_of fst snd].
      split; [done|]. split; [apply Hneg|].
      split; [done|]. split; [done|].
      split; [unfold settle; simpl; rewrite Hci; simpl; rewrite ?Hmb; simpl; rewrite ?drop_head; reflexivity|].
      apply Hctx. unfold ctx_unrefs. simpl. lia. }
  destruct (fill_planes_spec (rd_mapped e) (rd_image e)
              (Z.to_nat (num_planes (rd_image e))) 0
              (data blank_frame) (linesize blank_frame)
              Hp Ho ltac:(lia) eq_refl eq_refl)
    as (d & ls & Hfill & _).
  simpl in Hfill. rewrite Hfill. simpl.
  destruct (rd_copy_props e <? 0) eqn:Hcp; [|done].
  injection Hfail as <-. unfold av_frame_unref. cbn [buf0]. rewrite Hfree. simpl.
  eexists. split; [done|].
  cbn [rd_ret rd_frame rd_trace rd_ctx error_of fst snd].
  split; [done|]. split; [by apply Z.ltb_lt|].
  split; [done|]. split; [done|].
  split; [unfold settle; simpl; rewrite Hci; simpl; rewrite ?Hmb; simpl; rewrite ?drop_head; reflexivity|].
  apply Hctx. unfold ctx_unrefs. simpl. lia.
Qed.

Lemma demo_image_wf : image_wf demo_image.
Proof.
  unfold image_wf. simpl.
  split; [done|]. split; [done|]. split; [lia|].
  split; [repeat constructor; lia|]. split; vm_compute; discriminate.
Defined.

Lemma retrieve_failure_rollback_witness :
  ∃ r,
    vaapi_retrieve_data map_refused_env demo_ctx demo_hw_frame = Ok r ∧
    rd_ret r = AVERROR_UNKNOWN ∧
    last (rd_trace r) = Some (EvLog "Error mapping the image buffer: %s"%string) ∧
    rd_frame r = demo_hw_frame ∧
    settle (rd_trace r) = nothing_held ∧ rd_ctx r = demo_ctx.
Proof.
  destruct (retrieve_failure_rollback map_refused_env demo_ctx demo_hw_frame
              Mapping eq_refl (ex_intro _ 100 eq_refl) demo_image_wf eq_refl)
    as (r & Hrun & Hret & _ & Hlog & Hframe & Hheld & Hctx).
  exists r. split; [exact Hrun|]. split; [exact Hret|].
  split; [exact (Hlog _ eq_refl)|]. split; [exact Hframe|].
  split; [exact Hheld|exact Hctx].
Defined.

(** C7. When every step of a retrieval succeeds, the caller's frame is
    replaced by one backed by the mapped image: its width and height are
    those of the original frame, its format is the negotiated pixel
    format, and for each plane the image declares, the stride is the
    declared pitch and the pointer filled in by the copy loop is the
    mapped address plus the declared offset (entries beyond the declared
    planes stay NULL and 0).  Exactly when the negotiated format is
    YUV420P the pointers of planes 1 and 2 are then exchanged; the strides
    are not exchanged, and for any other format the pointers stay as
    the loop left them. *)
Theorem retrieved_frame_layout (e : retrieve_env) (c : VAAPIContext)
    (frame : AVFrame) (slot : nat) (priv : VAAPIFrame) :
  tmp_frame c = Some blank_frame →
  is_Some (data frame !! 3%nat) → buf0 frame = Some (SurfaceBuf slot priv) →
  image_wf (rd_image e) →
  first_failure e = None →
  ∃ r direct img,
    vaapi_retrieve_data e c frame = Ok r ∧
    rd_ret r = rd_copy_props e ∧ 0 ≤ rd_ret r ∧
    width (rd_frame r) = width frame ∧
    height (rd_frame r) = height frame ∧
    format (rd_frame r) = pix_fmt c ∧
    props (rd_frame r) = props frame ∧
    buf0 (rd_frame r)
      = Some (ImageBuf (rd_mapped e) (data_size (rd_image e)) img) ∧
    image img = rd_image e ∧
    length direct = 8%nat ∧
    (∀ i, Z.of_nat i < num_planes (rd_image e) →
       ∃ off p, offsets (rd_image e) !! i = Some off ∧
                pitches (rd_image e) !! i = Some p ∧
                direct !! i = Some (rd_mapped e + off) ∧
                linesize (rd_frame r) !! i = Some p) ∧
    (∀ i, num_planes (rd_image e) ≤ Z.of_nat i → (i < 8)%nat →
       direct !! i = Some 0 ∧ linesize (rd_frame r) !! i = Some 0) ∧
    (pix_fmt c = AV_PIX_FMT_YUV420P →
       data (rd_frame r) !! 1%nat = direct !! 2%nat ∧
       data (rd_frame r) !! 2%nat = direct !! 1%nat ∧
       ∀ i, i ≠ 1%nat → i ≠ 2%nat → data (rd_frame r) !! i = direct !! i) ∧
    (pix_fmt c ≠ AV_PIX_FMT_YUV420P → data (rd_frame r) = direct).
Proof.
  intros Htmp [ptr Hptr] Hbuf0 (Hp & Ho & Hnp & Hpit & Hid & Hbuf) Hok.
  unfold first_failure in Hok. unfold vaapi_retrieve_data.
  rewrite Hptr. simpl.
  destruct (rd_mallocz_ok e); [|done].
  destruct (rd_ctx_ref_ok e); [|done].
  destruct (rd_vaCreateImage e =? VA_STATUS_SUCCESS); [|done].
  destruct (rd_vaGetImage e =? VA_STATUS_SUCCESS); [|done].
  destruct (rd_vaMapBuffer e =? VA_STATUS_SUCCESS); [|done].
  destruct (rd_buffer_create_ok e); [|done].
  destruct (rd_copy_props e <? 0) eqn:Hcp; [done|]. apply Z.ltb_ge in Hcp.
  simpl. rewrite Htmp. simpl.
  destruct (fill_planes_spec (rd_mapped e) (rd_image e)
              (Z.to_nat (num_planes (rd_image e))) 0
              (data blank_frame) (linesize blank_frame)
              Hp Ho ltac:(lia) eq_refl eq_refl)
    as (d & ls & Hfill & Hd & Hl & Hin & Hout).
  simpl in Hfill. rewrite Hfill. simpl.
  destruct (Z.ltb_spec (rd_copy_props e) 0) as [?|_]; [lia|].
  unfold av_frame_unref. rewrite Hbuf0. simpl.
  destruct (lookup_lt_is_Some_2 d 1) as [u Hu]; [lia|].
  destruct (lookup_lt_is_Some_2 d 2) as [v Hv]; [lia|].
  assert (Hplanes : ∀ i, Z.of_nat i < num_planes (rd_image e) →
            ∃ off p, offsets (rd_image e) !! i = Some off ∧
                     pitches (rd_image e) !! i = Some p ∧
                     d !! i = Some (rd_mapped e + off) ∧ ls !! i = Some p).
  { intros i Hi. destruct (Hin i ltac:(lia)) as (off & p & Hoff & Hpi & Hdi & Hli).
    exists off, p. split; [done|]. split; [done|]. split; [done|].
    rewrite Hli, to_int32_small; [done|].
    by apply (Forall_lookup_1 _ _ _ _ Hpit Hpi). }
  assert (Hrest : ∀ i, num_planes (rd_image e) ≤ Z.of_nat i → (i < 8)%nat →
            d !! i = Some 0 ∧ ls !! i = Some 0).
  { intros i Hi Hi8. destruct (Hout i ltac:(lia)) as (-> & ->).
    split; apply lookup_replicate; (split; [done|apply Hi8]). }
  destruct (pix_fmt c) eqn:Hfmt; simpl; unfold swap_chroma; rewrite ?Hu, ?Hv;
    simpl; eexists _, d, _; (split; [done|]); simpl;
    repeat (split; [done|]); split; try done.
  intros _. split.
  { rewrite list_lookup_insert_eq by (rewrite length_insert; lia). done. }
  split.
  { rewrite list_lookup_insert_ne by done.
    rewrite list_lookup_insert_eq by lia. done. }
  intros i H1 H2. by rewrite !list_lookup_insert_ne.
Qed.

Lemma retrieved_frame_layout_witness :
  ∃ r,
    vaapi_retrieve_data granting_retrieve_env demo_ctx demo_hw_frame = Ok r ∧
    width (rd_frame r) = 1920 ∧ height (rd_frame r) = 1080 ∧
    data (rd_frame r) !! 1%nat = Some (0x7f0000000000 + 2611200) ∧
    linesize (rd_frame r) !! 1%nat = Some 960.
Proof.
  destruct (retrieved_frame_layout granting_retrieve_env demo_ctx demo_hw_frame
              0 {| fr_display := 9; used := 0 |} eq_refl
              (ex_intro _ 100 eq_refl) eq_refl demo_image_wf eq_refl)
    as (r & direct & img & Hrun & _ & _ & Hw & Hh & _ & _ & _ & _ & _
        & Hplanes & _ & Hswap & _).
  exists r. split; [exact Hrun|]. split; [exact Hw|]. split; [exact Hh|].
  destruct (Hswap eq_refl) as (H1 & _ & _).
  destruct (Hplanes 2%nat ltac:(simpl; lia)) as (off2 & p2 & Ho2 & _ & Hd2 & _).
  destruct (Hplanes 1%nat ltac:(simpl; lia)) as (off1 & p1 & _ & Hp1 & _ & Hl1).
  simpl in Ho2, Hp1. injection Ho2 as <-. injection Hp1 as <-.
  split; [by rewrite H1|exact Hl1].
Defined.

(** ** The model at work on the concrete inputs *)

Example three_checkouts_of_two :
  snd <$> pool_run 9 (start demo_buf)
            [Acquire ok_env; Acquire ok_env; Acquire ok_env]
  = Ok [Acquired 0 (Some 0%nat); Acquired 0 (Some 1%nat);
        Acquired (-12) None].
Proof. reflexivity. Qed.

Example refused_buffer_leaks_reference :
  (λ r, (gb_ret r, refcount (gb_buf r), gb_trace r)) <$>
    vaapi_get_buffer {| gb_mallocz_ok := true; gb_buffer_ref_ok := true;
                        gb_buffer_create_ok := false |} 9 demo_buf hw_frame
  = Ok (-12, 2, [EvAlloc HFrame]).
Proof. reflexivity. Qed.

Example retrieval_keeps_image :
  (λ r, settle (rd_trace r)) <$>
    vaapi_retrieve_data granting_retrieve_env demo_ctx demo_hw_frame
  = Ok {| held_images := [77]; held_mappings := [78]; held_ctx_refs := 1;
          held_host_images := 1 |}.
Proof. vm_compute. reflexivity. Qed.

Example retrieval_nv12_keeps_plane_order :
  (λ r, data (rd_frame r)) <$>
    vaapi_retrieve_data granting_retrieve_env
      (set_format demo_ctx
         {| fourcc := VA_FOURCC_NV12; byte_order := 1; bits_per_pixel := 12 |}
         AV_PIX_FMT_NV12) demo_hw_frame
  = Ok [0x7f0000000000; 0x7f0000000000 + 2088960; 0x7f0000000000 + 2611200;
        0; 0; 0; 0; 0].
Proof. vm_compute. reflexivity. Qed.

(** * Further properties of the hooks *)

(** ** Checkout and release *)

Lemma get_buffer_granted_buffer_inv e display b frame r :
  vaapi_get_buffer e display b frame = Ok r →
  gb_ret r ≠ 0 → gb_buffer_create_ok e = true → gb_buf r = b.
Proof.
  unfold vaapi_get_buffer. intros Hrun Hret Hc. rewrite Hc in Hrun.
  destruct (negb (pix_fmt_eqb (format frame) AV_PIX_FMT_VAAPI_VLD)); [discriminate|].
  match type of Hrun with context [mbind _ ?m] => destruct m as [i| |] end;
    simpl in Hrun; try discriminate.
  destruct (Z.of_nat i =? nb_surfaces (config b)); [by injection Hrun as <-|].
  destruct (gb_mallocz_ok e); simpl in Hrun; [|by injection Hrun as <-].
  destruct (gb_buffer_ref_ok e); simpl in Hrun; [|by injection Hrun as <-].
  destruct (surfaces (config b)) as [ids|]; [|discriminate].
  destruct (ids !! i) as [sid|]; [|discriminate].
  destruct (write_used (config b) i 1) as [c'| |]; simpl in Hrun; try discriminate.
  injection Hrun as <-. simpl in Hret. done.
Qed.

(** X1. A checkout that returns 0 publishes the surface of the slot it
    took: frame->data[3] is surfaces[i] for the slot i whose flag was
    clear, frame->buf[0] and frame->opaque carry the handle of that slot
    with the context's display, every other field of the frame is as the
    caller passed it, the config buffer has one more reference, and the
    only host allocation is the handle. *)
Theorem checkout_publishes_surface (e : get_buffer_env) (display : Z)
    (b : config_buf) (frame : AVFrame) (ids flags : list Z)
    (r : get_buffer_result) :
  pool_wf (config b) ids flags → format frame = AV_PIX_FMT_VAAPI_VLD →
  vaapi_get_buffer e display b frame = Ok r → gb_ret r = 0 →
  ∃ i sid,
    ids !! i = Some sid ∧ flags !! i = Some 0 ∧
    data (gb_frame r) = <[3%nat := sid]> (data frame) ∧
    buf0 (gb_frame r) = Some (SurfaceBuf i {| fr_display := display; used := i |}) ∧
    opaque (gb_frame r) = Some {| fr_display := display; used := i |} ∧
    format (gb_frame r) = format frame ∧
    width (gb_frame r) = width frame ∧ height (gb_frame r) = height frame ∧
    linesize (gb_frame r) = linesize frame ∧ props (gb_frame r) = props frame ∧
    refcount (gb_buf r) = refcount b + 1 ∧
    surfaces (config (gb_buf r)) = Some ids ∧
    gb_trace r = [EvAlloc HFrame].
Proof.
  intros Hwf Hfmt Hrun Hret.
  destruct (get_buffer_wf e display b frame ids flags Hwf Hfmt) as (r' & Hr' & Hsucc).
  assert (r' = r) as -> by congruence.
  destruct (Hsucc Hret) as (i & sid & Hi & Hlow & Hsid & _ & _).
  destruct (get_buffer_failure_inv _ _ _ _ _ Hrun) as (_ & _ & _ & Hok).
  destruct (Hok Hret) as (Hm & Hrf & Hc).
  rewrite (get_buffer_checkout e display b frame ids flags Hwf Hfmt i sid
             Hm Hrf Hc Hi Hlow Hsid) in Hrun.
  injection Hrun as <-. exists i, sid. simpl.
  repeat (split; [done|]). split; [by destruct Hwf|done].
Qed.

Lemma checkout_publishes_surface_witness :
  ∃ r, vaapi_get_buffer ok_env 9 demo_buf hw_frame = Ok r ∧
       data (gb_frame r) !! 3%nat = Some 100 ∧ refcount (gb_buf r) = 2.
Proof.
  assert (Hwf : pool_wf (config demo_buf) [100; 101] [0; 0])
    by (repeat split; simpl; lia).
  eexists. split; [reflexivity|].
  destruct (checkout_publishes_surface ok_env 9 demo_buf hw_frame
              [100; 101] [0; 0] _ Hwf eq_refl eq_refl eq_refl)
    as (i & sid & _ & _ & _ & _ & _ & _ & _ & _ & _ & _ & Hrc & _).
  split; [reflexivity|exact Hrc].
Defined.

Lemma filter_out_one {A} `{EqDecision A} (l : list A) (x : A) :
  NoDup l → x ∈ l → S (length (filter (λ y, y ≠ x) l)) = length l.
Proof.
  induction 1 as [|y l Hy Hnd IH]; [by intros ?%elem_of_nil|].
  intros [->|Hin]%elem_of_cons.
  - rewrite filter_cons_False by (intros Hc; by apply Hc). simpl. f_equal.
    clear IH. induction l as [|z l IHl]; [done|].
    apply not_elem_of_cons in Hy as (Hne & Hy).
    apply NoDup_cons in Hnd as (_ & Hnd).
    rewrite filter_cons_True by done. simpl. f_equal. by apply IHl.
  - rewrite filter_cons_True by (intros ->; done). simpl. f_equal. by apply IH.
Qed.

Lemma pool_step_refcount display ids st op r0 :
  pool_inv display ids st → buffer_always_granted op →
  (∀ b, pool st = Some b → refcount b = r0 + Z.of_nat (length (live st))) →
  ∃ st' o b',
    pool_step display st op = Ok (st', o) ∧ pool_inv display ids st' ∧
    pool st' = Some b' ∧
    refcount b' = r0 + Z.of_nat (length (live st')).
Proof.
  intros Hinv Hgr Hrc.
  destruct (pool_step_inv display ids st op Hinv) as (st' & o & Hstep & Hinv').
  exists st', o.
  destruct Hinv as (b & flags & Hp & Hwf & Hnd & Hlive & Hflags & Hgt).
  destruct Hinv' as (b' & flags' & Hp' & Hrest).
  exists b'. split; [done|]. split; [by exists b', flags'|]. split; [done|].
  specialize (Hrc b Hp).
  destruct op as [e|h]; simpl in Hstep; rewrite Hp in Hstep.
  - destruct (vaapi_get_buffer e display b hw_frame) as [r| |] eqn:Hr;
      simpl in Hstep; try discriminate.
    injection Hstep as <- _. simpl in Hp'. injection Hp' as <-. simpl.
    destruct (decide (gb_ret r = 0)) as [H0|Hne].
    + destruct (get_buffer_wf e display b hw_frame ids flags Hwf eq_refl)
        as (r' & Hr' & Hsucc).
      assert (r' = r) as -> by congruence.
      destruct (Hsucc H0) as (i & sid & _ & _ & _ & -> & ->). simpl. lia.
    + rewrite (get_buffer_granted_buffer_inv _ _ _ _ _ Hr Hne Hgr).
      unfold handle_of. destruct (Z.eqb_spec (gb_ret r) 0); [done|]. done.
  - destruct (decide (h ∈ live st)) as [Hin|Hout].
    2:{ injection Hstep as <- _. rewrite Hp in Hp'. by injection Hp' as <-. }
    destruct (Hlive _ Hin) as (_ & Hf).
    pose proof (lookup_lt_Some _ _ _ Hf) as Hlt.
    assert (NoDup (live st)) as Hndl by (by eapply NoDup_fmap_1).
    pose proof (filter_out_one (live st) h Hndl Hin) as Hlen.
    rewrite (release_buffer_shared h b ids flags Hwf Hlt) in Hstep by lia.
    simpl in Hstep. injection Hstep as <- _. simpl in Hp'.
    injection Hp' as <-. simpl. lia.
Qed.

(** X2. Along any sequence of checkouts and releases on a freshly created
    pool in which av_buffer_create is never refused, the config buffer is
    never freed and its reference count is exactly the count it started
    with plus the number of live handles: every handle holds one
    reference and gives it back when it is released. *)
Theorem references_match_live_handles (display : Z) (b : config_buf)
    (ids : list Z) (ops : list pool_op) :
  fresh_pool b ids → Forall buffer_always_granted ops →
  ∃ st os b',
    pool_run display (start b) ops = Ok (st, os) ∧
    pool st = Some b' ∧
    refcount b' = refcount b + Z.of_nat (length (live st)).
Proof.
  intros Hfresh Hops.
  assert (Hgen : ∀ ops st, Forall buffer_always_granted ops →
            pool_inv display ids st →
            (∀ b0, pool st = Some b0 →
                   refcount b0 = refcount b + Z.of_nat (length (live st))) →
            ∃ st' os b',
              pool_run display st ops = Ok (st', os) ∧ pool st' = Some b' ∧
              refcount b' = refcount b + Z.of_nat (length (live st'))).
  { clear. intros ops. induction ops as [|op ops IH]; intros st Hall Hinv Hrc.
    - destruct Hinv as (b0 & flags & Hp & _). exists st, [], b0.
      split; [done|]. split; [done|]. by apply Hrc.
    - apply Forall_cons in Hall as (Hop & Hall).
      destruct (pool_step_refcount display ids st op (refcount b) Hinv Hop Hrc)
        as (st1 & o & b1 & Hstep & Hinv1 & Hp1 & Hrc1).
      destruct (IH st1 Hall Hinv1) as (st2 & os & b2 & Hrun & Hp2 & Hrc2).
      { intros b0 Hb0. rewrite Hp1 in Hb0. by injection Hb0 as <-. }
      exists st2, (o :: os), b2. simpl. rewrite Hstep. simpl. rewrite Hrun.
      done. }
  apply Hgen; [done|by apply fresh_pool_inv|].
  intros b0 [= <-]. simpl. lia.
Qed.

Lemma references_match_live_handles_witness :
  ∃ st os b',
    pool_run 9 (start demo_buf)
      [Acquire ok_env; Acquire ref_fails_env;
       Release {| fr_display := 9; used := 0 |}; Acquire ok_env]
    = Ok (st, os) ∧
    pool st = Some b' ∧
    refcount b' = refcount demo_buf + Z.of_nat (length (live st)).
Proof.
  apply (references_match_live_handles 9 demo_buf [100; 101]).
  - exact demo_fresh.
  - repeat constructor.
Defined.

(** X3. When a slot is free and the handle and the config reference were
    granted but av_buffer_create is refused, the call returns
    AVERROR(ENOMEM) straight away: the reference just taken on the config
    buffer is not given back and the handle is not freed, so the buffer
    keeps a count one higher with no handle to release it; the flags are
    untouched and frame->buf[0] is NULL. *)
Theorem refused_buffer_keeps_reference (e : get_buffer_env) (display : Z)
    (b : config_buf) (frame : AVFrame) (ids flags : list Z) (i : nat) :
  pool_wf (config b) ids flags → format frame = AV_PIX_FMT_VAAPI_VLD →
  flags !! i = Some 0 →
  gb_mallocz_ok e = true → gb_buffer_ref_ok e = true →
  gb_buffer_create_ok e = false →
  vaapi_get_buffer e display b frame
  = Ok {| gb_ret := AVERROR ENOMEM;
          gb_buf := {| config := config b; refcount := refcount b + 1 |};
          gb_frame := set_frame_buf0 frame None;
          gb_trace := [EvAlloc HFrame] |}.
Proof.
  intros Hwf Hfmt Hi Hm Hr Hc.
  unfold vaapi_get_buffer. rewrite Hfmt. simpl.
  destruct (scan_pool b ids flags Hwf) as (j & Hj & Hle & Hb & Hz).
  destruct Hwf as (Hs & Hu & Hlen & Hnb). rewrite Hu, Hj. simpl.
  pose proof (lookup_lt_Some _ _ _ Hi) as Hilt.
  assert (j < length flags)%nat as Hjlt.
  { destruct (decide (j < length flags)%nat); [done|].
    destruct (Hb i ltac:(lia)) as (u & Hu1 & Hu2). congruence. }
  rewrite Hnb.
  destruct (Z.eqb_spec (Z.of_nat j) (Z.of_nat (length flags))); [lia|].
  by rewrite Hm, Hr, Hc.
Qed.

Lemma refused_buffer_keeps_reference_witness :
  vaapi_get_buffer buffer_refused_env 9 demo_buf hw_frame
  = Ok {| gb_ret := -12;
          gb_buf := {| config := demo_config; refcount := 2 |};
          gb_frame := hw_frame; gb_trace := [EvAlloc HFrame] |}.
Proof.
  assert (Hwf : pool_wf (config demo_buf) [100; 101] [0; 0])
    by (repeat split; simpl; lia).
  exact (refused_buffer_keeps_reference buffer_refused_env 9 demo_buf hw_frame [100; 101] [0; 0]
           0%nat Hwf eq_refl eq_refl eq_refl eq_refl eq_refl).
Defined.

Lemma clear_all_length hs : ∀ flags, length (clear_all hs flags) = length flags.
Proof.
  unfold clear_all. induction hs as [|h hs IH]; intros flags; [done|].
  simpl. by rewrite IH, length_insert.
Qed.

Lemma release_all_cons h hs b0 :
  release_all (h :: hs) (Some b0)
  = ('(b1, t1) ← vaapi_release_buffer h b0;
     '(b2, t2) ← release_all hs b1;
     Ok (b2, t1 ++ t2)).
Proof. done. Qed.

(** Releasing every outstanding handle of a config nobody else holds:
    only the last release runs the free callback. *)
Lemma release_all_drains (hs : list VAAPIFrame) (b : config_buf)
    (ids flags : list Z) (d : Z) :
  pool_wf (config b) ids flags → ctx (config b) = Some d →
  Forall (λ h, (used h < length flags)%nat) hs → hs ≠ [] →
  refcount b = Z.of_nat (length hs) →
  ∃ t,
    release_all hs (Some b)
    = Ok (None, replicate (length hs - 1) (EvFree HFrame) ++ t ++ [EvFree HFrame]) ∧
    vaapi_free_config (set_surface_used (config b) (Some (clear_all hs flags)))
    = Ok t.
Proof.
  revert b flags. induction hs as [|h hs IH]; intros b flags Hwf Hctx Hall Hne Hrc;
    [done|].
  apply Forall_cons in Hall as (Hh & Hall).
  destruct hs as [|h' hs].
  - simpl in Hrc. rewrite release_all_cons.
    rewrite (release_buffer_last h b ids flags Hwf Hh Hrc).
    destruct (free_config_guards
                (set_surface_used (config b) (Some (clear_all [h] flags))) d Hctx)
      as (t & Ht & _).
    unfold clear_all in Ht. simpl in Ht. rewrite Ht.
    cbn [mbind outcome_bind release_all]. rewrite app_nil_r.
    by exists t.
  - rewrite release_all_cons.
    rewrite (release_buffer_shared h b ids flags Hwf Hh)
      by (rewrite Hrc; simpl; lia).
    cbn [mbind outcome_bind].
    destruct (IH {| config := set_surface_used (config b)
                                (Some (<[used h := 0]> flags));
                    refcount := refcount b - 1 |}
                 (<[used h := 0]> flags)) as (t & Hrun & Hfree).
    + eapply pool_wf_set_used; [exact Hwf|apply length_insert].
    + done.
    + eapply Forall_impl; [exact Hall|]. intros x Hx. by rewrite length_insert.
    + done.
    + simpl. rewrite Hrc. simpl length. lia.
    + exists t. rewrite Hrun. split; [|done].
      cbn [mbind outcome_bind]. f_equal. f_equal.
      replace (length (h :: h' :: hs) - 1)%nat
        with (S (length (h' :: hs) - 1))%nat by (simpl; lia).
      reflexivity.
Qed.



(** X5. After any sequence of checkouts and releases on a freshly created
    pool, releasing a live handle and then checking out with every
    allocation granted succeeds, and the slot handed out is the lower of
    the released slot and the lowest slot that was already free: never
    above the released slot, never above a free slot, and always one of
    the two. *)
Theorem release_then_checkout (display : Z) (b : config_buf) (ids : list Z)
    (ops : list pool_op) (st : pool_state) (os : list pool_obs)
    (h : VAAPIFrame) :
  fresh_pool b ids → pool_run display (start b) ops = Ok (st, os) →
  h ∈ live st →
  ∃ st' j b0 flags,
    pool_run display st [Release h; Acquire ok_env]
    = Ok (st', [Released; Acquired 0 (Some j)]) ∧
    pool st = Some b0 ∧ surface_used (config b0) = Some flags ∧
    (j ≤ used h)%nat ∧
    (∀ m, flags !! m = Some 0 → (j ≤ m)%nat) ∧
    (j = used h ∨ flags !! j = Some 0).
Proof.
  intros Hfresh Hrun Hin.
  destruct (pool_run_inv display ids ops (start b) (fresh_pool_inv display b ids Hfresh))
    as (st0 & os0 & Hrun0 & Hinv).
  assert (st0 = st) as -> by congruence.
  destruct Hinv as (b0 & flags & Hp & Hwf & Hnd & Hlive & Hflags & Hgt).
  destruct (Hlive _ Hin) as (Hd & Hf).
  pose proof (lookup_lt_Some _ _ _ Hf) as Hlt.
  assert (0 < length (live st))%nat.
  { destruct (live st); [by apply elem_of_nil in Hin|simpl; lia]. }
  simpl. destruct (decide (h ∈ live st)); [|done]. rewrite Hp.
  rewrite (release_buffer_shared h b0 ids flags Hwf Hlt) by lia.
  cbn [mbind outcome_bind pool].
  set (fl := <[used h := 0]> flags).
  set (b1 := {| config := set_surface_used (config b0) (Some fl);
                refcount := refcount b0 - 1 |}).
  assert (Hwf1 : pool_wf (config b1) ids fl).
  { eapply pool_wf_set_used; [exact Hwf|apply length_insert]. }
  destruct (scan_pool b1 ids fl Hwf1) as (j & Hj & Hle & Hb & Hz).
  assert (Hfh : fl !! used h = Some 0) by (by apply list_lookup_insert_eq).
  assert (Hjh : (j ≤ used h)%nat).
  { destruct (decide (j ≤ used h)%nat); [done|].
    destruct (Hb (used h) ltac:(lia)) as (u & Hu1 & Hu2). congruence. }
  assert (Hjlt : (j < length fl)%nat) by (unfold fl; rewrite length_insert; lia).
  specialize (Hz Hjlt).
  destruct (lookup_lt_is_Some_2 ids j) as [sid Hsid].
  { destruct Hwf1 as (_ & _ & -> & _). done. }
  rewrite (get_buffer_checkout ok_env display b1 hw_frame ids fl Hwf1 eq_refl
             j sid eq_refl eq_refl eq_refl Hz Hb Hsid).
  simpl. eexists _, j, b0, flags. split; [done|]. split; [done|].
  split; [by destruct Hwf as (_ & ? & _)|]. split; [done|]. split.
  - intros m Hm. destruct (decide (j ≤ m)%nat); [done|].
    destruct (Hb m ltac:(lia)) as (u & Hu1 & Hu2).
    destruct (decide (used h = m)) as [<-|Hne]; [congruence|].
    unfold fl in Hu1. rewrite list_lookup_insert_ne in Hu1 by done. congruence.
  - destruct (decide (j = used h)) as [|Hne]; [by left|right].
    unfold fl in Hz. by rewrite list_lookup_insert_ne in Hz.
Qed.

Lemma release_then_checkout_witness :
  ∃ st' j,
    pool_run 9 {| pool := Some {| config := set_surface_used demo_config (Some [1; 1]);
                                  refcount := 3 |};
                  live := first_handles 9 2 |}
      [Release {| fr_display := 9; used := 1 |}; Acquire ok_env]
    = Ok (st', [Released; Acquired 0 (Some j)]) ∧ (j ≤ 1)%nat.
Proof.
  destruct (release_then_checkout 9 demo_buf [100; 101]
              [Acquire ok_env; Acquire ok_env] _ _
              {| fr_display := 9; used := 1 |} demo_fresh eq_refl
              ltac:(simpl; apply list_elem_of_here))
    as (st' & j & _ & _ & Hrun & _ & _ & Hj & _).
  exists st', j. split; [exact Hrun|exact Hj].
Defined.

(** ** Creation of a config: the failing paths *)

Lemma settle_config_app t1 t2 :
  settle_config (t1 ++ t2) = config_add (settle_config t1) (settle_config t2).
Proof.
  unfold settle_config. induction t1 as [|ev t1 IH]; simpl.
  - destruct (foldr _ _ t2). unfold config_add. simpl. done.
  - rewrite IH. unfold config_add. simpl. f_equal; lia.
Qed.

(** X6. When the surfaces were created and vaCreateConfig or
    vaCreateContext is then refused, vaapi_create_config undoes all it
    did before returning AVERROR_UNKNOWN: the surface set is destroyed,
    the driver config is destroyed if it had been created, the reference
    on the device context is given back, the config and its two arrays
    are freed, ctx->cur_config_buf is NULL, and vaDestroyContext is not
    called, there being no context. *)
Theorem create_config_rollback (e : create_config_env) (display : Z)
    (cur : option config_buf) (s : AVCodecContext) (profile : Z) :
  cc_profile e = Some profile →
  cc_mallocz_ok e = true → cc_buffer_create_ok e = true →
  cc_ctx_ref_ok e = true → cc_surfaces_ok e = true → cc_used_ok e = true →
  0 ≤ thread_count s ≤ INT_MAX - 16 →
  cc_create_surfaces e = VA_STATUS_SUCCESS →
  cc_new_config_id e ≠ VA_INVALID_ID →
  cc_create_config e ≠ VA_STATUS_SUCCESS ∨
  cc_create_context e ≠ VA_STATUS_SUCCESS →
  ∃ r,
    vaapi_create_config e display cur s = Ok r ∧
    cc_ret r = AVERROR_UNKNOWN ∧ cc_cur_config_buf r = None ∧
    settle_config (cc_trace r) = config_nothing ∧
    first_index is_destroy_context (cc_trace r) = None.
Proof.
  intros Hp Hm Hbc Hcr Hso Huo Htc Hcs Hid%Z.eqb_neq Hcause.
  unfold vaapi_create_config. rewrite Hp, Hm, Hbc, Hcr. simpl.
  assert (∃ nb, (if active_thread_type s =? FF_THREAD_FRAME
                 then if 16 + thread_count s >? INT_MAX then Fault
                      else Ok (16 + thread_count s)
                 else Ok 16) = Ok nb ∧ 0 ≤ nb) as (nb & -> & Hnb).
  { destruct (active_thread_type s =? FF_THREAD_FRAME); [|by exists 16].
    destruct (Z.gtb_spec (16 + thread_count s) INT_MAX); [lia|].
    eexists. split; [done|lia]. }
  simpl. unfold array_alloc. rewrite Hso, Huo.
  destruct (Z.leb_spec 0 nb); [|lia]. simpl. rewrite Hcs. simpl.
  unfold create_config_fail, config_buf_unref, vaapi_free_config. simpl.
  destruct (cc_create_config e =? VA_STATUS_SUCCESS) eqn:Hcc; simpl.
  - destruct (cc_create_context e =? VA_STATUS_SUCCESS) eqn:Hcx; simpl.
    { apply Z.eqb_eq in Hcc, Hcx. by destruct Hcause. }
    rewrite Hid. simpl. eexists. split; [done|]. simpl.
    split; [done|]. split; [done|]. split; [|done].
    cbv [settle_config foldr config_add config_delta config_nothing
         ch_surface_sets ch_configs ch_contexts ch_ctx_refs ch_host].
    unfold ok_count. rewrite Hcc, Hcx. reflexivity.
  - eexists. split; [done|]. simpl.
    split; [done|]. split; [done|]. split; [|done].
    cbv [settle_config foldr config_add config_delta config_nothing
         ch_surface_sets ch_configs ch_contexts ch_ctx_refs ch_host].
    unfold ok_count. rewrite Hcc. reflexivity.
Qed.

Lemma create_config_rollback_witness :
  ∃ r,
    vaapi_create_config context_refused_env 9 None demo_avctx = Ok r ∧
    cc_ret r = AVERROR_UNKNOWN ∧ cc_cur_config_buf r = None ∧
    settle_config (cc_trace r) = config_nothing.
Proof.
  destruct (create_config_rollback context_refused_env 9 None demo_avctx 7
              eq_refl eq_refl eq_refl eq_refl eq_refl eq_refl
              ltac:(vm_compute; split; discriminate) eq_refl
              ltac:(vm_compute; discriminate)
              ltac:(right; vm_compute; discriminate))
    as (r & Hrun & Hret & Hbuf & Hheld & _).
  exists r. split; [exact Hrun|]. split; [exact Hret|].
  split; [exact Hbuf|exact Hheld].
Defined.



(** ** Format negotiation and device creation *)

Lemma scan_table_two fs :
  scan_table vaapi_formats fs
  = match scan_formats VA_FOURCC_YV12 fs with
    | Some f => Some (f, AV_PIX_FMT_YUV420P)
    | None => match scan_formats VA_FOURCC_NV12 fs with
              | Some f => Some (f, AV_PIX_FMT_NV12)
              | None => None
              end
    end.
Proof. reflexivity. Qed.

Lemma scan_table_Some fs f pix :
  scan_table vaapi_formats fs = Some (f, pix) →
  f ∈ fs ∧ (fourcc f, pix) ∈ vaapi_formats.
Proof.
  rewrite scan_table_two.
  destruct (scan_formats VA_FOURCC_YV12 fs) as [g|] eqn:Hy.
  - intros [= <- <-]. apply scan_formats_Some in Hy as (? & ->).
    split; [done|]. apply list_elem_of_here.
  - destruct (scan_formats VA_FOURCC_NV12 fs) as [g|] eqn:Hn; [|done].
    intros [= <- <-]. apply scan_formats_Some in Hn as (? & ->).
    split; [done|]. apply list_elem_of_further, list_elem_of_here.
Qed.

Lemma pick_format_inv (e : pick_format_env) (c : VAAPIContext) :
  let r := pick_format e c in
  formats_balance (pf_trace r) = 0 ∧
  (pf_ret r = 0 ∨ pf_ret r = AVERROR EINVAL ∨ pf_ret r = AVERROR ENOMEM) ∧
  (pf_ret r ≠ 0 → pf_ctx r = c) ∧
  (pf_ret r = AVERROR ENOMEM → pf_trace r = []) ∧
  (pf_ret r = 0 →
     ∃ f pix, pf_ctx r = set_format c f pix ∧ f ∈ pf_formats e ∧
              (fourcc f, pix) ∈ vaapi_formats ∧
              pf_max_formats e ≠ 0 ∧
              pf_query_status e = VA_STATUS_SUCCESS ∧
              pf_trace r = [EvAlloc HFormats;
                            EvQueryImageFormats (display c) VA_STATUS_SUCCESS;
                            EvFree HFormats]).
Proof.
  assert (Hcodes : AVERROR EINVAL ≠ 0 ∧ AVERROR ENOMEM ≠ 0 ∧
                   AVERROR EINVAL ≠ AVERROR ENOMEM) by (by vm_compute).
  destruct Hcodes as (He & Hm & Hem).
  unfold pick_format, array_alloc. simpl.
  destruct (Z.eqb_spec (pf_max_formats e) 0) as [H0|H0]; simpl.
  { repeat split; try tauto; try congruence; intros; congruence. }
  destruct (pf_alloc_ok e && (0 <=? pf_max_formats e)); simpl.
  2:{ repeat split; try tauto; try congruence; intros; congruence. }
  destruct (Z.eqb_spec (pf_query_status e) VA_STATUS_SUCCESS) as [Hq|Hq]; simpl.
  2:{ repeat split; try tauto; try congruence; intros; congruence. }
  destruct (scan_table vaapi_formats (pf_formats e)) as [[f pix]|] eqn:Hs; simpl.
  2:{ repeat split; try tauto; try congruence; intros; congruence. }
  apply scan_table_Some in Hs as (Hin & Hrow).
  repeat split; try tauto; try congruence. intros _. exists f, pix.
  rewrite Hq. done.
Qed.

(** X8. On every path pick_format frees the format array it allocated.
    It returns 0, AVERROR(EINVAL) or AVERROR(ENOMEM); a failing call
    leaves the context as it was, and a call that cannot allocate the
    array makes no driver query.  A call that returns 0 changes only the
    two format fields of the context: the image format is one of the
    entries the driver listed and, with the pixel format, forms a row of
    the static table. *)
Theorem pick_format_outcomes (e : pick_format_env) (c : VAAPIContext) :
  let r := pick_format e c in
  formats_balance (pf_trace r) = 0 ∧
  (pf_ret r = 0 ∨ pf_ret r = AVERROR EINVAL ∨ pf_ret r = AVERROR ENOMEM) ∧
  (pf_ret r ≠ 0 → pf_ctx r = c) ∧
  (pf_ret r = AVERROR ENOMEM → pf_trace r = []) ∧
  (pf_ret r = 0 →
     img_fmt (pf_ctx r) ∈ pf_formats e ∧
     (fourcc (img_fmt (pf_ctx r)), pix_fmt (pf_ctx r)) ∈ vaapi_formats ∧
     pf_ctx r = set_format c (img_fmt (pf_ctx r)) (pix_fmt (pf_ctx r))).
Proof.
  intros r. destruct (pick_format_inv e c) as (Hb & Hc & Hf & Hm & Hs).
  repeat (split; [done|]). intros H0.
  destruct (Hs H0) as (f & pix & Hctx & Hin & Hrow & _). fold r in Hctx.
  by rewrite Hctx.
Qed.

Lemma scan_formats_perm fcc fs fs' :
  fs ≡ₚ fs' →
  fourcc <$> scan_formats fcc fs = fourcc <$> scan_formats fcc fs'.
Proof.
  intros Hperm.
  destruct (scan_formats fcc fs) as [f|] eqn:H1,
           (scan_formats fcc fs') as [f'|] eqn:H2; simpl; try done.
  - apply scan_formats_Some in H1 as (_ & ->).
    apply scan_formats_Some in H2 as (_ & ->). done.
  - apply scan_formats_Some in H1 as (Hin & Hf).
    rewrite Hperm in Hin.
    by destruct (proj1 (scan_formats_None _ _) H2 f Hin).
  - apply scan_formats_Some in H2 as (Hin & Hf).
    rewrite <- Hperm in Hin.
    by destruct (proj1 (scan_formats_None _ _) H1 f' Hin).
Qed.

(** X9. The outcome of the negotiation does not depend on the order in
    which the driver lists its formats: two drivers that answer alike and
    list the same formats in different orders get the same return value,
    the same pixel format and an image format with the same fourcc. *)
Theorem pick_format_order_independent (e e' : pick_format_env)
    (c : VAAPIContext) :
  pf_max_formats e = pf_max_formats e' → pf_alloc_ok e = pf_alloc_ok e' →
  pf_query_status e = pf_query_status e' →
  pf_formats e ≡ₚ pf_formats e' →
  pf_ret (pick_format e c) = pf_ret (pick_format e' c) ∧
  pix_fmt (pf_ctx (pick_format e c)) = pix_fmt (pf_ctx (pick_format e' c)) ∧
  fourcc (img_fmt (pf_ctx (pick_format e c)))
  = fourcc (img_fmt (pf_ctx (pick_format e' c))).
Proof.
  intros Hmax Ha Hq Hperm. unfold pick_format, array_alloc.
  rewrite <- Hmax, <- Ha, <- Hq.
  destruct (pf_max_formats e =? 0); [done|].
  destruct (pf_alloc_ok e && (0 <=? pf_max_formats e)); [|done]. simpl.
  destruct (negb (pf_query_status e =? VA_STATUS_SUCCESS)); [done|].
  rewrite !scan_table_two.
  pose proof (scan_formats_perm VA_FOURCC_YV12 _ _ Hperm) as Hy.
  pose proof (scan_formats_perm VA_FOURCC_NV12 _ _ Hperm) as Hn.
  destruct (scan_formats VA_FOURCC_YV12 (pf_formats e)),
           (scan_formats VA_FOURCC_YV12 (pf_formats e')); simpl in Hy;
    try discriminate; [injection Hy as Hy; by simpl|].
  destruct (scan_formats VA_FOURCC_NV12 (pf_formats e)),
           (scan_formats VA_FOURCC_NV12 (pf_formats e')); simpl in Hn;
    try discriminate; [injection Hn as Hn; by simpl|done].
Qed.

Lemma pick_format_perm_witness_perm :
  pf_formats both_formats_env ≡ₚ pf_formats both_formats_swapped_env.
Proof. apply Permutation_swap. Defined.

Lemma pick_format_order_independent_witness :
  pf_ret (pick_format both_formats_env zeroed_context)
  = pf_ret (pick_format both_formats_swapped_env zeroed_context) ∧
  pix_fmt (pf_ctx (pick_format both_formats_env zeroed_context))
  = pix_fmt (pf_ctx (pick_format both_formats_swapped_env zeroed_context)).
Proof.
  destruct (pick_format_order_independent both_formats_env
              both_formats_swapped_env zeroed_context eq_refl eq_refl eq_refl
              pick_format_perm_witness_perm) as (Hret & Hpix & _).
  split; [exact Hret|exact Hpix].
Defined.

Lemma open_display_keeps bc e c0 :
  let c2 := (open_display bc e c0).1 in
  self_refs c2 = self_refs c0 ∧ tmp_frame c2 = tmp_frame c0 ∧
  cur_config_buf c2 = cur_config_buf c0 ∧
  img_fmt c2 = img_fmt c0 ∧ pix_fmt c2 = pix_fmt c0.
Proof.
  unfold open_display, vaapi_open_drm, vaapi_open_x11.
  destruct (HAVE_VAAPI_DRM bc), (HAVE_VAAPI_X11 bc); simpl;
    repeat match goal with
           | |- context [if ?b then _ else _] => destruct b; simpl
           end; done.
Qed.

Lemma open_display_yields bc e c0 :
  display c0 = 0 → dpy c0 = 0 →
  let c2 := (open_display bc e c0).1 in
  let t := (open_display bc e c0).2 in
  if drm_connects bc e then
    display c2 = ci_vaGetDisplayDRM e ∧ drm_fd c2 = drm_descriptor e ∧
    dpy c2 = 0 ∧ filter (λ ev, is_x11_event ev = true) t = []
  else
    display c2 ≠ 0 →
    HAVE_VAAPI_X11 bc = true ∧ ci_XOpenDisplay e ≠ 0 ∧
    display c2 = ci_vaGetDisplay e ∧ dpy c2 = ci_XOpenDisplay e.
Proof.
  intros Hd Hx.
  unfold open_display, drm_connects, drm_descriptor, vaapi_open_drm, vaapi_open_x11.
  destruct (HAVE_VAAPI_DRM bc), (HAVE_VAAPI_X11 bc); simpl;
    destruct (ci_hwaccel_device e); simpl; rewrite ?Hd, ?Hx; simpl;
    repeat match goal with
           | |- context [if ?x =? ?y then _ else _] =>
               destruct (Z.eqb_spec x y); simpl; rewrite ?Hd, ?Hx; simpl
           end;
    try done; try (intros; repeat split; congruence).
Qed.

Lemma create_context_success_inv bc (e : create_context_env) hw hc r :
  vaapi_create_context bc e hw hc = Ok r → ci_ret r = 0 →
  let c0 := set_tmp_frame zeroed_context (Some blank_frame) in
  let c2 := (open_display bc e c0).1 in
  display c2 ≠ 0 ∧ ci_have_hwaccel_context r = true ∧
  ci_vaInitialize e = VA_STATUS_SUCCESS ∧
  ∃ f pix,
    ci_hwaccel_ctx r = Some (set_format c2 f pix) ∧
    f ∈ pf_formats (ci_pick e) ∧ (fourcc f, pix) ∈ vaapi_formats ∧
    ci_trace r = [EvAlloc HContext; EvAlloc HTmpFrame]
                 ++ (open_display bc e c0).2
                 ++ [EvInitialize (display c2) VA_STATUS_SUCCESS;
                     EvAlloc HFormats;
                     EvQueryImageFormats (display c2) VA_STATUS_SUCCESS;
                     EvFree HFormats; EvAlloc HVaapiCtx;
                     EvLog "Using VAAPI version %d.%d -- %s -- to decode input stream #%d:%d."%string].
Proof.
  assert (Hneg : AVERROR EINVAL ≠ 0 ∧ AVERROR ENOMEM ≠ 0) by (by vm_compute).
  unfold vaapi_create_context, open_display.
  destruct (ci_mallocz_ok e); simpl;
    [|intros [= <-] Hret; simpl in Hret; by destruct Hneg].
  destruct (ci_buffer_create_ok e); simpl;
    [|intros [= <-] Hret; simpl in Hret; by destruct Hneg].
  destruct (ci_frame_alloc_ok e); simpl;
    [|intros ->%create_context_fail_ret Hret; by destruct Hneg].
  destruct (if HAVE_VAAPI_DRM bc then _ else _) as [c1 t1].
  destruct (if HAVE_VAAPI_X11 bc && _ then _ else _) as [c2 t2]. simpl.
  destruct (Z.eqb_spec (display c2) 0);
    [intros ->%create_context_fail_ret Hret; by destruct Hneg|].
  destruct (Z.eqb_spec (ci_vaInitialize e) VA_STATUS_SUCCESS) as [Hi|Hi]; simpl;
    [|intros ->%create_context_fail_ret Hret; by destruct Hneg].
  destruct (pf_ret (pick_format (ci_pick e) c2) <? 0) eqn:Hlt;
    [intros ->%create_context_fail_ret Hret; by destruct Hneg|].
  destruct (ci_alloc_context_ok e); simpl;
    [|intros ->%create_context_fail_ret Hret; by destruct Hneg].
  intros [= <-] _. simpl.
  destruct (pick_format_inv (ci_pick e) c2) as (_ & Hcodes & _ & _ & Hsucc).
  apply Z.ltb_ge in Hlt.
  assert (pf_ret (pick_format (ci_pick e) c2) = 0) as H0.
  { destruct Hcodes as [?|[Hc|Hc]]; [done|..]; rewrite Hc in Hlt;
      vm_compute in Hlt; by destruct Hlt. }
  destruct (Hsucc H0) as (f & pix & Hctx & Hin & Hrow & _ & _ & Htr).
  split; [done|]. split; [done|]. split; [done|].
  exists f, pix. rewrite Hctx, Htr, Hi.
  split; [done|]. split; [done|]. split; [done|].
  by rewrite <- !app_assoc.
Qed.

(** X10. A device context that vaapi_create_context reports as created
    is complete: its display is not NULL, it holds the one reference of
    its own, it has no current config, its scratch frame is allocated and
    blank, s->hwaccel_context is allocated, and the image format it
    negotiated is one the driver listed and forms, with the pixel format,
    a row of the static table. *)
Theorem created_context_is_complete (bc : build_config)
    (e : create_context_env) (hw : option VAAPIContext) (hc : bool)
    (r : create_context_result) :
  vaapi_create_context bc e hw hc = Ok r → ci_ret r = 0 →
  ∃ c,
    ci_hwaccel_ctx r = Some c ∧ ci_have_hwaccel_context r = true ∧
    display c ≠ 0 ∧ self_refs c = 1 ∧ cur_config_buf c = None ∧
    tmp_frame c = Some blank_frame ∧
    img_fmt c ∈ pf_formats (ci_pick e) ∧
    (fourcc (img_fmt c), pix_fmt c) ∈ vaapi_formats.
Proof.
  intros Hrun Hret.
  destruct (create_context_success_inv bc e hw hc r Hrun Hret)
    as (Hd & Hhave & _ & f & pix & Hctx & Hin & Hrow & _).
  destruct (open_display_keeps bc e (set_tmp_frame zeroed_context (Some blank_frame)))
    as (Hrefs & Htmp & Hcur & _).
  eexists. split; [exact Hctx|]. simpl. by rewrite Hrefs, Htmp, Hcur.
Qed.

Lemma created_context_is_complete_witness :
  ∃ r c,
    vaapi_create_context drm_build yv12_device_env None false = Ok r ∧
    ci_hwaccel_ctx r = Some c ∧ display c ≠ 0 ∧
    (fourcc (img_fmt c), pix_fmt c) ∈ vaapi_formats.
Proof.
  eexists.
  destruct (created_context_is_complete drm_build yv12_device_env None false _
              ltac:(vm_compute; reflexivity) ltac:(vm_compute; reflexivity))
    as (c & Hc & _ & Hd & _ & _ & _ & _ & Hrow).
  exists c. split; [reflexivity|]. split; [exact Hc|]. split; [exact Hd|exact Hrow].
Defined.

(** X11. The connection methods are tried in a fixed order and the first
    display wins.  When the DRM method is compiled in and yields a
    display, the created context has that display and the descriptor
    drmOpen (or, when drmOpen fails, open) returned, and X11 is not
    touched at all.  In every other case a created context has the
    display vaGetDisplay returned for the X connection, so the X11 method
    is compiled in and XOpenDisplay succeeded. *)
Theorem connection_priority (bc : build_config) (e : create_context_env)
    (hw : option VAAPIContext) (hc : bool) (r : create_context_result)
    (c : VAAPIContext) :
  vaapi_create_context bc e hw hc = Ok r → ci_ret r = 0 →
  ci_hwaccel_ctx r = Some c →
  if drm_connects bc e then
    display c = ci_vaGetDisplayDRM e ∧ drm_fd c = drm_descriptor e ∧
    dpy c = 0 ∧ filter (λ ev, is_x11_event ev = true) (ci_trace r) = []
  else
    HAVE_VAAPI_X11 bc = true ∧ ci_XOpenDisplay e ≠ 0 ∧
    display c = ci_vaGetDisplay e ∧ dpy c = ci_XOpenDisplay e.
Proof.
  intros Hrun Hret Hc.
  destruct (create_context_success_inv bc e hw hc r Hrun Hret)
    as (Hd & _ & _ & f & pix & Hctx & _ & _ & Htr).
  rewrite Hctx in Hc. injection Hc as <-.
  pose proof (open_display_yields bc e
                (set_tmp_frame zeroed_context (Some blank_frame)) eq_refl eq_refl)
    as Hy.
  cbv zeta in Hy. destruct (drm_connects bc e).
  - destruct Hy as (H1 & H2 & H3 & H4). cbn [display drm_fd dpy set_format].
    split; [done|]. split; [done|]. split; [done|].
    rewrite Htr. unfold trace in *.
    rewrite !(filter_app (λ ev : event, is_x11_event ev = true)), H4.
    reflexivity.
  - simpl. by apply Hy.
Qed.

Lemma connection_priority_witness :
  ∃ r c,
    vaapi_create_context full_build x11_device_env None false = Ok r ∧
    ci_hwaccel_ctx r = Some c ∧
    display c = 11 ∧ dpy c = 0x5000.
Proof.
  eexists. eexists. split; [vm_compute; reflexivity|]. split; [reflexivity|].
  pose proof (connection_priority full_build x11_device_env None false _ _
                ltac:(vm_compute; reflexivity) ltac:(vm_compute; reflexivity)
                eq_refl) as H.
  simpl in H. destruct H as (_ & _ & Hd & Hx).
  split; [exact Hd|exact Hx].
Defined.


(** ** vaapi_init and vaapi_uninit *)

Lemma create_config_success_trace (e : create_config_env) (display : Z)
    (cur : option config_buf) (s : AVCodecContext) (r : create_config_result) :
  vaapi_create_config e display cur s = Ok r → cc_ret r = 0 →
  ∃ profile nb ids,
    cc_trace r =
      [EvAlloc HConfig; EvRef RCtxSelf; EvAlloc HSurfaces; EvAlloc HSurfaceUsed;
       EvCreateSurfaces display (coded_width s) (coded_height s) nb
         VA_STATUS_SUCCESS;
       EvCreateConfig display profile VA_STATUS_SUCCESS;
       EvCreateContext display (cc_new_config_id e) (coded_width s)
         (coded_height s) ids nb VA_STATUS_SUCCESS].
Proof.
  assert (Hunk : AVERROR_UNKNOWN ≠ 0) by (vm_compute; discriminate).
  unfold vaapi_create_config. intros Hrun Hret.
  destruct (cc_profile e) as [profile|];
    [|injection Hrun as <-; vm_compute in Hret; discriminate].
  destruct (cc_mallocz_ok e); simpl in Hrun;
    [|injection Hrun as <-; vm_compute in Hret; discriminate].
  destruct (cc_buffer_create_ok e); simpl in Hrun;
    [|injection Hrun as <-; vm_compute in Hret; discriminate].
  destruct (cc_ctx_ref_ok e); simpl in Hrun;
    [|apply create_config_fail_ret in Hrun; congruence].
  match type of Hrun with
  | context [mbind _ ?m] => destruct m as [nb| |]
  end; simpl in Hrun; try discriminate.
  destruct (array_alloc (cc_surfaces_ok e) nb _) as [ids0|] eqn:Hsa;
    [|apply create_config_fail_ret in Hrun; congruence].
  destruct (array_alloc (cc_used_ok e) nb _) as [flags0|] eqn:Hua;
    [|apply create_config_fail_ret in Hrun; congruence].
  destruct (Z.eqb_spec (cc_create_surfaces e) VA_STATUS_SUCCESS) as [->|];
    simpl in Hrun.
  2:{ destruct ids0; [done|]. apply create_config_fail_ret in Hrun. congruence. }
  destruct (Z.eqb_spec (cc_create_config e) VA_STATUS_SUCCESS) as [->|];
    simpl in Hrun; [|apply create_config_fail_ret in Hrun; congruence].
  destruct (Z.eqb_spec (cc_create_context e) VA_STATUS_SUCCESS) as [->|];
    simpl in Hrun; [|apply create_config_fail_ret in Hrun; congruence].
  injection Hrun as <-. simpl. by eexists _, _, _.
Qed.

Lemma create_config_failure_refs (e : create_config_env) (display : Z)
    (cur : option config_buf) (s : AVCodecContext) (r : create_config_result) :
  vaapi_create_config e display cur s = Ok r → cc_ret r ≠ 0 →
  ctx_refs_taken (cc_trace r) = ctx_unrefs (cc_trace r) ∧
  (cc_cur_config_buf r = None ∨ cc_cur_config_buf r = cur).
Proof.
  unfold vaapi_create_config. intros Hrun Hret.
  destruct (cc_profile e) as [profile|]; [|injection Hrun as <-; by split; [|right]].
  destruct (cc_mallocz_ok e); simpl in Hrun;
    [|injection Hrun as <-; by split; [|right]].
  destruct (cc_buffer_create_ok e); simpl in Hrun;
    [|injection Hrun as <-; by split; [|left]].
  destruct (cc_ctx_ref_ok e); simpl in Hrun; [|done].
  match type of Hrun with
  | context [mbind _ ?m] => destruct m as [nb| |]
  end; simpl in Hrun; try discriminate.
  unfold array_alloc, create_config_fail, config_buf_unref, vaapi_free_config in Hrun.
  destruct (cc_surfaces_ok e), (cc_used_ok e), (0 <=? nb); simpl in Hrun;
    try (injection Hrun as <-; by split; [|left]).
  destruct (cc_create_surfaces e =? VA_STATUS_SUCCESS); simpl in Hrun.
  2:{ destruct (cc_garbage e <$> seq 0 (Z.to_nat nb)); [done|]. simpl in Hrun.
      injection Hrun as <-; by split; [|left]. }
  destruct (cc_create_config e =? VA_STATUS_SUCCESS); simpl in Hrun;
    [|injection Hrun as <-; by split; [|left]].
  destruct (cc_create_context e =? VA_STATUS_SUCCESS); simpl in Hrun.
  { injection Hrun as <-. done. }
  destruct (cc_new_config_id e =? VA_INVALID_ID); simpl in Hrun;
    injection Hrun as <-; by split; [|left].
Qed.

Lemma ctx_refs_success_trace display w h nb profile cfg ids :
  ctx_refs_taken
    [EvAlloc HConfig; EvRef RCtxSelf; EvAlloc HSurfaces; EvAlloc HSurfaceUsed;
     EvCreateSurfaces display w h nb VA_STATUS_SUCCESS;
     EvCreateConfig display profile VA_STATUS_SUCCESS;
     EvCreateContext display cfg w h ids nb VA_STATUS_SUCCESS] = 1 ∧
  ctx_unrefs
    [EvAlloc HConfig; EvRef RCtxSelf; EvAlloc HSurfaces; EvAlloc HSurfaceUsed;
     EvCreateSurfaces display w h nb VA_STATUS_SUCCESS;
     EvCreateConfig display profile VA_STATUS_SUCCESS;
     EvCreateContext display cfg w h ids nb VA_STATUS_SUCCESS] = 0.
Proof. split; reflexivity. Qed.

(** X13. vaapi_init on a stream that has its device context, and whose
    current config (if there is one) is still held by frames, installs a
    new config without destroying anything: the old config is handed
    over to its frames unchanged but for one reference less, the new
    config is a freshly created pool bound to the context's display, the
    context holds one more reference (the new config's), the ids of the
    new config are copied into s->hwaccel_context, and the get_buffer
    and retrieve_data hooks are installed. *)
Theorem init_installs_config (bc : build_config) (ce : create_context_env)
    (cfe : create_config_env) (s : AVCodecContext) (st : stream)
    (c : VAAPIContext) (v : AVVAAPIContext) (r : create_config_result) :
  hwaccel_ctx st = Some c → hwaccel_context st = Some v →
  (∀ b0, cur_config_buf c = Some b0 → refcount b0 ≠ 1) →
  vaapi_create_config cfe (display c) None s = Ok r → cc_ret r = 0 →
  ∃ res b ids,
    vaapi_init bc ce cfe s st = Ok res ∧ in_ret res = 0 ∧
    in_superseded res
    = (λ b0, {| config := config b0; refcount := refcount b0 - 1 |})
        <$> cur_config_buf c ∧
    in_trace res = cc_trace r ∧
    hwaccel_ctx (in_stream res)
    = Some (set_refs_config c (self_refs c + 1) (Some b)) ∧
    hwaccel_context (in_stream res)
    = Some {| va_display := va_display v;
              va_config_id := config_id (config b);
              va_context_id := context_id (config b) |} ∧
    hwaccel_get_buffer (in_stream res) = true ∧
    hwaccel_retrieve_data (in_stream res) = true ∧
    hwaccel_uninit (in_stream res) = hwaccel_uninit st ∧
    fresh_pool b ids ∧ ctx (config b) = Some (display c) ∧
    nb_surfaces (config b)
    = 16 + (if active_thread_type s =? FF_THREAD_FRAME then thread_count s else 0).
Proof.
  intros Hctx Hv Hold Hrun Hret.
  destruct (create_config_success cfe (display c) None s r Hrun Hret) as (Hpos & Hbuf).
  destruct (create_config_success_trace cfe (display c) None s r Hrun Hret)
    as (profile & nb' & ids' & Htr).
  destruct (ctx_refs_success_trace (display c) (coded_width s) (coded_height s)
              nb' profile (cc_new_config_id cfe) ids') as (Htaken & Hgiven).
  rewrite <- Htr in Htaken, Hgiven.
  set (nb := 16 + _) in *.
  unfold vaapi_init. rewrite Hctx. cbn [mbind outcome_bind]. rewrite Hctx.
  assert (Hunref : match cur_config_buf c with
                   | Some b0 => config_buf_unref b0
                   | None => Ok (None, [])
                   end
                   = Ok ((λ b0, {| config := config b0; refcount := refcount b0 - 1 |})
                           <$> cur_config_buf c, [])).
  { destruct (cur_config_buf c) as [b0|] eqn:Hcur; [|done].
    unfold config_buf_unref. specialize (Hold b0 eq_refl).
    by destruct (Z.eqb_spec (refcount b0) 1). }
  rewrite Hunref. cbn [mbind outcome_bind]. rewrite Hrun.
  cbn [mbind outcome_bind]. rewrite Hret, Hbuf, Hv. simpl.
  eexists _, _, (cc_new_surfaces cfe <$> seq 0 (Z.to_nat nb)).
  split; [done|]. simpl. rewrite Htaken, Hgiven.
  split; [done|]. split; [done|]. split; [done|].
  split; [f_equal; unfold set_refs_config; f_equal; unfold ctx_unrefs; simpl; lia|].
  split; [done|]. split; [done|]. split; [done|]. split; [done|].
  split; [|done].
  assert (Hlen : length (cc_new_surfaces cfe <$> seq 0 (Z.to_nat nb)) = Z.to_nat nb)
    by (by rewrite length_fmap, length_seq).
  unfold fresh_pool, pool_wf. simpl. rewrite Hlen, length_replicate.
  repeat split; try done; lia.
Qed.

Lemma init_installs_config_witness :
  ∃ res,
    vaapi_init drm_build yv12_device_env granting_env demo_avctx
      {| hwaccel_ctx := Some (set_refs_config demo_ctx 3 (Some busy_buf));
         hwaccel_context := Some {| va_display := 9; va_config_id := 5;
                                    va_context_id := 6 |};
         hwaccel_uninit := true; hwaccel_get_buffer := true;
         hwaccel_retrieve_data := true |}
    = Ok res ∧ in_ret res = 0 ∧
    in_superseded res
    = Some {| config := config busy_buf; refcount := 2 |} ∧
    hwaccel_context (in_stream res)
    = Some {| va_display := 9; va_config_id := 0x1000000;
              va_context_id := 0x2000000 |}.
Proof.
  destruct (init_installs_config drm_build yv12_device_env granting_env demo_avctx
              {| hwaccel_ctx := Some (set_refs_config demo_ctx 3 (Some busy_buf));
                 hwaccel_context := Some {| va_display := 9; va_config_id := 5;
                                            va_context_id := 6 |};
                 hwaccel_uninit := true; hwaccel_get_buffer := true;
                 hwaccel_retrieve_data := true |}
              _ _ _ eq_refl eq_refl
              ltac:(intros b0 [= <-]; vm_compute; discriminate)
              ltac:(vm_compute; reflexivity) ltac:(vm_compute; reflexivity))
    as (res & b & ids & Hrun & Hret & Hold & _ & Hc & Hv & _).
  exists res. split; [exact Hrun|]. split; [exact Hret|].
  split; [exact Hold|].
  rewrite Hv. vm_compute in Hrun. injection Hrun as <-.
  vm_compute in Hc. injection Hc as <-. reflexivity.
Defined.

(** X14. vaapi_init on a stream whose current config no frame holds any
    more runs that config's free callback, which starts with
    vaDestroySurfaces, to its end before it creates anything of the new
    config; nothing of the old config is handed on, and the device
    context ends with the reference count it started with, the old
    config's reference having been exchanged for the new config's. *)
Theorem init_replaces_idle_config (bc : build_config) (ce : create_context_env)
    (cfe : create_config_env) (s : AVCodecContext) (st : stream)
    (c : VAAPIContext) (v : AVVAAPIContext) (b0 : config_buf) (d : Z)
    (r : create_config_result) :
  hwaccel_ctx st = Some c → hwaccel_context st = Some v →
  cur_config_buf c = Some b0 → refcount b0 = 1 →
  ctx (config b0) = Some d → ctx_buf (config b0) = true →
  vaapi_create_config cfe (display c) None s = Ok r → cc_ret r = 0 →
  ∃ res t_old b,
    vaapi_init bc ce cfe s st = Ok res ∧ in_ret res = 0 ∧
    in_superseded res = None ∧
    vaapi_free_config (config b0) = Ok t_old ∧
    head t_old = Some (EvDestroySurfaces d (surfaces (config b0))
                         (nb_surfaces (config b0))) ∧
    in_trace res = t_old ++ cc_trace r ∧
    cc_cur_config_buf r = Some b ∧
    hwaccel_ctx (in_stream res)
    = Some (set_refs_config c (self_refs c) (Some b)).
Proof.
  intros Hctx Hv Hcur Hrc Hd Hcb Hrun Hret.
  destruct (create_config_success cfe (display c) None s r Hrun Hret) as (Hpos & Hbuf).
  destruct (create_config_success_trace cfe (display c) None s r Hrun Hret)
    as (profile & nb' & ids' & Htr).
  destruct (ctx_refs_success_trace (display c) (coded_width s) (coded_height s)
              nb' profile (cc_new_config_id cfe) ids') as (Htaken & Hgiven).
  rewrite <- Htr in Htaken, Hgiven.
  unfold vaapi_init. rewrite Hctx. cbn [mbind outcome_bind]. rewrite Hctx.
  rewrite Hcur. unfold config_buf_unref. rewrite Hrc. simpl.
  unfold vaapi_free_config. rewrite Hd, Hcb. simpl.
  rewrite Hrun. simpl. rewrite Hret, Hbuf, Hv. simpl.
  eexists _, _, _. split; [done|]. simpl.
  split; [done|]. split; [done|]. split; [done|]. split; [done|].
  split; [done|]. split; [done|].
  rewrite Htaken, Hgiven. f_equal. unfold set_refs_config. f_equal.
  unfold ctx_unrefs.
  destruct (surfaces (config b0)), (surface_used (config b0)),
           (context_id (config b0) =? VA_INVALID_ID),
           (config_id (config b0) =? VA_INVALID_ID); simpl; lia.
Qed.

Lemma init_replaces_idle_config_witness :
  ∃ res t_old,
    vaapi_init drm_build yv12_device_env granting_env demo_avctx
      {| hwaccel_ctx := Some (set_refs_config demo_ctx 2 (Some demo_buf));
         hwaccel_context := Some {| va_display := 9; va_config_id := 5;
                                    va_context_id := 6 |};
         hwaccel_uninit := true; hwaccel_get_buffer := true;
         hwaccel_retrieve_data := true |}
    = Ok res ∧ in_superseded res = None ∧
    head t_old = Some (EvDestroySurfaces 9 (Some [100; 101]) 2) ∧
    ∃ t_new, in_trace res = t_old ++ t_new.
Proof.
  destruct (init_replaces_idle_config drm_build yv12_device_env granting_env
              demo_avctx
              {| hwaccel_ctx := Some (set_refs_config demo_ctx 2 (Some demo_buf));
                 hwaccel_context := Some {| va_display := 9; va_config_id := 5;
                                            va_context_id := 6 |};
                 hwaccel_uninit := true; hwaccel_get_buffer := true;
                 hwaccel_retrieve_data := true |}
              _ _ demo_buf 9 _ eq_refl eq_refl eq_refl eq_refl eq_refl eq_refl
              ltac:(vm_compute; reflexivity) ltac:(vm_compute; reflexivity))
    as (res & t_old & b & Hrun & _ & Hold & _ & Hhead & Htr & _).
  exists res, t_old. split; [exact Hrun|]. split; [exact Hold|].
  split; [exact Hhead|]. eexists. exact Htr.
Defined.

(** X15. vaapi_init reports every failure of vaapi_create_config as
    AVERROR_UNKNOWN, whatever code the inner call returned (a missing
    decoder profile and a failed allocation included), after logging it.
    The device context survives with its reference count unchanged but
    has no current config any more -- the previous one, still held by
    frames, is handed over to them -- while s->hwaccel_context and the
    hooks stay as an earlier call left them. *)
Theorem init_failure_is_unknown (bc : build_config) (ce : create_context_env)
    (cfe : create_config_env) (s : AVCodecContext) (st : stream)
    (c : VAAPIContext) (r : create_config_result) :
  hwaccel_ctx st = Some c →
  (∀ b0, cur_config_buf c = Some b0 → refcount b0 ≠ 1) →
  vaapi_create_config cfe (display c) None s = Ok r → cc_ret r < 0 →
  ∃ res,
    vaapi_init bc ce cfe s st = Ok res ∧ in_ret res = AVERROR_UNKNOWN ∧
    last (in_trace res)
    = Some (EvLog "Error initializing a VAAPI configuration."%string) ∧
    in_superseded res
    = (λ b0, {| config := config b0; refcount := refcount b0 - 1 |})
        <$> cur_config_buf c ∧
    hwaccel_ctx (in_stream res) = Some (set_refs_config c (self_refs c) None) ∧
    hwaccel_context (in_stream res) = hwaccel_context st ∧
    hwaccel_get_buffer (in_stream res) = hwaccel_get_buffer st ∧
    hwaccel_retrieve_data (in_stream res) = hwaccel_retrieve_data st ∧
    hwaccel_uninit (in_stream res) = hwaccel_uninit st.
Proof.
  intros Hctx Hold Hrun Hret.
  destruct (create_config_failure_refs cfe (display c) None s r Hrun ltac:(lia))
    as (Hrefs & Hbuf).
  assert (cc_cur_config_buf r = None) as Hnone by (by destruct Hbuf).
  unfold vaapi_init. rewrite Hctx. cbn [mbind outcome_bind]. rewrite Hctx.
  assert (Hunref : match cur_config_buf c with
                   | Some b0 => config_buf_unref b0
                   | None => Ok (None, [])
                   end
                   = Ok ((λ b0, {| config := config b0; refcount := refcount b0 - 1 |})
                           <$> cur_config_buf c, [])).
  { destruct (cur_config_buf c) as [b0|] eqn:Hcur; [|done].
    unfold config_buf_unref. specialize (Hold b0 eq_refl).
    by destruct (Z.eqb_spec (refcount b0) 1). }
  rewrite Hunref. cbn [mbind outcome_bind]. rewrite Hrun.
  cbn [mbind outcome_bind]. apply Z.ltb_lt in Hret. rewrite Hret.
  eexists. split; [done|]. simpl.
  split; [done|]. split; [by rewrite last_snoc|]. split; [done|].
  split; [|done].
  rewrite Hnone, Hrefs. f_equal. unfold set_refs_config. f_equal.
  unfold ctx_unrefs at 1. simpl. lia.
Qed.

Lemma init_failure_is_unknown_witness :
  ∃ res,
    vaapi_init drm_build yv12_device_env
      no_profile_env
      demo_avctx
      {| hwaccel_ctx := Some demo_ctx; hwaccel_context := None;
         hwaccel_uninit := true; hwaccel_get_buffer := false;
         hwaccel_retrieve_data := false |}
    = Ok res ∧ in_ret res = AVERROR_UNKNOWN ∧
    hwaccel_get_buffer (in_stream res) = false.
Proof.
  destruct (init_failure_is_unknown drm_build yv12_device_env
              no_profile_env
              demo_avctx
              {| hwaccel_ctx := Some demo_ctx; hwaccel_context := None;
                 hwaccel_uninit := true; hwaccel_get_buffer := false;
                 hwaccel_retrieve_data := false |}
              demo_ctx _ eq_refl ltac:(intros b0; discriminate)
              ltac:(vm_compute; reflexivity) ltac:(vm_compute; reflexivity))
    as (res & Hrun & Hret & _ & _ & _ & _ & Hgb & _).
  exists res. split; [exact Hrun|]. split; [exact Hret|exact Hgb].
Defined.

Lemma create_context_ret_sign bc (e : create_context_env) hw hc r :
  vaapi_create_context bc e hw hc = Ok r → ci_ret r = 0 ∨ ci_ret r < 0.
Proof.
  assert (Hneg : AVERROR EINVAL < 0 ∧ AVERROR ENOMEM < 0) by (by vm_compute).
  unfold vaapi_create_context.
  destruct (ci_mallocz_ok e); simpl; [|intros [= <-]; right; apply Hneg].
  destruct (ci_buffer_create_ok e); simpl; [|intros [= <-]; right; apply Hneg].
  destruct (ci_frame_alloc_ok e); simpl;
    [|intros ->%create_context_fail_ret; right; apply Hneg].
  destruct (if HAVE_VAAPI_DRM bc then _ else _) as [c1 t1].
  destruct (if HAVE_VAAPI_X11 bc && _ then _ else _) as [c2 t2].
  destruct (display c2 =? 0);
    [intros ->%create_context_fail_ret; right; apply Hneg|].
  destruct (ci_vaInitialize e =? VA_STATUS_SUCCESS); simpl;
    [|intros ->%create_context_fail_ret; right; apply Hneg].
  destruct (pf_ret (pick_format (ci_pick e) c2) <? 0);
    [intros ->%create_context_fail_ret; right; apply Hneg|].
  destruct (ci_alloc_context_ok e); simpl;
    [|intros ->%create_context_fail_ret; right; apply Hneg].
  intros [= <-]. by left.
Qed.

Lemma create_config_ret_sign (e : create_config_env) (display : Z)
    (cur : option config_buf) (s : AVCodecContext) (r : create_config_result) :
  vaapi_create_config e display cur s = Ok r → cc_ret r = 0 ∨ cc_ret r < 0.
Proof.
  assert (Hneg : AVERROR EINVAL < 0 ∧ AVERROR ENOMEM < 0 ∧ AVERROR_UNKNOWN < 0)
    by (by vm_compute).
  destruct Hneg as (He & Hm & Hu).
  unfold vaapi_create_config. intros Hrun.
  destruct (cc_profile e) as [profile|]; [|injection Hrun as <-; by right].
  destruct (cc_mallocz_ok e); simpl in Hrun; [|injection Hrun as <-; by right].
  destruct (cc_buffer_create_ok e); simpl in Hrun; [|injection Hrun as <-; by right].
  destruct (cc_ctx_ref_ok e); simpl in Hrun;
    [|apply create_config_fail_ret in Hrun; right; by rewrite Hrun].
  match type of Hrun with
  | context [mbind _ ?m] => destruct m as [nb| |]
  end; simpl in Hrun; try discriminate.
  destruct (array_alloc (cc_surfaces_ok e) nb _) as [ids0|];
    [|apply create_config_fail_ret in Hrun; right; by rewrite Hrun].
  destruct (array_alloc (cc_used_ok e) nb _) as [flags0|];
    [|apply create_config_fail_ret in Hrun; right; by rewrite Hrun].
  destruct (cc_create_surfaces e =? VA_STATUS_SUCCESS); simpl in Hrun.
  2:{ destruct ids0; [done|]. apply create_config_fail_ret in Hrun.
      right; by rewrite Hrun. }
  destruct (cc_create_config e =? VA_STATUS_SUCCESS); simpl in Hrun;
    [|apply create_config_fail_ret in Hrun; right; by rewrite Hrun].
  destruct (cc_create_context e =? VA_STATUS_SUCCESS); simpl in Hrun;
    [|apply create_config_fail_ret in Hrun; right; by rewrite Hrun].
  injection Hrun as <-. by left.
Qed.

Lemma settle_device_app t1 t2 :
  settle_device (t1 ++ t2) = device_add (settle_device t1) (settle_device t2).
Proof.
  unfold settle_device. induction t1 as [|ev t1 IH]; simpl.
  - destruct (foldr _ _ t2). unfold device_add. simpl. done.
  - rewrite IH. unfold device_add. simpl. f_equal; lia.
Qed.

(** The connection attempts create and destroy nothing the two ledgers
    count. *)
Lemma open_display_neutral bc e c0 :
  settle_config (open_display bc e c0).2 = config_nothing ∧
  settle_device (open_display bc e c0).2 = device_nothing.
Proof.
  unfold open_display, vaapi_open_drm, vaapi_open_x11.
  destruct (HAVE_VAAPI_DRM bc), (HAVE_VAAPI_X11 bc); simpl;
    repeat match goal with
           | |- context [if ?b then _ else _] => destruct b; simpl
           end; done.
Qed.

(** What the first successful vaapi_init on an untouched stream leaves:
    the device context with two references (its own and the config's),
    and the traces of the two creations one after the other. *)
Lemma init_fresh_success_inv (bc : build_config) (ce : create_context_env)
    (cfe : create_config_env) (s : AVCodecContext) (res : init_result) :
  vaapi_init bc ce cfe s fresh_stream = Ok res → in_ret res = 0 →
  let c0 := set_tmp_frame zeroed_context (Some blank_frame) in
  let c2 := (open_display bc ce c0).1 in
  ∃ rc r f pix b,
    vaapi_create_context bc ce None false = Ok rc ∧ ci_ret rc = 0 ∧
    vaapi_create_config cfe (display c2) None s = Ok r ∧ cc_ret r = 0 ∧
    cc_cur_config_buf r = Some b ∧
    res = {| in_ret := 0;
             in_stream :=
               {| hwaccel_ctx :=
                    Some (set_refs_config (set_format c2 f pix) 2 (Some b));
                  hwaccel_context :=
                    Some {| va_display := display c2;
                            va_config_id := config_id (config b);
                            va_context_id := context_id (config b) |};
                  hwaccel_uninit := true; hwaccel_get_buffer := true;
                  hwaccel_retrieve_data := true |};
             in_superseded := None;
             in_trace := ci_trace rc ++ cc_trace r |}.
Proof.
  intros Hrun Hret. cbv zeta.
  unfold vaapi_init, fresh_stream in Hrun.
  cbn [hwaccel_ctx hwaccel_context is_some] in Hrun.
  destruct (vaapi_create_context bc ce None false) as [rc| |] eqn:Hcc;
    cbn [mbind outcome_bind] in Hrun; try discriminate.
  destruct (create_context_ret_sign _ _ _ _ _ Hcc) as [Hrc|Hrc].
  2:{ apply Z.ltb_lt in Hrc. rewrite Hrc in Hrun. cbn in Hrun.
      injection Hrun as <-. cbn in Hret. apply Z.ltb_lt in Hrc. lia. }
  destruct (create_context_success_inv _ _ _ _ _ Hcc Hrc)
    as (Hd & Hhave & _ & f & pix & Hctx & _ & _ & Htr).
  destruct (open_display_keeps bc ce
              (set_tmp_frame zeroed_context (Some blank_frame)))
    as (Hrefs & _ & Hcur & _).
  cbv zeta in Hd, Hctx, Hrefs, Hcur.
  set (c2 := (open_display bc ce _).1) in *.
  rewrite Hrc, Hctx in Hrun.
  cbn [Z.ltb Z.compare mbind outcome_bind hwaccel_ctx hwaccel_context
       hwaccel_uninit hwaccel_get_buffer hwaccel_retrieve_data orb
       cur_config_buf set_format display self_refs] in Hrun.
  rewrite Hcur, Hrefs in Hrun.
  cbn [set_tmp_frame zeroed_context cur_config_buf self_refs
       mbind outcome_bind] in Hrun.
  destruct (vaapi_create_config cfe (display c2) None s) as [r| |] eqn:Hcfg;
    cbn [mbind outcome_bind] in Hrun; try discriminate.
  destruct (create_config_ret_sign _ _ _ _ _ Hcfg) as [Hr|Hr].
  2:{ apply Z.ltb_lt in Hr. rewrite Hr in Hrun. injection Hrun as <-.
      vm_compute in Hret. discriminate. }
  destruct (create_config_success _ _ _ _ _ Hcfg Hr) as (_ & Hbuf).
  destruct (create_config_success_trace _ _ _ _ _ Hcfg Hr)
    as (profile & nb' & ids' & Hctr).
  destruct (ctx_refs_success_trace (display c2) (coded_width s) (coded_height s)
              nb' profile (cc_new_config_id cfe) ids') as (Htaken & Hgiven).
  rewrite <- Hctr in Htaken, Hgiven.
  rewrite Hr, Hbuf, Htaken, Hgiven in Hrun.
  cbn [Z.ltb Z.compare] in Hrun.
  injection Hrun as <-.
  eexists rc, r, f, pix, _. rewrite Hbuf.
  split; [done|]. split; [done|]. split; [done|]. split; [done|].
  split; [done|]. reflexivity.
Qed.

(** vaapi_uninit when it drops the last reference on the config and
    then the last reference on the device context. *)
Lemma uninit_last_reference (bc : build_config) (c : VAAPIContext)
    (hc : bool) (b : config_buf) (t1 : trace) :
  cur_config_buf c = Some b → config_buf_unref b = Ok (None, t1) →
  self_refs c - ctx_unrefs t1 = 1 →
  vaapi_uninit bc (Some c) hc
  = Ok {| un_ctx := None; un_config := None;
          un_trace :=
            (t1 ++ av_freep HVaapiCtx hc)
            ++ (if HAVE_VAAPI_DRM bc then [EvClose (drm_fd c)] else [])
            ++ (if HAVE_VAAPI_X11 bc && negb (dpy c =? 0)
                then [EvXCloseDisplay (dpy c)] else [])
            ++ (if negb (display c =? 0) then [EvTerminate (display c)] else [])
            ++ av_freep HTmpFrame (is_some (tmp_frame c))
            ++ [EvFree HContext] |}.
Proof.
  intros Hcur Hunref Hrefs. unfold vaapi_uninit.
  rewrite Hcur, Hunref. cbn [mbind outcome_bind]. cbv zeta.
  rewrite Hrefs. reflexivity.
Qed.



(** ** Retrieval *)

(** The calls a retrieval makes when every step succeeds, and what it
    leaves in the device context. *)
Lemma retrieve_success_inv (e : retrieve_env) (c : VAAPIContext)
    (frame : AVFrame) (slot : nat) (priv : VAAPIFrame) (ptr : Z) :
  tmp_frame c = Some blank_frame →
  data frame !! 3%nat = Some ptr → buf0 frame = Some (SurfaceBuf slot priv) →
  image_wf (rd_image e) →
  first_failure e = None →
  ∃ r,
    vaapi_retrieve_data e c frame = Ok r ∧
    rd_ctx r = set_refs_tmp c (self_refs c + 1) (Some blank_frame) ∧
    buf0 (rd_frame r)
    = Some (ImageBuf (rd_mapped e) (data_size (rd_image e))
              {| img_ctx := Some (display c); img_ctx_buf := true;
                 image := rd_image e |}) ∧
    width (rd_frame r) = width frame ∧ height (rd_frame r) = height frame ∧
    rd_trace r
    = [EvAlloc HImage; EvRef RCtxSelf;
       EvCreateImage (display c) (fourcc (img_fmt c)) (width frame)
         (height frame) VA_STATUS_SUCCESS (image_id (rd_image e))
         (buf (rd_image e));
       EvGetImage (display c) (ptr mod 2 ^ 32) (width frame) (height frame)
         (image_id (rd_image e)) VA_STATUS_SUCCESS;
       EvMapBuffer (display c) (buf (rd_image e)) VA_STATUS_SUCCESS;
       EvFrameUnref].
Proof.
  intros Htmp Hptr Hbuf0 (Hp & Ho & Hnp & Hpit & Hid & Hbuf) Hok.
  unfold first_failure in Hok. unfold vaapi_retrieve_data.
  rewrite Hptr. cbn [mbind outcome_bind].
  destruct (rd_mallocz_ok e); [|done].
  destruct (rd_ctx_ref_ok e); [|done].
  destruct (Z.eqb_spec (rd_vaCreateImage e) VA_STATUS_SUCCESS) as [->|]; [|done].
  destruct (Z.eqb_spec (rd_vaGetImage e) VA_STATUS_SUCCESS) as [->|]; [|done].
  destruct (Z.eqb_spec (rd_vaMapBuffer e) VA_STATUS_SUCCESS) as [->|]; [|done].
  destruct (rd_buffer_create_ok e); [|done].
  destruct (rd_copy_props e <? 0) eqn:Hcp; [done|].
  simpl. rewrite Htmp. simpl.
  destruct (fill_planes_spec (rd_mapped e) (rd_image e)
              (Z.to_nat (num_planes (rd_image e))) 0
              (data blank_frame) (linesize blank_frame)
              Hp Ho ltac:(lia) eq_refl eq_refl)
    as (d & ls & Hfill & Hd & _).
  simpl in Hfill. rewrite Hfill. simpl. rewrite Hcp.
  unfold av_frame_unref. rewrite Hbuf0. simpl.
  destruct (lookup_lt_is_Some_2 d 1) as [u Hu]; [lia|].
  destruct (lookup_lt_is_Some_2 d 2) as [v Hv]; [lia|].
  destruct (pix_fmt c); simpl; unfold swap_chroma; rewrite ?Hu, ?Hv; simpl;
    eexists; (split; [done|]); simpl; done.
Qed.



Lemma filter_none (P : event → bool) (t : list event) :
  forallb (λ ev, negb (P ev)) t = true → filter (λ ev, P ev = true) t = [].
Proof.
  induction t as [|ev t IH]; [done|]. simpl. intros [Hev Ht]%andb_prop.
  rewrite (filter_cons (λ ev, P ev = true)).
  destruct (decide (P ev = true)) as [Hp|_]; [by rewrite Hp in Hev|].
  by apply IH.
Qed.

(** X18. The cleanup of a failed retrieval is driven by the ids stored
    in the image, not by what was acquired.  When vaCreateImage fails
    both ids still are VA_INVALID_ID and neither vaUnmapBuffer nor
    vaDestroyImage is called.  When vaGetImage or vaMapBuffer fails, the
    image is destroyed once, after its buffer was passed to
    vaUnmapBuffer once -- although no mapping was granted in the whole
    call. *)
Theorem failed_retrieval_cleanup (e : retrieve_env) (c : VAAPIContext)
    (frame : AVFrame) (st : stage) :
  is_Some (data frame !! 3%nat) → image_wf (rd_image e) →
  first_failure e = Some st →
  st = ImageCreation ∨ st = SurfaceCopy ∨ st = Mapping →
  ∃ r,
    vaapi_retrieve_data e c frame = Ok r ∧
    filter (λ ev, is_map_granted ev = true) (rd_trace r) = [] ∧
    (st = ImageCreation →
       filter (λ ev, is_unmap ev = true) (rd_trace r) = [] ∧
       filter (λ ev, is_destroy_image ev = true) (rd_trace r) = []) ∧
    (st ≠ ImageCreation →
       filter (λ ev, is_unmap ev = true) (rd_trace r)
       = [EvUnmapBuffer (display c) (buf (rd_image e))] ∧
       filter (λ ev, is_destroy_image ev = true) (rd_trace r)
       = [EvDestroyImage (display c) (image_id (rd_image e))] ∧
       precedes is_unmap is_destroy_image (rd_trace r)).
Proof.
  intros [ptr Hptr] (_ & _ & _ & _ & Hid & Hbuf) Hfail Hst.
  pose proof (free_image_valid (display c) (rd_image e) Hid Hbuf) as Hfree.
  unfold first_failure in Hfail. unfold vaapi_retrieve_data.
  rewrite Hptr. cbn [mbind outcome_bind].
  destruct (rd_mallocz_ok e); simpl in Hfail;
    [|injection Hfail as <-; by destruct Hst as [|[|]]].
  destruct (rd_ctx_ref_ok e); simpl in Hfail;
    [|injection Hfail as <-; by destruct Hst as [|[|]]].
  destruct (rd_vaCreateImage e =? VA_STATUS_SUCCESS) eqn:Hci; simpl in Hfail |- *.
  2:{ injection Hfail as <-. eexists. split; [done|].
      cbn [rd_trace]. split; [done|]. split; [done|by intros []]. }
  rewrite Hfree. cbn [mbind outcome_bind].
  destruct (rd_vaGetImage e =? VA_STATUS_SUCCESS) eqn:Hgi; simpl in Hfail |- *.
  2:{ injection Hfail as <-. eexists. split; [done|].
      cbn [rd_trace]. split; [done|]. split; [done|]. intros _.
      split; [done|]. split; [done|].
      eexists _, _. split; [reflexivity|]. split; [reflexivity|]. lia. }
  destruct (rd_vaMapBuffer e =? VA_STATUS_SUCCESS) eqn:Hmb; simpl in Hfail |- *.
  2:{ injection Hfail as <-. eexists. split; [done|].
      cbn [rd_trace]. split.
      { apply filter_none. simpl. by rewrite Hmb. }
      split; [done|]. intros _. split; [done|]. split; [done|].
      eexists _, _. split; [reflexivity|]. split; [reflexivity|]. lia. }
  destruct (rd_buffer_create_ok e); simpl in Hfail;
    [|injection Hfail as <-; by destruct Hst as [|[|]]].
  destruct (rd_copy_props e <? 0); [|done].
  injection Hfail as <-; by destruct Hst as [|[|]].
Qed.

Lemma failed_retrieval_cleanup_witness :
  ∃ r,
    vaapi_retrieve_data map_refused_env demo_ctx demo_hw_frame = Ok r ∧
    filter (λ ev, is_map_granted ev = true) (rd_trace r) = [] ∧
    filter (λ ev, is_unmap ev = true) (rd_trace r) = [EvUnmapBuffer 9 78].
Proof.
  destruct (failed_retrieval_cleanup map_refused_env demo_ctx demo_hw_frame
              Mapping (ex_intro _ 100 eq_refl) demo_image_wf eq_refl
              (or_intror (or_intror eq_refl)))
    as (r & Hrun & Hmap & _ & Hunmap).
  exists r. split; [exact Hrun|]. split; [exact Hmap|].
  exact (proj1 (Hunmap ltac:(discriminate))).
Defined.



(** ** Teardown while frames are still out *)


